(** * Osmia bicornis life stages: a shallow embedding of the ALMaSS Osmia model

    The development follows [Osmia_enhanced.cpp], [Osmia_enh_PART2_LifeStages.h],
    [Osmia_dox.h] and [Osmia_Population_Manager_dox.{h,cpp}].

    Conventions of the embedding.
    - A C++ [double] is an exact rational ([Q]); an [int] or [unsigned] is an
      integer ([Z]) and no wrap-around is modelled for the day counters.
    - The class hierarchy Osmia_Base <- Osmia_Egg <- Osmia_Larva <-
      Osmia_Prepupa <- Osmia_Pupa <- Osmia_InCocoon is a chain of records, each
      holding its base-class subobject; Osmia_Larva and Osmia_Pupa add no data
      member and are the records of their base class.
    - Member functions are written in a small monad [M] that threads the random
      number generator and the list of external effects (random draws, objects
      handed to the population manager, nest calls) and that has no result when
      the C++ code dereferences a null nest pointer or leaves the process.
    - Static members of Osmia_Base, the population manager, the landscape and
      the nests are read from an explicit environment [Env]. *)

From Stdlib Require Import ZArith QArith Qround Qminmax List Bool Lia Lqa.
Import ListNotations.

Local Open Scope Z_scope.
Local Open Scope Q_scope.

(** ** Numbers *)

(** [a < b] on doubles, as a boolean test. *)
Definition Qltb (a b : Q) : bool := negb (Qle_bool b a).

(** [int(d)]: conversion of a double to an integer truncates towards zero. *)
Definition Qtrunc (d : Q) : Z := Z.quot (Qnum d) (Zpos (Qden d)).

(** ** Enumerations *)

Inductive TTypeOfOsmiaState : Set :=
| toOsmias_InitialState
| toOsmias_Develop
| toOsmias_NextStage
| toOsmias_Disperse
| toOsmias_NestProvisioning
| toOsmias_ReproductiveBehaviour
| toOsmias_Emerged
| toOsmias_Die.

Inductive TTypeOfOsmiaParasitoids : Set :=
| topara_Unparasitised
| topara_Bombylid
| topara_Cleptoparasite
| topara_foobar.

Inductive TTypeOfOsmiaLifeStages : Set :=
| to_OsmiaEgg
| to_OsmiaLarva
| to_OsmiaPrepupa
| to_OsmiaPupa
| to_OsmiaInCocoon
| to_OsmiaFemale.

Definition is_Unparasitised (p : TTypeOfOsmiaParasitoids) : bool :=
  match p with topara_Unparasitised => true | _ => false end.

(** ** Initialisation data, nests, configuration *)

(** [class struct_Osmia]; the pointers [L] and [OPM] are the environment and
    are not stored.  A nest pointer is [None] for [nullptr]. *)
Record struct_Osmia : Type := {
  x : Z;
  y : Z;
  age : Z;
  sex : bool;
  nest : option nat;
  parasitised : TTypeOfOsmiaParasitoids;
  mass : Q;
  pest_mortality : Q;
  overwintering_degree_days : Q
}.

(** The two data members of [Osmia_Nest] that the immature stages read. *)
Record Osmia_Nest : Type := {
  m_isOpen : bool;
  m_aspectdelay : Z
}.

Definition GetIsOpen (n : Osmia_Nest) : bool := m_isOpen n.
Definition GetAspectDelay (n : Osmia_Nest) : Z := m_aspectdelay n.

(** The configuration values read by [Osmia_Base::SetParameterValues] for the
    stages modelled here. *)
Record Cfg : Type := {
  cfg_OsmiaEggDailyMORT : Q;
  cfg_OsmiaLarvaDailyMORT : Q;
  cfg_OsmiaPrepupaDailyMORT : Q;
  cfg_OsmiaPupaDailyMORT : Q;
  cfg_OsmiaInCocoonWinterMortConst : Q;
  cfg_OsmiaInCocoonWinterMortSlope : Q;
  cfg_OsmiaEggDevelTotalDD : Q;
  cfg_OsmiaEggDevelThreshold : Q;
  cfg_OsmiaLarvaDevelThreshold : Q;
  cfg_OsmiaLarvaDevelTotalDD : Q;
  cfg_OsmiaPupaDevelTotalDD : Q;
  cfg_OsmiaPupaDevelThreshold : Q;
  cfg_OsmiaPrepupaDevelTotalDays : Q;
  cfg_OsmiaInCocoonOverwinteringTempThreshold : Q;
  cfg_OsmiaInCocoonEmergenceTempThreshold : Q;
  cfg_OsmiaInCocoonPrewinteringTempThreshold : Q;
  cfg_OsmiaInCocoonEmergCountConst : Q;
  cfg_OsmiaInCocoonEmergCountSlope : Q;
  cfg_OsmiaFemaleMassFromProvMassConst : Q;
  cfg_OsmiaFemaleMassFromProvMassSlope : Q
}.

(** The static parameter members of [Osmia_Base]. *)
Record Params : Type := {
  m_DailyDevelopmentMortEggs : Q;
  m_DailyDevelopmentMortLarvae : Q;
  m_DailyDevelopmentMortPrepupae : Q;
  m_DailyDevelopmentMortPupae : Q;
  m_OsmiaInCocoonWinterMortConst : Q;
  m_OsmiaInCocoonWinterMortSlope : Q;
  m_OsmiaEggDevelTotalDD : Q;
  m_OsmiaEggDevelThreshold : Q;
  m_OsmiaLarvaDevelThreshold : Q;
  m_OsmiaLarvaDevelTotalDD : Q;
  m_OsmiaPupaDevelTotalDD : Q;
  m_OsmiaPupaDevelThreshold : Q;
  m_OsmiaPrepupalDevelTotalDays : Q;
  m_OsmiaPrepupalDevelTotalDays10pct : Q;
  m_OsmiaInCocoonOverwinteringTempThreshold : Q;
  m_OsmiaInCocoonEmergenceTempThreshold : Q;
  m_OsmiaInCocoonPrewinteringTempThreshold : Q;
  m_OsmiaInCocoonEmergCountConst : Q;
  m_OsmiaInCocoonEmergCountSlope : Q;
  m_OsmiaFemaleMassFromProvMassConst : Q;
  m_OsmiaFemaleMassFromProvMassSlope : Q
}.

(** [Osmia_Base::SetParameterValues], mortality, development and mass
    conversion parameters. *)
Definition SetParameterValues (c : Cfg) : Params := {|
  m_DailyDevelopmentMortEggs := cfg_OsmiaEggDailyMORT c;
  m_DailyDevelopmentMortLarvae := cfg_OsmiaLarvaDailyMORT c;
  m_DailyDevelopmentMortPrepupae := cfg_OsmiaPrepupaDailyMORT c;
  m_DailyDevelopmentMortPupae := cfg_OsmiaPupaDailyMORT c;
  m_OsmiaInCocoonWinterMortConst := cfg_OsmiaInCocoonWinterMortConst c;
  m_OsmiaInCocoonWinterMortSlope := cfg_OsmiaInCocoonWinterMortSlope c;
  m_OsmiaEggDevelTotalDD := cfg_OsmiaEggDevelTotalDD c;
  m_OsmiaEggDevelThreshold := cfg_OsmiaEggDevelThreshold c;
  m_OsmiaLarvaDevelThreshold := cfg_OsmiaLarvaDevelThreshold c;
  m_OsmiaLarvaDevelTotalDD := cfg_OsmiaLarvaDevelTotalDD c;
  m_OsmiaPupaDevelTotalDD := cfg_OsmiaPupaDevelTotalDD c;
  m_OsmiaPupaDevelThreshold := cfg_OsmiaPupaDevelThreshold c;
  m_OsmiaPrepupalDevelTotalDays := cfg_OsmiaPrepupaDevelTotalDays c;
  m_OsmiaPrepupalDevelTotalDays10pct := cfg_OsmiaPrepupaDevelTotalDays c * 0.1;
  m_OsmiaInCocoonOverwinteringTempThreshold :=
    cfg_OsmiaInCocoonOverwinteringTempThreshold c;
  m_OsmiaInCocoonEmergenceTempThreshold :=
    cfg_OsmiaInCocoonEmergenceTempThreshold c;
  m_OsmiaInCocoonPrewinteringTempThreshold :=
    cfg_OsmiaInCocoonPrewinteringTempThreshold c;
  m_OsmiaInCocoonEmergCountConst := cfg_OsmiaInCocoonEmergCountConst c;
  m_OsmiaInCocoonEmergCountSlope := cfg_OsmiaInCocoonEmergCountSlope c;
  m_OsmiaFemaleMassFromProvMassConst := cfg_OsmiaFemaleMassFromProvMassConst c;
  m_OsmiaFemaleMassFromProvMassSlope := cfg_OsmiaFemaleMassFromProvMassSlope c
|}.

(** The default values of the configuration variables. *)
Definition default_Cfg : Cfg := {|
  cfg_OsmiaEggDailyMORT := 0.0014;
  cfg_OsmiaLarvaDailyMORT := 0.0014;
  cfg_OsmiaPrepupaDailyMORT := 0.003;
  cfg_OsmiaPupaDailyMORT := 0.003;
  cfg_OsmiaInCocoonWinterMortConst := -4.63;
  cfg_OsmiaInCocoonWinterMortSlope := 0.05;
  cfg_OsmiaEggDevelTotalDD := 86;
  cfg_OsmiaEggDevelThreshold := 0;
  cfg_OsmiaLarvaDevelThreshold := 4.5;
  cfg_OsmiaLarvaDevelTotalDD := 422;
  cfg_OsmiaPupaDevelTotalDD := 570;
  cfg_OsmiaPupaDevelThreshold := 1.1;
  cfg_OsmiaPrepupaDevelTotalDays := 45;
  cfg_OsmiaInCocoonOverwinteringTempThreshold := 0;
  cfg_OsmiaInCocoonEmergenceTempThreshold := 5;
  cfg_OsmiaInCocoonPrewinteringTempThreshold := 15;
  cfg_OsmiaInCocoonEmergCountConst := 35.4819;
  cfg_OsmiaInCocoonEmergCountSlope := -0.0147;
  cfg_OsmiaFemaleMassFromProvMassConst := 4;
  cfg_OsmiaFemaleMassFromProvMassSlope := 0.25
|}.

(** ** Objects *)

(** [Osmia_Base] with the members of [TAnimal] that the stages use.  A nest
    pointer is [None] for [nullptr], otherwise the index of the nest. *)
Record Osmia_Base : Type := {
  m_Location_x : Z;
  m_Location_y : Z;
  m_CurrentStateNo : Z;
  m_StepDone : bool;
  m_CurrentOState : TTypeOfOsmiaState;
  m_Age : Z;
  m_Mass : Q;
  m_ParasitoidStatus : TTypeOfOsmiaParasitoids;
  m_OurNest : option nat
}.

Record Osmia_Egg : Type := {
  egg_base :> Osmia_Base;
  m_AgeDegrees : Q;
  m_Sex : bool;
  m_StageAge : Z;
  m_egg_pest_mortality : Q
}.

(** [class Osmia_Larva : public Osmia_Egg] declares no data member. *)
Definition Osmia_Larva : Type := Osmia_Egg.

Record Osmia_Prepupa : Type := {
  prepupa_larva :> Osmia_Egg;        (* the Osmia_Larva subobject *)
  m_myOsmiaPrepupaDevelTotalDays : Q
}.

(** [class Osmia_Pupa : public Osmia_Prepupa] declares no data member. *)
Definition Osmia_Pupa : Type := Osmia_Prepupa.

Record Osmia_InCocoon : Type := {
  incocoon_pupa :> Osmia_Prepupa;    (* the Osmia_Pupa subobject *)
  m_emergencecounter : Z;
  m_DDPrewinter : Q
}.

(** An object owned by the population manager.  Of [Osmia_Female] only the
    [Osmia_InCocoon] base-class subobject is represented. *)
Inductive Individual : Type :=
| Ind_Egg (e : Osmia_Egg)
| Ind_Larva (l : Osmia_Larva)
| Ind_Prepupa (p : Osmia_Prepupa)
| Ind_Pupa (p : Osmia_Pupa)
| Ind_InCocoon (c : Osmia_InCocoon)
| Ind_Female (base : Osmia_InCocoon).

(** *** Member updates *)

Definition upd_Base (f : Osmia_Base -> Osmia_Base) (e : Osmia_Egg) : Osmia_Egg :=
  {| egg_base := f (egg_base e);
     m_AgeDegrees := m_AgeDegrees e;
     m_Sex := m_Sex e;
     m_StageAge := m_StageAge e;
     m_egg_pest_mortality := m_egg_pest_mortality e |}.

Definition upd_Egg (f : Osmia_Egg -> Osmia_Egg) (p : Osmia_Prepupa) : Osmia_Prepupa :=
  {| prepupa_larva := f (prepupa_larva p);
     m_myOsmiaPrepupaDevelTotalDays := m_myOsmiaPrepupaDevelTotalDays p |}.

Definition upd_Pupa (f : Osmia_Prepupa -> Osmia_Prepupa) (c : Osmia_InCocoon)
  : Osmia_InCocoon :=
  {| incocoon_pupa := f (incocoon_pupa c);
     m_emergencecounter := m_emergencecounter c;
     m_DDPrewinter := m_DDPrewinter c |}.

Definition Base_set_state (st : TTypeOfOsmiaState) (b : Osmia_Base) : Osmia_Base :=
  {| m_Location_x := m_Location_x b;
     m_Location_y := m_Location_y b;
     m_CurrentStateNo := m_CurrentStateNo b;
     m_StepDone := m_StepDone b;
     m_CurrentOState := st;
     m_Age := m_Age b;
     m_Mass := m_Mass b;
     m_ParasitoidStatus := m_ParasitoidStatus b;
     m_OurNest := m_OurNest b |}.

Definition Base_set_StepDone (d : bool) (b : Osmia_Base) : Osmia_Base :=
  {| m_Location_x := m_Location_x b;
     m_Location_y := m_Location_y b;
     m_CurrentStateNo := m_CurrentStateNo b;
     m_StepDone := d;
     m_CurrentOState := m_CurrentOState b;
     m_Age := m_Age b;
     m_Mass := m_Mass b;
     m_ParasitoidStatus := m_ParasitoidStatus b;
     m_OurNest := m_OurNest b |}.

(** [m_Age++] *)
Definition Base_inc_Age (b : Osmia_Base) : Osmia_Base :=
  {| m_Location_x := m_Location_x b;
     m_Location_y := m_Location_y b;
     m_CurrentStateNo := m_CurrentStateNo b;
     m_StepDone := m_StepDone b;
     m_CurrentOState := m_CurrentOState b;
     m_Age := (m_Age b + 1)%Z;
     m_Mass := m_Mass b;
     m_ParasitoidStatus := m_ParasitoidStatus b;
     m_OurNest := m_OurNest b |}.

(** [m_OurNest = n] *)
Definition Base_set_OurNest (n : option nat) (b : Osmia_Base) : Osmia_Base :=
  {| m_Location_x := m_Location_x b;
     m_Location_y := m_Location_y b;
     m_CurrentStateNo := m_CurrentStateNo b;
     m_StepDone := m_StepDone b;
     m_CurrentOState := m_CurrentOState b;
     m_Age := m_Age b;
     m_Mass := m_Mass b;
     m_ParasitoidStatus := m_ParasitoidStatus b;
     m_OurNest := n |}.

(** [TAnimal::KillThis]: "sets current state to -1 and StepDone to true". *)
Definition KillThis (b : Osmia_Base) : Osmia_Base :=
  {| m_Location_x := m_Location_x b;
     m_Location_y := m_Location_y b;
     m_CurrentStateNo := (-1)%Z;
     m_StepDone := true;
     m_CurrentOState := m_CurrentOState b;
     m_Age := m_Age b;
     m_Mass := m_Mass b;
     m_ParasitoidStatus := m_ParasitoidStatus b;
     m_OurNest := m_OurNest b |}.

Definition Egg_set_AgeDegrees (d : Q) (e : Osmia_Egg) : Osmia_Egg :=
  {| egg_base := egg_base e;
     m_AgeDegrees := d;
     m_Sex := m_Sex e;
     m_StageAge := m_StageAge e;
     m_egg_pest_mortality := m_egg_pest_mortality e |}.

Definition Egg_set_pest_mortality (d : Q) (e : Osmia_Egg) : Osmia_Egg :=
  {| egg_base := egg_base e;
     m_AgeDegrees := m_AgeDegrees e;
     m_Sex := m_Sex e;
     m_StageAge := m_StageAge e;
     m_egg_pest_mortality := d |}.

Definition InCocoon_set_emergencecounter (n : Z) (c : Osmia_InCocoon) : Osmia_InCocoon :=
  {| incocoon_pupa := incocoon_pupa c;
     m_emergencecounter := n;
     m_DDPrewinter := m_DDPrewinter c |}.

Definition InCocoon_set_DDPrewinter (d : Q) (c : Osmia_InCocoon) : Osmia_InCocoon :=
  {| incocoon_pupa := incocoon_pupa c;
     m_emergencecounter := m_emergencecounter c;
     m_DDPrewinter := d |}.

(** *** Accessors of [Osmia_Egg] *)

Definition GetAgeDegrees (e : Osmia_Egg) : Q := m_AgeDegrees e.

(** [void SetAgeDegrees(unsigned a_agedegrees)]: the parameter is an unsigned
    integer, converted back to double by the assignment. *)
Definition SetAgeDegrees (a_agedegrees : Z) (e : Osmia_Egg) : Osmia_Egg :=
  Egg_set_AgeDegrees (inject_Z a_agedegrees) e.

(** The implicit conversion of a double argument to [unsigned] at a call of
    [SetAgeDegrees]: the value is truncated towards zero; the conversion is
    defined only when the truncated value is representable in 32 bits. *)
Definition double_to_unsigned (v : Q) : option Z :=
  let t := Qtrunc v in
  if ((0 <=? t) && (t <? 2 ^ 32))%Z then Some t else None.

(** ** Effects and the simulation monad *)

Inductive NestCall : Set :=
| AddEgg
| AddCocoon
| ReplaceNestPointer
| RemoveCell.

Inductive Effect : Type :=
| Ev_rand_uni (u : Q)                    (* g_rand_uni_fnc() returned u *)
| Ev_random (range r : Z)                (* g_random_fnc(range) returned r *)
| Ev_emergenceday (d : Z)                (* m_emergenceday.Geti() returned d *)
| Ev_PushIndividual (i : Individual)     (* new ...; PushIndividual(...) *)
| Ev_nest (call : NestCall) (n : nat).   (* a call on nest n *)

(** The generator is a supply of future results; [trace] lists the effects so
    far, oldest first. *)
Record Sim : Type := {
  rand_uni : nat -> Q;
  rand_int : nat -> Z;
  trace : list Effect
}.

(** A computation returns its result, or nothing when the C++ code
    dereferences a null pointer or calls [std::exit], together with the
    generator and the effects up to that point. *)
Definition M (A : Type) : Type := Sim -> option A * Sim.

Definition ret {A : Type} (a : A) : M A := fun s => (Some a, s).

Definition bind {A B : Type} (m : M A) (f : A -> M B) : M B :=
  fun s => match m s with
           | (Some a, s') => f a s'
           | (None, s') => (None, s')
           end.

(** Null dereference or [std::exit]. *)
Definition stop {A : Type} : M A := fun s => (None, s).

Declare Scope sim_scope.
Delimit Scope sim_scope with sim.
Notation "x <- c1 ;; c2" := (bind c1 (fun x => c2))
  (at level 61, c1 at next level, right associativity) : sim_scope.
Notation "c1 ;;; c2" := (bind c1 (fun _ => c2))
  (at level 61, right associativity) : sim_scope.
Local Open Scope sim_scope.

Definition emit (e : Effect) : M unit :=
  fun s => (Some tt, {| rand_uni := rand_uni s;
                        rand_int := rand_int s;
                        trace := trace s ++ [e] |}).

Definition next_uni : M Q :=
  fun s => (Some (rand_uni s 0%nat),
            {| rand_uni := fun n => rand_uni s (S n);
               rand_int := rand_int s;
               trace := trace s |}).

Definition next_int : M Z :=
  fun s => (Some (rand_int s 0%nat),
            {| rand_uni := rand_uni s;
               rand_int := fun n => rand_int s (S n);
               trace := trace s |}).

(** [g_rand_uni_fnc()]: a double in [0,1). *)
Definition g_rand_uni_fnc : M Q :=
  u <- next_uni ;; emit (Ev_rand_uni u) ;;; ret u.

(** [g_random_fnc(range)]: an integer in [0,range). *)
Definition g_random_fnc (range : Z) : M Z :=
  r <- next_int ;; emit (Ev_random range r) ;;; ret r.

(** [m_emergenceday.Geti()]: a draw from the discrete emergence-day
    distribution. *)
Definition m_emergenceday_Geti : M Z :=
  d <- next_int ;; emit (Ev_emergenceday d) ;;; ret d.

(** ** Population manager and daily environment *)

Record Osmia_Population_Manager : Type := {
  m_PreWinteringEndFlag : bool;
  m_OverWinterEndFlag : bool;
  m_PrePupalDevelRates : list Q;
  m_PrePupalDevelDaysToday : Q
}.

Definition IsEndPreWinter (pm : Osmia_Population_Manager) : bool :=
  m_PreWinteringEndFlag pm.

Definition IsOverWinterEnd (pm : Osmia_Population_Manager) : bool :=
  m_OverWinterEndFlag pm.

Definition GetPrePupalDevelDays (pm : Osmia_Population_Manager) : Q :=
  m_PrePupalDevelDaysToday pm.

(** What a member function reads besides its own object: the build flag and
    the pesticide switch, the calendar constants [March] and [June] of the
    framework, the static members of [Osmia_Base], the population manager,
    [m_OurLandscape->SupplyTemp()], the nests, and the value [indeterminate]
    that a double member without initialiser holds before its first
    assignment. *)
Record Env : Type := {
  OSMIA_PESTICIDE_ENGINE : bool;
  cfg_OsmiaEggThresholdBasedPesticideResponse : bool;
  March : Z;
  June : Z;
  statics : Params;
  m_TempToday : Q;
  m_DayInYear : Z;
  OPM : Osmia_Population_Manager;
  SupplyTemp : Q;
  nests : nat -> Osmia_Nest;
  indeterminate : Q
}.

(** [Osmia_Population_Manager::DoFirst], the part that publishes today's
    temperature ([Osmia_Base::SetTemp]) and the prepupal development rate.
    The result is [None] when the table has no entry at the index. *)
Definition DoFirst (env : Env) : option Env :=
  let temp := SupplyTemp env in
  let temp_i := Qfloor (temp + 0.5) in
  let temp_i := if (temp_i <? 0)%Z then 0%Z else temp_i in
  let temp_i := if (temp_i >? 41)%Z then 41%Z else temp_i in
  match nth_error (m_PrePupalDevelRates (OPM env)) (Z.to_nat temp_i) with
  | None => None
  | Some rate =>
      Some {| OSMIA_PESTICIDE_ENGINE := OSMIA_PESTICIDE_ENGINE env;
              cfg_OsmiaEggThresholdBasedPesticideResponse :=
                cfg_OsmiaEggThresholdBasedPesticideResponse env;
              March := March env;
              June := June env;
              statics := statics env;
              m_TempToday := temp;
              m_DayInYear := m_DayInYear env;
              OPM := {| m_PreWinteringEndFlag := m_PreWinteringEndFlag (OPM env);
                        m_OverWinterEndFlag := m_OverWinterEndFlag (OPM env);
                        m_PrePupalDevelRates := m_PrePupalDevelRates (OPM env);
                        m_PrePupalDevelDaysToday := rate |};
              SupplyTemp := SupplyTemp env;
              nests := nests env;
              indeterminate := indeterminate env |}
  end.

(** [m_OurNest->...]: the nest behind a nest pointer. *)
Definition deref (env : Env) (p : option nat) : M (nat * Osmia_Nest) :=
  match p with
  | Some n => ret (n, nests env n)
  | None => stop
  end.

(** ** Constructors and [ReInit] *)

(** [Osmia_Base::ReInit]; [TAnimal::ReinitialiseObject] sets the location and
    makes the object live again. *)
Definition Osmia_Base_ReInit (data : struct_Osmia) (this : Osmia_Base) : Osmia_Base :=
  {| m_Location_x := x data;
     m_Location_y := y data;
     m_CurrentStateNo := 0%Z;
     m_StepDone := false;
     m_CurrentOState := toOsmias_InitialState;
     m_Age := age data;
     m_Mass := mass data;
     m_ParasitoidStatus := parasitised data;
     m_OurNest := m_OurNest this |}.

(** [Osmia_Base::Osmia_Base] *)
Definition Osmia_Base_ctor (data : struct_Osmia) : Osmia_Base :=
  let this :=
    {| m_Location_x := x data;
       m_Location_y := y data;
       m_CurrentStateNo := 0%Z;
       m_StepDone := false;
       m_CurrentOState := toOsmias_InitialState;
       m_Age := age data;
       m_Mass := mass data;
       m_ParasitoidStatus := parasitised data;
       m_OurNest := nest data |} in
  let this := Osmia_Base_ReInit data this in
  let this := Base_set_state toOsmias_InitialState this in
  Base_set_OurNest (nest data) this.

(** [Osmia_Egg::ReInit] *)
Definition Osmia_Egg_ReInit (env : Env) (data : struct_Osmia) (this : Osmia_Egg)
  : Osmia_Egg :=
  {| egg_base := Base_set_OurNest (nest data) (Osmia_Base_ReInit data this);
     m_AgeDegrees := 0;
     m_Sex := sex data;
     m_StageAge := age data;
     m_egg_pest_mortality :=
       if OSMIA_PESTICIDE_ENGINE env && Qltb 0 (pest_mortality data)
       then pest_mortality data
       else m_egg_pest_mortality this |}.

(** [Osmia_Egg::Osmia_Egg].  [m_egg_pest_mortality] has no initialiser. *)
Definition Osmia_Egg_ctor (env : Env) (data : struct_Osmia) : Osmia_Egg :=
  let this :=
    {| egg_base := Osmia_Base_ctor data;
       m_AgeDegrees := 0;
       m_Sex := sex data;
       m_StageAge := age data;
       m_egg_pest_mortality := indeterminate env |} in
  Osmia_Egg_ReInit env data this.

(** [Osmia_Larva::ReInit], [Osmia_Larva::Osmia_Larva] *)
Definition Osmia_Larva_ReInit (env : Env) (data : struct_Osmia) (this : Osmia_Larva)
  : Osmia_Larva :=
  Osmia_Egg_ReInit env data this.

Definition Osmia_Larva_ctor (env : Env) (data : struct_Osmia) : Osmia_Larva :=
  Osmia_Larva_ReInit env data (Osmia_Egg_ctor env data).

(** [Osmia_Prepupa::ReInit] *)
Definition Osmia_Prepupa_ReInit (env : Env) (data : struct_Osmia) (this : Osmia_Prepupa)
  : Osmia_Prepupa :=
  upd_Egg (Osmia_Larva_ReInit env data) this.

(** [Osmia_Prepupa::Osmia_Prepupa]: the individual duration of the stage is
    drawn here. *)
Definition Osmia_Prepupa_ctor (env : Env) (data : struct_Osmia) : M Osmia_Prepupa :=
  let this := {| prepupa_larva := Osmia_Larva_ctor env data;
                 m_myOsmiaPrepupaDevelTotalDays := indeterminate env |} in
  let this := Osmia_Prepupa_ReInit env data this in
  let this := upd_Egg (Egg_set_AgeDegrees 0) this in
  u <- g_rand_uni_fnc ;;
  let max20pct := m_OsmiaPrepupalDevelTotalDays (statics env) * 0.2 * u in
  ret {| prepupa_larva := prepupa_larva this;
         m_myOsmiaPrepupaDevelTotalDays :=
           m_OsmiaPrepupalDevelTotalDays (statics env) + max20pct
           - m_OsmiaPrepupalDevelTotalDays10pct (statics env) |}.

(** [Osmia_Pupa::ReInit], [Osmia_Pupa::Osmia_Pupa] *)
Definition Osmia_Pupa_ReInit (env : Env) (data : struct_Osmia) (this : Osmia_Pupa)
  : Osmia_Pupa :=
  Osmia_Prepupa_ReInit env data this.

Definition Osmia_Pupa_ctor (env : Env) (data : struct_Osmia) : M Osmia_Pupa :=
  this <- Osmia_Prepupa_ctor env data ;;
  ret (Osmia_Pupa_ReInit env data this).

(** [Osmia_InCocoon::ReInit] *)
Definition Osmia_InCocoon_ReInit (env : Env) (data : struct_Osmia) (this : Osmia_InCocoon)
  : Osmia_InCocoon :=
  {| incocoon_pupa :=
       upd_Egg (Egg_set_AgeDegrees (overwintering_degree_days data))
               (Osmia_Pupa_ReInit env data this);
     m_emergencecounter := 99999%Z;
     m_DDPrewinter := 0 |}.

(** [Osmia_InCocoon::Osmia_InCocoon]; its two own members are first assigned
    by [ReInit]. *)
Definition Osmia_InCocoon_ctor (env : Env) (data : struct_Osmia) : M Osmia_InCocoon :=
  pupa <- Osmia_Pupa_ctor env data ;;
  let this := {| incocoon_pupa := pupa;
                 m_emergencecounter := 0%Z;
                 m_DDPrewinter := indeterminate env |} in
  let this := Osmia_InCocoon_ReInit env data this in
  let this := InCocoon_set_emergencecounter 99999%Z this in
  ret (InCocoon_set_DDPrewinter 0 this).

(** ** [Osmia_Population_Manager::CreateObjects] *)

(** One round of the loop: construct the object, hand it to the population
    manager and register it with its nest.  [a_caller_null] says whether
    [a_caller] is [NULL].  Of [new Osmia_Female(data)] the construction of the
    base-class subobject is modelled. *)
Definition CreateObject (env : Env) (os_type : TTypeOfOsmiaLifeStages)
    (a_caller_null : bool) (data : struct_Osmia) : M unit :=
  match os_type with
  | to_OsmiaEgg =>
      let new_Osmia_Egg := Osmia_Egg_ctor env data in
      emit (Ev_PushIndividual (Ind_Egg new_Osmia_Egg)) ;;;
      n <- deref env (nest data) ;;
      emit (Ev_nest AddEgg (fst n))
  | to_OsmiaLarva =>
      let new_Osmia_Larva := Osmia_Larva_ctor env data in
      emit (Ev_PushIndividual (Ind_Larva new_Osmia_Larva)) ;;;
      n <- deref env (nest data) ;;
      emit (Ev_nest ReplaceNestPointer (fst n))
  | to_OsmiaPrepupa =>
      new_Osmia_Prepupa <- Osmia_Prepupa_ctor env data ;;
      emit (Ev_PushIndividual (Ind_Prepupa new_Osmia_Prepupa)) ;;;
      n <- deref env (nest data) ;;
      emit (Ev_nest ReplaceNestPointer (fst n))
  | to_OsmiaPupa =>
      new_Osmia_Pupa <- Osmia_Pupa_ctor env data ;;
      emit (Ev_PushIndividual (Ind_Pupa new_Osmia_Pupa)) ;;;
      n <- deref env (nest data) ;;
      emit (Ev_nest ReplaceNestPointer (fst n))
  | to_OsmiaInCocoon =>
      new_Osmia_InCocoon <- Osmia_InCocoon_ctor env data ;;
      emit (Ev_PushIndividual (Ind_InCocoon new_Osmia_InCocoon)) ;;;
      n <- deref env (nest data) ;;
      emit (Ev_nest (if a_caller_null then AddCocoon else ReplaceNestPointer) (fst n))
  | to_OsmiaFemale =>
      new_Osmia_Female <- Osmia_InCocoon_ctor env data ;;
      emit (Ev_PushIndividual (Ind_Female new_Osmia_Female))
  end.

(** The loop [for (int i = 0; i < number; i++)]. *)
Fixpoint CreateObjects_loop (env : Env) (os_type : TTypeOfOsmiaLifeStages)
    (a_caller_null : bool) (data : struct_Osmia) (rounds : nat) : M unit :=
  match rounds with
  | O => ret tt
  | S rounds' =>
      CreateObject env os_type a_caller_null data ;;;
      CreateObjects_loop env os_type a_caller_null data rounds'
  end.

Definition CreateObjects (env : Env) (os_type : TTypeOfOsmiaLifeStages)
    (a_caller_null : bool) (data : struct_Osmia) (number : Z) : M unit :=
  CreateObjects_loop env os_type a_caller_null data (Z.to_nat number).

(** ** Behaviour shared by the stages *)

(** The initialisation data that every transition fills from the object:
    age, location, nest, parasitism status, mass and sex; the two remaining
    members keep their default initialisers. *)
Definition carry_forward (this : Osmia_Egg) : struct_Osmia :=
  {| x := m_Location_x this;
     y := m_Location_y this;
     age := m_Age this;
     sex := m_Sex this;
     nest := m_OurNest this;
     parasitised := m_ParasitoidStatus this;
     mass := m_Mass this;
     pest_mortality := 0;
     overwintering_degree_days := 0 |}.

(** [Osmia_Base::st_Dying] *)
Definition Osmia_Base_st_Dying (env : Env) (this : Osmia_Base) : M Osmia_Base :=
  let this := KillThis this in
  n <- deref env (m_OurNest this) ;;
  emit (Ev_nest RemoveCell (fst n)) ;;;
  ret this.

(** The body shared by [Osmia_Egg::Step], [Osmia_Larva::Step],
    [Osmia_Prepupa::Step], [Osmia_Pupa::Step] and [Osmia_InCocoon::Step]; the
    virtual calls are the parameters [st_Develop] and [st_NextStage]. *)
Section Step.
Context {T : Type}.
Variable base : T -> Osmia_Base.
Variable upd : (Osmia_Base -> Osmia_Base) -> T -> T.
Variable st_Develop : Env -> T -> M (TTypeOfOsmiaState * T).
Variable st_NextStage : Env -> T -> M (TTypeOfOsmiaState * T).

Definition Step (env : Env) (this : T) : M T :=
  if m_StepDone (base this) || (m_CurrentStateNo (base this) =? -1)%Z then ret this
  else
    match m_CurrentOState (base this) with
    | toOsmias_InitialState =>
        ret (upd (Base_set_state toOsmias_Develop) this)
    | toOsmias_Develop =>
        r <- st_Develop env this ;;
        let this := upd (Base_set_state (fst r)) (snd r) in
        ret (upd (Base_set_StepDone true) this)
    | toOsmias_NextStage =>
        r <- st_NextStage env this ;;
        ret (upd (Base_set_state (fst r)) (snd r))
    | toOsmias_Die =>
        b <- Osmia_Base_st_Dying env (base this) ;;
        let this := upd (fun _ => b) this in
        ret (upd (Base_set_StepDone true) this)
    | _ => stop
    end.
End Step.

(** ** Osmia_Egg *)

Definition Osmia_Egg_DailyMortality (env : Env) (this : Osmia_Egg) : M bool :=
  u <- g_rand_uni_fnc ;;
  if Qltb u (m_DailyDevelopmentMortEggs (statics env)) then ret true else ret false.

Definition Osmia_Egg_st_Develop (env : Env) (this : Osmia_Egg)
  : M (TTypeOfOsmiaState * Osmia_Egg) :=
  let develop (this : Osmia_Egg) : M (TTypeOfOsmiaState * Osmia_Egg) :=
    let this := upd_Base Base_inc_Age this in
    let DD := m_TempToday env - m_OsmiaEggDevelThreshold (statics env) in
    let this :=
      if Qltb 0 DD then Egg_set_AgeDegrees (m_AgeDegrees this + DD) this else this in
    if Qltb (m_OsmiaEggDevelTotalDD (statics env)) (m_AgeDegrees this)
    then ret (toOsmias_NextStage, this)
    else ret (toOsmias_Develop, this) in
  n <- deref env (m_OurNest this) ;;
  if negb (GetIsOpen (snd n)) then
    dead <- Osmia_Egg_DailyMortality env this ;;
    if dead then ret (toOsmias_Die, this)
    else if OSMIA_PESTICIDE_ENGINE env && cfg_OsmiaEggThresholdBasedPesticideResponse env
    then
      u <- g_rand_uni_fnc ;;
      if Qltb u (m_egg_pest_mortality this) then ret (toOsmias_Die, this)
      else develop (Egg_set_pest_mortality 0 this)
    else develop this
  else develop this.

Definition Osmia_Egg_st_Hatch (env : Env) (this : Osmia_Egg)
  : M (TTypeOfOsmiaState * Osmia_Egg) :=
  let sO := carry_forward this in
  CreateObjects env to_OsmiaLarva false sO 1 ;;;
  let this := upd_Base KillThis this in
  ret (toOsmias_Emerged, this).

Definition Osmia_Egg_Step : Env -> Osmia_Egg -> M Osmia_Egg :=
  Step egg_base upd_Base Osmia_Egg_st_Develop Osmia_Egg_st_Hatch.

(** ** Osmia_Larva *)

Definition Osmia_Larva_DailyMortality (env : Env) (this : Osmia_Larva) : M bool :=
  u <- g_rand_uni_fnc ;;
  if Qltb u (m_DailyDevelopmentMortLarvae (statics env)) then ret true else ret false.

Definition Osmia_Larva_st_Develop (env : Env) (this : Osmia_Larva)
  : M (TTypeOfOsmiaState * Osmia_Larva) :=
  let develop (this : Osmia_Larva) : M (TTypeOfOsmiaState * Osmia_Larva) :=
    let this := upd_Base Base_inc_Age this in
    let DD := SupplyTemp env - m_OsmiaLarvaDevelThreshold (statics env) in
    let this :=
      if Qltb 0 DD then Egg_set_AgeDegrees (m_AgeDegrees this + DD) this else this in
    if Qltb (m_OsmiaLarvaDevelTotalDD (statics env)) (m_AgeDegrees this)
    then ret (toOsmias_NextStage, this)
    else ret (toOsmias_Develop, this) in
  n <- deref env (m_OurNest this) ;;
  if negb (GetIsOpen (snd n)) then
    dead <- Osmia_Larva_DailyMortality env this ;;
    if dead then ret (toOsmias_Die, this) else develop this
  else develop this.

Definition Osmia_Larva_st_Prepupate (env : Env) (this : Osmia_Larva)
  : M (TTypeOfOsmiaState * Osmia_Larva) :=
  let sO := carry_forward this in
  CreateObjects env to_OsmiaPrepupa false sO 1 ;;;
  let this := upd_Base KillThis this in
  ret (toOsmias_Emerged, this).

Definition Osmia_Larva_Step : Env -> Osmia_Larva -> M Osmia_Larva :=
  Step egg_base upd_Base Osmia_Larva_st_Develop Osmia_Larva_st_Prepupate.

(** ** Osmia_Prepupa *)

Definition Osmia_Prepupa_DailyMortality (env : Env) (this : Osmia_Prepupa) : M bool :=
  u <- g_rand_uni_fnc ;;
  if Qltb u (m_DailyDevelopmentMortPrepupae (statics env)) then ret true else ret false.

(** The test [m_AgeDegrees++ > m_myOsmiaPrepupaDevelTotalDays] compares the
    value before the post-increment and then adds one to the member. *)
Definition Osmia_Prepupa_st_Develop (env : Env) (this : Osmia_Prepupa)
  : M (TTypeOfOsmiaState * Osmia_Prepupa) :=
  dead <- Osmia_Prepupa_DailyMortality env this ;;
  if dead then ret (toOsmias_Die, this)
  else
    let this := upd_Egg (upd_Base Base_inc_Age) this in
    let this :=
      upd_Egg (Egg_set_AgeDegrees (m_AgeDegrees this + GetPrePupalDevelDays (OPM env)))
              this in
    let test := Qltb (m_myOsmiaPrepupaDevelTotalDays this) (m_AgeDegrees this) in
    let this := upd_Egg (Egg_set_AgeDegrees (m_AgeDegrees this + 1)) this in
    if test then ret (toOsmias_NextStage, this) else ret (toOsmias_Develop, this).

Definition Osmia_Prepupa_st_Pupate (env : Env) (this : Osmia_Prepupa)
  : M (TTypeOfOsmiaState * Osmia_Prepupa) :=
  let sO := carry_forward this in
  CreateObjects env to_OsmiaPupa false sO 1 ;;;
  let this := upd_Egg (upd_Base KillThis) this in
  ret (toOsmias_Emerged, this).

Definition Osmia_Prepupa_Step : Env -> Osmia_Prepupa -> M Osmia_Prepupa :=
  Step (fun p : Osmia_Prepupa => egg_base p) (fun f => upd_Egg (upd_Base f))
       Osmia_Prepupa_st_Develop Osmia_Prepupa_st_Pupate.

(** ** Osmia_Pupa *)

Definition Osmia_Pupa_DailyMortality (env : Env) (this : Osmia_Pupa) : M bool :=
  u <- g_rand_uni_fnc ;;
  if Qltb u (m_DailyDevelopmentMortPupae (statics env)) then ret true else ret false.

Definition Osmia_Pupa_st_Develop (env : Env) (this : Osmia_Pupa)
  : M (TTypeOfOsmiaState * Osmia_Pupa) :=
  dead <- Osmia_Pupa_DailyMortality env this ;;
  if dead then ret (toOsmias_Die, this)
  else
    let this := upd_Egg (upd_Base Base_inc_Age) this in
    let DD := SupplyTemp env - m_OsmiaPupaDevelThreshold (statics env) in
    let this :=
      if Qltb 0 DD
      then upd_Egg (Egg_set_AgeDegrees (m_AgeDegrees this + DD)) this
      else this in
    if Qltb (m_OsmiaPupaDevelTotalDD (statics env)) (m_AgeDegrees this)
    then ret (toOsmias_NextStage, this)
    else ret (toOsmias_Develop, this).

Definition Osmia_Pupa_st_Emerge (env : Env) (this : Osmia_Pupa)
  : M (TTypeOfOsmiaState * Osmia_Pupa) :=
  let sO := carry_forward this in
  CreateObjects env to_OsmiaInCocoon false sO 1 ;;;
  let this := upd_Egg (upd_Base KillThis) this in
  ret (toOsmias_Emerged, this).

Definition Osmia_Pupa_Step : Env -> Osmia_Pupa -> M Osmia_Pupa :=
  Step (fun p : Osmia_Pupa => egg_base p) (fun f => upd_Egg (upd_Base f))
       Osmia_Pupa_st_Develop Osmia_Pupa_st_Emerge.

(** ** Osmia_InCocoon *)

Definition Osmia_InCocoon_WinterMortality (env : Env) (this : Osmia_InCocoon) : M bool :=
  r <- g_random_fnc 100 ;;
  if Qltb (inject_Z r)
          (m_OsmiaInCocoonWinterMortSlope (statics env) * m_DDPrewinter this
           + m_OsmiaInCocoonWinterMortConst (statics env))
  then ret true else ret false.

Definition Osmia_InCocoon_st_Develop (env : Env) (this : Osmia_InCocoon)
  : M (TTypeOfOsmiaState * Osmia_InCocoon) :=
  let this := upd_Pupa (upd_Egg (upd_Base Base_inc_Age)) this in
  if IsEndPreWinter (OPM env) then
    if negb (IsOverWinterEnd (OPM env)) then
      let DD := m_TempToday env - m_OsmiaInCocoonOverwinteringTempThreshold (statics env) in
      let this :=
        if Qltb 0 DD
        then upd_Pupa (upd_Egg (Egg_set_AgeDegrees (m_AgeDegrees this + DD))) this
        else this in
      ret (toOsmias_Develop, this)
    else if (m_DayInYear env =? March env + 1)%Z then
      d <- m_emergenceday_Geti ;;
      n <- deref env (m_OurNest this) ;;
      let this :=
        InCocoon_set_emergencecounter
          (Qtrunc (m_OsmiaInCocoonEmergCountConst (statics env)
                   + m_OsmiaInCocoonEmergCountSlope (statics env) * m_AgeDegrees this)
           + d + GetAspectDelay (snd n))%Z this in
      ret (toOsmias_Develop, this)
    else if Qle_bool (m_OsmiaInCocoonEmergenceTempThreshold (statics env)) (m_TempToday env)
    then
      let this := InCocoon_set_emergencecounter (m_emergencecounter this - 1)%Z this in
      if (m_emergencecounter this <? 1)%Z then
        dead <- Osmia_InCocoon_WinterMortality env this ;;
        if dead then ret (toOsmias_Die, this) else ret (toOsmias_NextStage, this)
      else if (m_DayInYear env =? June env - 1)%Z then ret (toOsmias_Die, this)
      else ret (toOsmias_Develop, this)
    else ret (toOsmias_Develop, this)
  else
    let this :=
      if Qltb (m_OsmiaInCocoonPrewinteringTempThreshold (statics env)) (m_TempToday env)
      then InCocoon_set_DDPrewinter
             (m_DDPrewinter this
              + (m_TempToday env - m_OsmiaInCocoonPrewinteringTempThreshold (statics env)))
             this
      else this in
    ret (toOsmias_Develop, this).

Definition Osmia_InCocoon_st_Emerge (env : Env) (this : Osmia_InCocoon)
  : M (TTypeOfOsmiaState * Osmia_InCocoon) :=
  let leave (this : Osmia_InCocoon) : M (TTypeOfOsmiaState * Osmia_InCocoon) :=
    let this := upd_Pupa (upd_Egg (upd_Base KillThis)) this in
    n <- deref env (m_OurNest this) ;;
    emit (Ev_nest RemoveCell (fst n)) ;;;
    ret (toOsmias_Emerged, this) in
  if m_Sex this then
    if negb (is_Unparasitised (m_ParasitoidStatus this)) then ret (toOsmias_Die, this)
    else
      let sO :=
        {| x := m_Location_x this;
           y := m_Location_y this;
           age := 0;
           sex := m_Sex this;
           nest := None;
           parasitised := topara_Unparasitised;
           mass := m_OsmiaFemaleMassFromProvMassSlope (statics env) * m_Mass this
                   + m_OsmiaFemaleMassFromProvMassConst (statics env);
           pest_mortality := 0;
           overwintering_degree_days := 0 |} in
      CreateObjects env to_OsmiaFemale false sO 1 ;;;
      leave this
  else leave this.

Definition Osmia_InCocoon_Step : Env -> Osmia_InCocoon -> M Osmia_InCocoon :=
  Step (fun c : Osmia_InCocoon => egg_base c) (fun f => upd_Pupa (upd_Egg (upd_Base f)))
       Osmia_InCocoon_st_Develop Osmia_InCocoon_st_Emerge.

(** ** The scheduler *)

(** What the framework does to one object: it clears [m_StepDone] when a new
    day begins and it calls [Step], with the environment of that moment. *)
Inductive Sched : Type :=
| SetStepDone_false
| Call_Step (env : Env).

Section Run.
Context {T : Type}.
Variable upd : (Osmia_Base -> Osmia_Base) -> T -> T.
Variable step : Env -> T -> M T.

Fixpoint run (sched : list Sched) (this : T) : M T :=
  match sched with
  | [] => ret this
  | SetStepDone_false :: sched' => run sched' (upd (Base_set_StepDone false) this)
  | Call_Step env :: sched' => this' <- step env this ;; run sched' this'
  end.
End Run.

Definition Osmia_Egg_run : list Sched -> Osmia_Egg -> M Osmia_Egg :=
  run upd_Base Osmia_Egg_Step.

Definition Osmia_Larva_run : list Sched -> Osmia_Larva -> M Osmia_Larva :=
  run upd_Base Osmia_Larva_Step.

Definition Osmia_Pupa_run : list Sched -> Osmia_Pupa -> M Osmia_Pupa :=
  run (fun f => upd_Egg (upd_Base f)) Osmia_Pupa_Step.

Definition Osmia_Prepupa_run : list Sched -> Osmia_Prepupa -> M Osmia_Prepupa :=
  run (fun f => upd_Egg (upd_Base f)) Osmia_Prepupa_Step.

Definition Osmia_InCocoon_run : list Sched -> Osmia_InCocoon -> M Osmia_InCocoon :=
  run (fun f => upd_Pupa (upd_Egg (upd_Base f))) Osmia_InCocoon_Step.

(** ** Further members of the population manager *)

(** *** Vectors *)

(** [v[i]] for reading: no result outside the vector. *)
Definition vec_get {A : Type} (v : list A) (i : Z) : option A :=
  if (i <? 0)%Z then None else nth_error v (Z.to_nat i).

Fixpoint list_set {A : Type} (v : list A) (n : nat) (a : A) : list A :=
  match v, n with
  | [], _ => []
  | _ :: t, O => a :: t
  | h :: t, S n' => h :: list_set t n' a
  end.

(** [v[i] = f(v[i])]: no result outside the vector. *)
Definition vec_upd {A : Type} (v : list A) (i : Z) (f : A -> A) : option (list A) :=
  match vec_get v i with
  | Some a => Some (list_set v (Z.to_nat i) (f a))
  | None => None
  end.

(** *** The female density grid *)

Record DensityGrid : Type := {
  m_GridExtent : Z;
  m_FemaleDensityGrid : list Z
}.

(** [(a_loc.m_x / 1000) + (a_loc.m_y / 1000) * m_GridExtent], with the
    truncating division of [int]. *)
Definition density_index (g : DensityGrid) (m_x m_y : Z) : Z :=
  (Z.quot m_x 1000 + Z.quot m_y 1000 * m_GridExtent g)%Z.

(** [void AddToDensityGrid(int a_index)] *)
Definition AddToDensityGrid (g : DensityGrid) (a_index : Z) : option DensityGrid :=
  match vec_upd (m_FemaleDensityGrid g) a_index (fun n => (n + 1)%Z) with
  | Some v => Some {| m_GridExtent := m_GridExtent g; m_FemaleDensityGrid := v |}
  | None => None
  end.

(** [int AddToDensityGrid(APoint a_loc)]: the index used is returned. *)
Definition AddToDensityGrid_APoint (g : DensityGrid) (m_x m_y : Z)
  : option (Z * DensityGrid) :=
  let index := density_index g m_x m_y in
  match AddToDensityGrid g index with
  | Some g' => Some (index, g')
  | None => None
  end.

(** [void RemoveFromDensityGrid(int a_index)] *)
Definition RemoveFromDensityGrid (g : DensityGrid) (a_index : Z) : option DensityGrid :=
  match vec_upd (m_FemaleDensityGrid g) a_index (fun n => (n - 1)%Z) with
  | Some v => Some {| m_GridExtent := m_GridExtent g; m_FemaleDensityGrid := v |}
  | None => None
  end.

(** [int GetDensity(int a_index)] *)
Definition GetDensity (g : DensityGrid) (a_index : Z) : option Z :=
  vec_get (m_FemaleDensityGrid g) a_index.

(** [int GetDensity(APoint a_loc)] *)
Definition GetDensity_APoint (g : DensityGrid) (m_x m_y : Z) : option Z :=
  GetDensity g (density_index g m_x m_y).

(** [void ClearDensityGrid()] *)
Definition ClearDensityGrid (g : DensityGrid) : DensityGrid :=
  {| m_GridExtent := m_GridExtent g;
     m_FemaleDensityGrid := map (fun _ => 0%Z) (m_FemaleDensityGrid g) |}.

(** The grid as [Osmia_Population_Manager::Init] makes it from the landscape
    extent: [m_GridExtent = SimW / 1000], [GEy = SimH / 1000],
    [resize(m_GridExtent * GEy)], [ClearDensityGrid()]. *)
Definition Init_DensityGrid (SimW SimH : Z) : DensityGrid :=
  let extent := Z.quot SimW 1000 in
  let GEy := Z.quot SimH 1000 in
  ClearDensityGrid {| m_GridExtent := extent;
                      m_FemaleDensityGrid := repeat 0%Z (Z.to_nat (extent * GEy)) |}.

(** *** The end of the day: [Osmia_Population_Manager::DoLast] *)

(** The seasonal flags; the statistics output under conditional compilation
    is left out.  [today] is [SupplyDayInYear()], [day] is
    [g_date->OldDays() + g_date->DayInYear()], [SupplyTempPeriod d] is the
    landscape's [SupplyTempPeriod(d, 1)]; [September], [March] and [June] are
    the calendar constants of the framework. *)
Definition DoLast (September March_ June_ : Z) (SupplyTempPeriod : Z -> Q)
    (today day : Z) (pm : Osmia_Population_Manager) : Osmia_Population_Manager :=
  let set_flags (pre over : bool) (pm : Osmia_Population_Manager) :=
    {| m_PreWinteringEndFlag := pre;
       m_OverWinterEndFlag := over;
       m_PrePupalDevelRates := m_PrePupalDevelRates pm;
       m_PrePupalDevelDaysToday := m_PrePupalDevelDaysToday pm |} in
  let pm :=
    if (today >? September)%Z then
      let t0 := SupplyTempPeriod day in
      if negb (m_PreWinteringEndFlag pm) then
        let t1 := SupplyTempPeriod (day - 1)%Z in
        let t2 := SupplyTempPeriod (day - 2)%Z in
        let t3 := SupplyTempPeriod (day - 3)%Z in
        let t4 := SupplyTempPeriod (day - 4)%Z in
        let t5 := SupplyTempPeriod (day - 5)%Z in
        if (Qltb t2 13 && Qltb t1 13 && Qltb t0 13)
           && ((Qltb 1 (t5 - t4) && Qltb 1 (t4 - t3))
               || (Qltb t3 13 && Qle_bool 3 (t5 - t4)))
        then set_flags true (m_OverWinterEndFlag pm) pm
        else pm
      else pm
    else pm in
  let pm :=
    if (today =? March_)%Z then set_flags (m_PreWinteringEndFlag pm) true pm else pm in
  if (today =? June_)%Z then set_flags false false pm else pm.

(** *** The parasitoid grid *)

(** Arithmetic of [unsigned] and the conversion of its result to [int]. *)
Definition wrap32 (z : Z) : Z := (z mod 2 ^ 32)%Z.

Definition to_int32 (u : Z) : Z := if (u <? 2 ^ 31)%Z then u else (u - 2 ^ 32)%Z.

Definition parasitoid_code (t : TTypeOfOsmiaParasitoids) : Z :=
  match t with
  | topara_Unparasitised => 0
  | topara_Bombylid => 1
  | topara_Cleptoparasite => 2
  | topara_foobar => 3
  end%Z.

Record OsmiaParasitoid_Population_Manager : Type := {
  m_SubPopulations : list Q;     (* the size of each sub-population *)
  m_Wide : Z;
  m_High : Z;
  m_CellSize : Z;
  m_Size : Z
}.

(** The index computed by [AddParasitoid]: the [int] coordinates are
    converted to [unsigned], the whole expression is evaluated modulo 2^32
    and converted to [int]; there is no result when [m_CellSize] is 0. *)
Definition AddParasitoid_subpop (pm : OsmiaParasitoid_Population_Manager)
    (a_type : TTypeOfOsmiaParasitoids) (a_x a_y : Z) : option Z :=
  if (m_CellSize pm =? 0)%Z then None
  else
    let cell :=
      wrap32 (wrap32 a_x / m_CellSize pm
              + wrap32 ((wrap32 a_y / m_CellSize pm) * m_Wide pm))%Z in
    let offset := wrap32 (wrap32 (parasitoid_code a_type - 1) * m_Size pm)%Z in
    Some (to_int32 (wrap32 (cell + offset))).

(** [void AddParasitoid(a_type, a_x, a_y)] *)
Definition AddParasitoid (pm : OsmiaParasitoid_Population_Manager)
    (a_type : TTypeOfOsmiaParasitoids) (a_x a_y : Z)
  : option OsmiaParasitoid_Population_Manager :=
  match AddParasitoid_subpop pm a_type a_x a_y with
  | None => None
  | Some subpop =>
      match vec_upd (m_SubPopulations pm) subpop (fun n => n + 1) with
      | Some v => Some {| m_SubPopulations := v;
                          m_Wide := m_Wide pm;
                          m_High := m_High pm;
                          m_CellSize := m_CellSize pm;
                          m_Size := m_Size pm |}
      | None => None
      end
  end.

(** *** Provision mass targets *)

(** The adult mass limits read by [Osmia_Base::SetParameterValues]. *)
Record MassCfg : Type := {
  cfg_OsmiaMaleMassMax : Q;
  cfg_OsmiaFemaleMassMin : Q;
  cfg_OsmiaFemaleMassMax : Q
}.

Record MassParams : Type := {
  m_MaleMaxMass : Q;
  m_FemaleMinMass : Q;
  m_FemaleMaxMass : Q;
  m_FemaleMinTargetProvisionMass : Q;
  m_FemaleMaxTargetProvisionMass : Q;
  m_MaleMinTargetProvisionMass : Q;
  m_MaleMaxTargetProvisionMass : Q
}.

(** [Osmia_Base::SetParameterValues], the mass parameters: the provision mass
    targets are the adult mass limits sent back through the linear
    conversion of provision mass to adult mass.  The division is that of the
    rationals; a slope of 0, where the C++ division gives an infinity, is
    outside the model. *)
Definition SetParameterValues_mass (c : Cfg) (mc : MassCfg) : MassParams :=
  let p := SetParameterValues c in
  let female_min :=
    (cfg_OsmiaFemaleMassMin mc - m_OsmiaFemaleMassFromProvMassConst p)
    / m_OsmiaFemaleMassFromProvMassSlope p in
  {| m_MaleMaxMass := cfg_OsmiaMaleMassMax mc;
     m_FemaleMinMass := cfg_OsmiaFemaleMassMin mc;
     m_FemaleMaxMass := cfg_OsmiaFemaleMassMax mc;
     m_FemaleMinTargetProvisionMass := female_min;
     m_FemaleMaxTargetProvisionMass :=
       (cfg_OsmiaFemaleMassMax mc - m_OsmiaFemaleMassFromProvMassConst p)
       / m_OsmiaFemaleMassFromProvMassSlope p;
     m_MaleMinTargetProvisionMass := female_min * 0.95;
     m_MaleMaxTargetProvisionMass :=
       (cfg_OsmiaMaleMassMax mc - m_OsmiaFemaleMassFromProvMassConst p)
       / m_OsmiaFemaleMassFromProvMassSlope p |}.

(** *** Seeding the population *)

(** The body of the loop of the constructor of the population manager that
    creates one overwintering female.  The landscape and the nest manager
    are parameters: [suitable_polygons], the location
    [SupplyARandomLocPoly pindex] and the nest [CreateNest x y pindex].  The
    loop does not assign [sp->age], which has no initialiser: [uninit_age]
    is the value it holds. *)
Definition seed_one (env : Env) (mc : MassCfg)
    (cfg_OsmiaOverwinterDegreeDaysInitialSimu : Q) (uninit_age : Z)
    (suitable_polygons : list Z) (SupplyARandomLocPoly : Z -> Z * Z)
    (CreateNest : Z -> Z -> Z -> option nat) : M unit :=
  let minmass := (cfg_OsmiaFemaleMassMin mc - 4) / 0.25 in
  let maxmass := (cfg_OsmiaFemaleMassMax mc - 4) / 0.25 in
  u <- g_rand_uni_fnc ;;
  let sp_mass := minmass + (maxmass - minmass) * u in
  r <- g_random_fnc (Z.of_nat (length suitable_polygons)) ;;
  match vec_get suitable_polygons r with
  | None => stop
  | Some pindex =>
      let temp_point := SupplyARandomLocPoly pindex in
      let sp :=
        {| x := fst temp_point;
           y := snd temp_point;
           age := uninit_age;
           sex := true;
           nest := CreateNest (fst temp_point) (snd temp_point) pindex;
           parasitised := topara_Unparasitised;
           mass := sp_mass;
           pest_mortality := 0;
           overwintering_degree_days := cfg_OsmiaOverwinterDegreeDaysInitialSimu |} in
      CreateObjects env to_OsmiaInCocoon true sp 1
  end.

(** The loop after the creation: [SetAgeDegrees(2000)] on every overwintering
    adult of the population. *)
Definition seed_SetAgeDegrees (c : Osmia_InCocoon) : Osmia_InCocoon :=
  upd_Pupa (upd_Egg (SetAgeDegrees 2000)) c.

(** ** Specification vocabulary *)

(** [returns m s P]: started in [s], the computation [m] returns a result, and
    the result and the final state satisfy [P]. *)
Definition returns {A : Type} (m : M A) (s : Sim) (P : A -> Sim -> Prop) : Prop :=
  match m s with
  | (Some a, s') => P a s'
  | (None, _) => False
  end.

(** The effects that [m] adds to the trace, whether it returns or not. *)
Definition adds {A : Type} (m : M A) (s : Sim) (new : list Effect) : Prop :=
  trace (snd (m s)) = trace s ++ new.

Definition is_random (e : Effect) : bool :=
  match e with Ev_random _ _ => true | _ => false end.

Definition is_draw (e : Effect) : bool :=
  match e with Ev_rand_uni _ | Ev_random _ _ => true | _ => false end.


(** Number of winter-mortality draws in a trace: [WinterMortality] is the only
    caller of [g_random_fnc]. *)
Definition winter_draws (tr : list Effect) : nat := length (filter is_random tr).

(** The outcome of the winter-mortality test for the draw [r]. *)
Definition winter_kills (env : Env) (this : Osmia_InCocoon) (r : Z) : bool :=
  Qltb (inject_Z r)
       (m_OsmiaInCocoonWinterMortSlope (statics env) * m_DDPrewinter this
        + m_OsmiaInCocoonWinterMortConst (statics env)).

(** Number of the [range] equally likely draws 0 .. range-1 that kill. *)
Definition killing_draws (env : Env) (this : Osmia_InCocoon) (range : nat) : nat :=
  length (filter (winter_kills env this) (map Z.of_nat (seq 0 range))).

Definition accumulated (temp thr : Q) (before after : Q) : Prop :=
  before <= after
  /\ after == before + Qmax 0 (temp - thr)
  /\ (temp <= thr -> after = before).

(** Mass, sex and parasitism status of a successor equal the predecessor's. *)
Definition carried (pred succ : Osmia_Egg) : Prop :=
  m_Mass succ = m_Mass pred
  /\ m_Sex succ = m_Sex pred
  /\ m_ParasitoidStatus succ = m_ParasitoidStatus pred.

(** The adult has left the developing states: it is dying or emerging. *)
Definition spent (this : Osmia_InCocoon) : bool :=
  match m_CurrentOState this with
  | toOsmias_InitialState | toOsmias_Develop => false
  | _ => true
  end.

(** The step on which the emergence counter drops below 1. *)
Definition counter_drops_below_1 (env : Env) (this : Osmia_InCocoon) : Prop :=
  IsEndPreWinter (OPM env) = true
  /\ IsOverWinterEnd (OPM env) = true
  /\ m_DayInYear env <> (March env + 1)%Z
  /\ m_OsmiaInCocoonEmergenceTempThreshold (statics env) <= m_TempToday env
  /\ (m_emergencecounter this - 1 < 1)%Z.

Definition acc_le (a b : Osmia_Egg) : Prop := m_AgeDegrees a <= m_AgeDegrees b.

(** Whether the day's tests kill the individual.  An egg in a sealed nest
    dies when the first draw is below the daily mortality or, with the
    pesticide response switched on, when the second draw is below its
    pesticide mortality; a larva in a sealed nest and a pupa die when the
    draw is below the daily mortality.  In an open nest nothing is drawn. *)
Definition Egg_dies (env : Env) (this : Osmia_Egg) (n : Osmia_Nest) (s : Sim) : bool :=
  negb (GetIsOpen n)
  && (Qltb (rand_uni s 0%nat) (m_DailyDevelopmentMortEggs (statics env))
      || (OSMIA_PESTICIDE_ENGINE env && cfg_OsmiaEggThresholdBasedPesticideResponse env
          && Qltb (rand_uni s 1%nat) (m_egg_pest_mortality this))).

Definition Larva_dies (env : Env) (n : Osmia_Nest) (s : Sim) : bool :=
  negb (GetIsOpen n)
  && Qltb (rand_uni s 0%nat) (m_DailyDevelopmentMortLarvae (statics env)).

Definition Pupa_dies (env : Env) (s : Sim) : bool :=
  Qltb (rand_uni s 0%nat) (m_DailyDevelopmentMortPupae (statics env)).

(** The change of the accumulator over one [st_Develop]: it does not
    decrease; an individual that the day's tests kill is sent to Die with its
    accumulator as it was, and every other individual is not sent to Die and
    gains [max(0, temp - threshold)]; a day at or below the threshold leaves
    the accumulator as it is. *)
Definition day_delta (dies : bool) (temp thr : Q) (before : Osmia_Egg)
    (r : TTypeOfOsmiaState * Osmia_Egg) : Prop :=
  m_AgeDegrees before <= m_AgeDegrees (snd r)
  /\ (if dies
      then fst r = toOsmias_Die /\ m_AgeDegrees (snd r) = m_AgeDegrees before
      else fst r <> toOsmias_Die
           /\ m_AgeDegrees (snd r) == m_AgeDegrees before + Qmax 0 (temp - thr))
  /\ (thr < temp \/ m_AgeDegrees (snd r) = m_AgeDegrees before).

(** [days n env]: the framework clears [m_StepDone] and calls [Step] once, on
    each of [n] days with the environment [env]. *)
Definition days (n : nat) (env : Env) : list Sched :=
  concat (repeat [SetStepDone_false; Call_Step env] n).

(** *** Vocabulary of the further properties *)

(** Number of calls on a nest in a trace. *)
Definition nest_calls (tr : list Effect) : nat :=
  length (filter (fun e => match e with Ev_nest _ _ => true | _ => false end) tr).

(** [Step] returns at once: the day's step is done or the object is dead. *)
Definition step_done (b : Osmia_Base) : bool :=
  m_StepDone b || (m_CurrentStateNo b =? -1)%Z.

(** One [Step] per day, each day with its own environment. *)
Definition daily (envs : list Env) : list Sched :=
  concat (map (fun env => [SetStepDone_false; Call_Step env]) envs).

(** Calls of [Step] without a new day in between. *)
Definition same_day (envs : list Env) : list Sched := map Call_Step envs.

(** A day of the pre-emergence phase, after the day the counter is set. *)
Definition pre_emergence (env : Env) : Prop :=
  IsEndPreWinter (OPM env) = true
  /\ IsOverWinterEnd (OPM env) = true
  /\ m_DayInYear env <> (March env + 1)%Z.

Definition warm_day (env : Env) : bool :=
  Qle_bool (m_OsmiaInCocoonEmergenceTempThreshold (statics env)) (m_TempToday env).

Definition warm_days (envs : list Env) : Z :=
  Z.of_nat (length (filter warm_day envs)).

(** [m] makes [k] calls on nests, whether it returns or not. *)
Definition calls_nest {A : Type} (m : M A) (s : Sim) (k : nat) : Prop :=
  exists new, adds m s new /\ nest_calls new = k.

(** The first [k] draws of [g_rand_uni_fnc] as they appear in the trace. *)
Definition uni_draws (s : Sim) (k : nat) : list Effect :=
  map (fun i => Ev_rand_uni (rand_uni s i)) (seq 0 k).

Arguments uni_draws : simpl never.

(** An egg in a sealed nest that is developing, and a generator whose draws
    all pass the daily mortality test. *)
Definition Egg_develops (env : Env) (n : nat) (egg : Osmia_Egg) (s : Sim) : Prop :=
  m_OurNest egg = Some n
  /\ m_CurrentOState egg = toOsmias_Develop
  /\ m_CurrentStateNo egg <> (-1)%Z
  /\ forall i, m_DailyDevelopmentMortEggs (statics env) <= rand_uni s i.

(** What a step of an overwintering adult keeps: prewinter and winter
    degree-days do not decrease, and mass, sex and parasitism status stay. *)
Definition InCocoon_kept (a b : Osmia_InCocoon) : Prop :=
  m_DDPrewinter a <= m_DDPrewinter b
  /\ m_AgeDegrees a <= m_AgeDegrees b
  /\ carried a b.

(** The environment after the population manager has changed. *)
Definition Env_set_OPM (pm : Osmia_Population_Manager) (env : Env) : Env :=
  {| OSMIA_PESTICIDE_ENGINE := OSMIA_PESTICIDE_ENGINE env;
     cfg_OsmiaEggThresholdBasedPesticideResponse :=
       cfg_OsmiaEggThresholdBasedPesticideResponse env;
     March := March env;
     June := June env;
     statics := statics env;
     m_TempToday := m_TempToday env;
     m_DayInYear := m_DayInYear env;
     OPM := pm;
     SupplyTemp := SupplyTemp env;
     nests := nests env;
     indeterminate := indeterminate env |}.

(** The value that [WinterMortality] compares the draw with. *)
Definition winter_mortality_value (env : Env) (this : Osmia_InCocoon) : Q :=
  m_OsmiaInCocoonWinterMortSlope (statics env) * m_DDPrewinter this
  + m_OsmiaInCocoonWinterMortConst (statics env).

(** How a successor object starts relative to its predecessor: in the
    initial state, alive, with no degree-days, and with the predecessor's age
    in days, nest and location. *)
Definition stage_entry (pred succ : Osmia_Egg) : Prop :=
  m_AgeDegrees succ = 0
  /\ m_CurrentOState succ = toOsmias_InitialState
  /\ m_StepDone succ = false
  /\ m_CurrentStateNo succ = 0%Z
  /\ m_Age succ = m_Age pred
  /\ m_StageAge succ = m_Age pred
  /\ m_OurNest succ = m_OurNest pred
  /\ m_Location_x succ = m_Location_x pred
  /\ m_Location_y succ = m_Location_y pred.

(** ** Sample data *)

Definition cfg_OsmiaPrepupalDevelRates : list Q :=
  [ 0.118180491; 0.128062924; 0.139167698; 0.151690375; 0.165863251; 0.181962547;
    0.200316654; 0.221315209; 0.245418359; 0.273164807; 0.305175879; 0.342150483;
    0.384842052; 0.434002716; 0.490272059; 0.553979475; 0.62482638; 0.701432201;
    0.780791977; 0.857828943; 0.925409524; 0.97526899; 1; 0.995492173; 0.96251684;
    0.90641791; 0.835121012; 0.756712977; 0.677752358; 0.602659522; 0.53389011;
    0.472441557; 0.418380352; 0.371255655; 0.330377543; 0.294984821; 0.264336547;
    0.237755941; 0.214646732; 0.194494708; 0.176862031; 0.161378614 ].

(** An environment with the default configuration: the calendar constants of
    the framework (1 March is day 59, 1 June is day 151), nest 0 sealed with
    aspect delay 2 and nest 1 still open. *)
Definition sample_Env (prewinter_end overwinter_end : bool) (day : Z) (temp : Q) : Env :=
  {| OSMIA_PESTICIDE_ENGINE := false;
     cfg_OsmiaEggThresholdBasedPesticideResponse := true;
     March := 59;
     June := 151;
     statics := SetParameterValues default_Cfg;
     m_TempToday := temp;
     m_DayInYear := day;
     OPM := {| m_PreWinteringEndFlag := prewinter_end;
               m_OverWinterEndFlag := overwinter_end;
               m_PrePupalDevelRates := cfg_OsmiaPrepupalDevelRates;
               m_PrePupalDevelDaysToday := 1 |};
     SupplyTemp := temp;
     nests := fun n => match n with
                       | O => {| m_isOpen := false; m_aspectdelay := 2 |}
                       | _ => {| m_isOpen := true; m_aspectdelay := 0 |}
                       end;
     indeterminate := 0 |}.

(** A generator that returns [u] and [r] for ever, and an empty trace. *)
Definition sample_Sim (u : Q) (r : Z) : Sim :=
  {| rand_uni := fun _ => u; rand_int := fun _ => r; trace := [] |}.

(** A female egg of provision mass 120 laid in nest [n]. *)
Definition sample_data (n : nat) : struct_Osmia :=
  {| x := 10; y := 20; age := 0; sex := true; nest := Some n;
     parasitised := topara_Unparasitised; mass := 120;
     pest_mortality := 0; overwintering_degree_days := 0 |}.

Definition sample_Egg (n : nat) : Osmia_Egg :=
  upd_Base (Base_set_state toOsmias_Develop)
           (Osmia_Egg_ctor (sample_Env false false 150 20) (sample_data n)).

Definition sample_Prepupa (target : Q) : Osmia_Prepupa :=
  {| prepupa_larva := sample_Egg 0; m_myOsmiaPrepupaDevelTotalDays := target |}.

(** An overwintering adult in state Develop with the given emergence counter
    and prewinter degree-days. *)
Definition sample_InCocoon (counter : Z) (DDPrewinter : Q) : Osmia_InCocoon :=
  {| incocoon_pupa := sample_Prepupa 45;
     m_emergencecounter := counter;
     m_DDPrewinter := DDPrewinter |}.

(** The sample environment with the pesticide engine compiled in. *)
Definition sample_Env_pesticide : Env :=
  {| OSMIA_PESTICIDE_ENGINE := true;
     cfg_OsmiaEggThresholdBasedPesticideResponse := true;
     March := 59;
     June := 151;
     statics := SetParameterValues default_Cfg;
     m_TempToday := 20;
     m_DayInYear := 150;
     OPM := OPM (sample_Env false false 150 20);
     SupplyTemp := 20;
     nests := nests (sample_Env false false 150 20);
     indeterminate := 0 |}.

(** * Proofs *)

(** ** Comparisons and rounding *)

Lemma Qltb_lt (a b : Q) : Qltb a b = true <-> a < b.
Proof.
  unfold Qltb. rewrite negb_true_iff, <- not_true_iff_false, Qle_bool_iff.
  split; [apply Qnot_le_lt | apply Qlt_not_le].
Qed.

Lemma Qltb_ge (a b : Q) : Qltb a b = false <-> b <= a.
Proof.
  unfold Qltb. rewrite negb_false_iff. apply Qle_bool_iff.
Qed.

Lemma Qltb_spec (a b : Q) : reflect (a < b) (Qltb a b).
Proof.
  destruct (Qltb a b) eqn:E; constructor.
  - now apply Qltb_lt.
  - apply Qltb_ge in E. now apply Qle_not_lt.
Qed.

Lemma Qtrunc_bounds (v : Q) :
  -1 < v - inject_Z (Qtrunc v) /\ v - inject_Z (Qtrunc v) < 1.
Proof.
  destruct v as [n d]. unfold Qtrunc, Qlt, Qminus, Qplus, Qopp, inject_Z. simpl.
  pose proof (Z.quot_rem' n (Zpos d)) as E.
  pose proof (Z.rem_bound_abs n (Zpos d) ltac:(lia)) as B.
  split; lia.
Qed.

Lemma Qlt_ceiling_iff (k : Z) (q : Q) : inject_Z k < q <-> (k < Qceiling q)%Z.
Proof.
  split; intro H.
  - rewrite Zlt_Qlt. eapply Qlt_le_trans; [exact H | apply Qle_ceiling].
  - eapply Qle_lt_trans; [ | apply Qceiling_lt ].
    rewrite <- Zle_Qle. lia.
Qed.

Lemma count_below_ceiling (q : Q) (n : nat) :
  length (filter (fun r => Qltb (inject_Z r) q) (map Z.of_nat (seq 0 n)))
  = Z.to_nat (Z.max 0 (Z.min (Z.of_nat n) (Qceiling q))).
Proof.
  induction n as [|n IH].
  - simpl. lia.
  - rewrite seq_S, map_app, filter_app, length_app, IH. simpl.
    destruct (Qltb_spec (inject_Z (Z.of_nat n)) q) as [H|H];
      rewrite Qlt_ceiling_iff in H; simpl; lia.
Qed.

(** ** Reasoning about the monad *)

Ltac sim_unfold :=
  unfold returns, adds, bind, ret, stop, emit, deref,
    g_rand_uni_fnc, g_random_fnc, m_emergenceday_Geti, next_uni, next_int in *.

Lemma Qmax_0_pos (d : Q) : 0 < d -> Qmax 0 d == d.
Proof. intro H. apply Q.max_r. now apply Qlt_le_weak. Qed.

Lemma Qmax_0_nonpos (d : Q) : d <= 0 -> Qmax 0 d == 0.
Proof. intro H. now apply Q.max_l. Qed.

(** One day of degree-day accumulation: [if (DD > 0) m_AgeDegrees += DD]. *)
Lemma accumulate_spec (acc temp thr : Q) :
  let acc' := if Qltb 0 (temp - thr) then acc + (temp - thr) else acc in
  acc <= acc'
  /\ acc' == acc + Qmax 0 (temp - thr)
  /\ (temp <= thr -> acc' = acc).
Proof.
  simpl. destruct (Qltb_spec 0 (temp - thr)) as [H|H].
  - repeat split.
    + lra.
    + rewrite Qmax_0_pos by assumption. reflexivity.
    + intro. lra.
  - apply Qnot_lt_le in H. repeat split.
    + lra.
    + rewrite Qmax_0_nonpos by assumption. lra.
Qed.

(** *** What one [st_Develop] does to the accumulator *)


Lemma Osmia_Egg_st_Develop_spec (env : Env) (this : Osmia_Egg) (s : Sim) :
  m_OurNest this <> None ->
  returns (Osmia_Egg_st_Develop env this) s (fun r _ =>
    (fst r = toOsmias_Die /\ snd r = this)
    \/ (fst r <> toOsmias_Die
        /\ accumulated (m_TempToday env) (m_OsmiaEggDevelThreshold (statics env))
                       (m_AgeDegrees this) (m_AgeDegrees (snd r)))).
Proof.
  intro Hnest. unfold Osmia_Egg_st_Develop.
  destruct (m_OurNest this) as [n|] eqn:En; [ | contradiction ].
  pose proof (accumulate_spec (m_AgeDegrees this) (m_TempToday env)
                (m_OsmiaEggDevelThreshold (statics env))) as A.
  simpl in A.
  unfold Osmia_Egg_DailyMortality. sim_unfold. simpl.
  repeat match goal with
         | |- context [if ?c then _ else _] => destruct c eqn:?; simpl
         end;
    try (left; split; reflexivity);
    right; (split; [discriminate | ]); unfold accumulated; simpl;
    repeat match goal with
           | H : Qltb 0 _ = _ |- _ => rewrite H in A
           end; exact A.
Qed.

Lemma Osmia_Larva_st_Develop_spec (env : Env) (this : Osmia_Larva) (s : Sim) :
  m_OurNest this <> None ->
  returns (Osmia_Larva_st_Develop env this) s (fun r _ =>
    (fst r = toOsmias_Die /\ snd r = this)
    \/ (fst r <> toOsmias_Die
        /\ accumulated (SupplyTemp env) (m_OsmiaLarvaDevelThreshold (statics env))
                       (m_AgeDegrees this) (m_AgeDegrees (snd r)))).
Proof.
  intro Hnest. unfold Osmia_Larva_st_Develop.
  destruct (m_OurNest this) as [n|] eqn:En; [ | contradiction ].
  pose proof (accumulate_spec (m_AgeDegrees this) (SupplyTemp env)
                (m_OsmiaLarvaDevelThreshold (statics env))) as A.
  simpl in A.
  unfold Osmia_Larva_DailyMortality. sim_unfold. simpl.
  repeat match goal with
         | |- context [if ?c then _ else _] => destruct c eqn:?; simpl
         end;
    try (left; split; reflexivity);
    right; (split; [discriminate | ]); unfold accumulated; simpl;
    repeat match goal with
           | H : Qltb 0 _ = _ |- _ => rewrite H in A
           end; exact A.
Qed.

Lemma Osmia_Pupa_st_Develop_spec (env : Env) (this : Osmia_Pupa) (s : Sim) :
  returns (Osmia_Pupa_st_Develop env this) s (fun r _ =>
    (fst r = toOsmias_Die /\ snd r = this)
    \/ (fst r <> toOsmias_Die
        /\ accumulated (SupplyTemp env) (m_OsmiaPupaDevelThreshold (statics env))
                       (m_AgeDegrees this) (m_AgeDegrees (snd r)))).
Proof.
  unfold Osmia_Pupa_st_Develop.
  pose proof (accumulate_spec (m_AgeDegrees this) (SupplyTemp env)
                (m_OsmiaPupaDevelThreshold (statics env))) as A.
  simpl in A.
  unfold Osmia_Pupa_DailyMortality. sim_unfold. simpl.
  repeat match goal with
         | |- context [if ?c then _ else _] => destruct c eqn:?; simpl
         end;
    try (left; split; reflexivity);
    right; (split; [discriminate | ]); unfold accumulated; simpl;
    repeat match goal with
           | H : Qltb 0 _ = _ |- _ => rewrite H in A
           end; exact A.
Qed.

(** What [Osmia_Prepupa::st_Develop] does: a survivor's counter grows by
    today's rate plus one, the stage ends when the counter plus today's rate
    exceeds the individual target, and the target is left as it is. *)
Lemma Osmia_Prepupa_st_Develop_spec (env : Env) (this : Osmia_Prepupa) (s : Sim) :
  returns (Osmia_Prepupa_st_Develop env this) s (fun r s' =>
    trace s' = trace s ++ [Ev_rand_uni (rand_uni s 0%nat)]
    /\ m_myOsmiaPrepupaDevelTotalDays (snd r) = m_myOsmiaPrepupaDevelTotalDays this
    /\ ((fst r = toOsmias_Die /\ snd r = this
         /\ rand_uni s 0%nat < m_DailyDevelopmentMortPrepupae (statics env))
        \/ (m_DailyDevelopmentMortPrepupae (statics env) <= rand_uni s 0%nat
            /\ m_AgeDegrees (snd r)
               = m_AgeDegrees this + GetPrePupalDevelDays (OPM env) + 1
            /\ (fst r = toOsmias_NextStage
                /\ m_myOsmiaPrepupaDevelTotalDays this
                   < m_AgeDegrees this + GetPrePupalDevelDays (OPM env)
                \/ fst r = toOsmias_Develop
                   /\ m_AgeDegrees this + GetPrePupalDevelDays (OPM env)
                      <= m_myOsmiaPrepupaDevelTotalDays this)))).
Proof.
  unfold Osmia_Prepupa_st_Develop, Osmia_Prepupa_DailyMortality. sim_unfold. simpl.
  destruct (Qltb_spec (rand_uni s 0%nat) (m_DailyDevelopmentMortPrepupae (statics env)))
    as [Hd|Hd]; simpl.
  - repeat split. left. repeat split. exact Hd.
  - apply Qnot_lt_le in Hd.
    destruct (Qltb_spec (m_myOsmiaPrepupaDevelTotalDays this)
                (m_AgeDegrees this + GetPrePupalDevelDays (OPM env))) as [Ht|Ht]; simpl.
    + repeat split. right. repeat split; [exact Hd | ]. left. split; [reflexivity | exact Ht].
    + apply Qnot_lt_le in Ht.
      repeat split. right. repeat split; [exact Hd | ]. right. split; [reflexivity | exact Ht].
Qed.

Lemma returns_inv {A : Type} (m : M A) (s : Sim) (P : A -> Sim -> Prop) :
  returns m s P -> forall a s', m s = (Some a, s') -> P a s'.
Proof. unfold returns. intros H a s' E. now rewrite E in H. Qed.

(** *** Invariants of [Step] and of a run *)

Section StepInvariant.
Context {T : Type}.
Variable base : T -> Osmia_Base.
Variable upd : (Osmia_Base -> Osmia_Base) -> T -> T.
Variable st_Develop st_NextStage : Env -> T -> M (TTypeOfOsmiaState * T).
Variable R : T -> T -> Prop.

Hypothesis R_refl : forall t, R t t.
Hypothesis R_trans : forall a b c, R a b -> R b c -> R a c.
Hypothesis R_state : forall st t, R t (upd (Base_set_state st) t).
Hypothesis R_StepDone : forall d t, R t (upd (Base_set_StepDone d) t).
Hypothesis R_KillThis : forall t, R t (upd (fun _ => KillThis (base t)) t).
Hypothesis R_Develop :
  forall env t s r s', st_Develop env t s = (Some r, s') -> R t (snd r).
Hypothesis R_NextStage :
  forall env t s r s', st_NextStage env t s = (Some r, s') -> R t (snd r).

Local Abbreviation step := (Step base upd st_Develop st_NextStage).

Lemma Step_invariant (env : Env) (t : T) (s : Sim) (t' : T) (s' : Sim) :
  step env t s = (Some t', s') -> R t t'.
Proof.
  unfold Step.
  destruct (m_StepDone (base t) || (m_CurrentStateNo (base t) =? -1)%Z).
  { unfold ret. intros [= <- _]. apply R_refl. }
  destruct (m_CurrentOState (base t)); sim_unfold; try discriminate.
  - intros [= <- _]. apply R_state.
  - destruct (st_Develop env t s) as [[r|] s1] eqn:E; [ | discriminate ].
    intros [= <- _]. apply R_Develop in E.
    eauto using R_trans, R_state, R_StepDone.
  - destruct (st_NextStage env t s) as [[r|] s1] eqn:E; [ | discriminate ].
    intros [= <- _]. apply R_NextStage in E.
    eauto using R_trans, R_state.
  - unfold Osmia_Base_st_Dying. sim_unfold. simpl.
    destruct (m_OurNest (base t)); [ | discriminate ].
    simpl. intros [= <- _]. eauto using R_trans, R_KillThis, R_StepDone.
Qed.

Lemma run_invariant (sched : list Sched) :
  forall (t : T) (s : Sim) (t' : T) (s' : Sim),
    run upd step sched t s = (Some t', s') -> R t t'.
Proof.
  induction sched as [|[|env] sched IH]; simpl; intros t s t' s' E.
  - injection E as <- _. apply R_refl.
  - apply IH in E. eauto using R_trans, R_StepDone.
  - unfold bind in E.
    destruct (step env t s) as [[t1|] s1] eqn:E1; [ | discriminate ].
    apply Step_invariant in E1. apply IH in E. eauto using R_trans.
Qed.

Lemma run_app (sched1 sched2 : list Sched) :
  forall (t : T) (s : Sim),
    run upd step (sched1 ++ sched2) t s
    = bind (run upd step sched1 t) (run upd step sched2) s.
Proof.
  induction sched1 as [|[|env] sched1 IH]; simpl; intros t s.
  - reflexivity.
  - apply IH.
  - unfold bind in *. destruct (step env t s) as [[t1|] s1]; [ | reflexivity ].
    apply IH.
Qed.

Lemma run_monotone (sched1 sched2 : list Sched) (t : T) (s : Sim) :
  match fst (run upd step (sched1 ++ sched2) t s) with
  | Some final =>
      exists mid, fst (run upd step sched1 t s) = Some mid /\ R t mid /\ R mid final
  | None => True
  end.
Proof.
  rewrite run_app. unfold bind.
  destruct (run upd step sched1 t s) as [[mid|] s1] eqn:E1; simpl; [ | exact I ].
  destruct (run upd step sched2 mid s1) as [[final|] s2] eqn:E2; simpl; [ | exact I ].
  exists mid. eauto using run_invariant.
Qed.
End StepInvariant.

(** *** Transitions *)


Lemma carry_forward_carries (this : Osmia_Egg) :
  mass (carry_forward this) = m_Mass this
  /\ sex (carry_forward this) = m_Sex this
  /\ parasitised (carry_forward this) = m_ParasitoidStatus this.
Proof. repeat split. Qed.

Lemma Osmia_Egg_st_Hatch_spec (env : Env) (this : Osmia_Egg) (s : Sim) (n : nat) :
  m_OurNest this = Some n ->
  returns (Osmia_Egg_st_Hatch env this) s (fun r s' =>
    r = (toOsmias_Emerged, upd_Base KillThis this)
    /\ exists larva : Osmia_Larva,
         trace s' = trace s ++ [Ev_PushIndividual (Ind_Larva larva);
                                Ev_nest ReplaceNestPointer n]
         /\ carried this larva).
Proof.
  intro Hn. unfold Osmia_Egg_st_Hatch, CreateObjects. simpl.
  sim_unfold. simpl. rewrite Hn. simpl.
  split; [reflexivity | ]. eexists. split.
  - rewrite <- app_assoc. reflexivity.
  - repeat split.
Qed.

Lemma Osmia_Larva_st_Prepupate_spec (env : Env) (this : Osmia_Larva) (s : Sim) (n : nat) :
  m_OurNest this = Some n ->
  returns (Osmia_Larva_st_Prepupate env this) s (fun r s' =>
    r = (toOsmias_Emerged, upd_Base KillThis this)
    /\ exists prepupa : Osmia_Prepupa,
         trace s' = trace s ++ [Ev_rand_uni (rand_uni s 0%nat);
                                Ev_PushIndividual (Ind_Prepupa prepupa);
                                Ev_nest ReplaceNestPointer n]
         /\ carried this prepupa).
Proof.
  intro Hn. unfold Osmia_Larva_st_Prepupate, CreateObjects. simpl.
  unfold Osmia_Prepupa_ctor. sim_unfold. simpl. rewrite Hn. simpl.
  split; [reflexivity | ]. eexists. split.
  - rewrite <- !app_assoc. reflexivity.
  - repeat split.
Qed.

Lemma Osmia_Prepupa_st_Pupate_spec (env : Env) (this : Osmia_Prepupa) (s : Sim) (n : nat) :
  m_OurNest this = Some n ->
  returns (Osmia_Prepupa_st_Pupate env this) s (fun r s' =>
    r = (toOsmias_Emerged, upd_Egg (upd_Base KillThis) this)
    /\ exists pupa : Osmia_Pupa,
         trace s' = trace s ++ [Ev_rand_uni (rand_uni s 0%nat);
                                Ev_PushIndividual (Ind_Pupa pupa);
                                Ev_nest ReplaceNestPointer n]
         /\ carried this pupa).
Proof.
  intro Hn. unfold Osmia_Prepupa_st_Pupate, CreateObjects. simpl.
  unfold Osmia_Pupa_ctor, Osmia_Prepupa_ctor. sim_unfold. simpl. rewrite Hn. simpl.
  split; [reflexivity | ]. eexists. split.
  - rewrite <- !app_assoc. reflexivity.
  - repeat split.
Qed.

Lemma Osmia_Pupa_st_Emerge_spec (env : Env) (this : Osmia_Pupa) (s : Sim) (n : nat) :
  m_OurNest this = Some n ->
  returns (Osmia_Pupa_st_Emerge env this) s (fun r s' =>
    r = (toOsmias_Emerged, upd_Egg (upd_Base KillThis) this)
    /\ exists cocoon : Osmia_InCocoon,
         trace s' = trace s ++ [Ev_rand_uni (rand_uni s 0%nat);
                                Ev_PushIndividual (Ind_InCocoon cocoon);
                                Ev_nest ReplaceNestPointer n]
         /\ carried this cocoon).
Proof.
  intro Hn. unfold Osmia_Pupa_st_Emerge, CreateObjects. simpl.
  unfold Osmia_InCocoon_ctor, Osmia_Pupa_ctor, Osmia_Prepupa_ctor. sim_unfold. simpl.
  rewrite Hn. simpl.
  split; [reflexivity | ]. eexists. split.
  - rewrite <- !app_assoc. reflexivity.
  - repeat split.
Qed.

(** The three outcomes of [Osmia_InCocoon::st_Emerge]. *)
Lemma Osmia_InCocoon_st_Emerge_spec (env : Env) (this : Osmia_InCocoon) (s : Sim) (n : nat) :
  m_OurNest this = Some n ->
  returns (Osmia_InCocoon_st_Emerge env this) s (fun r s' =>
    if m_Sex this then
      if is_Unparasitised (m_ParasitoidStatus this) then
        r = (toOsmias_Emerged, upd_Pupa (upd_Egg (upd_Base KillThis)) this)
        /\ exists female : Osmia_InCocoon,
             trace s' = trace s ++ [Ev_rand_uni (rand_uni s 0%nat);
                                    Ev_PushIndividual (Ind_Female female);
                                    Ev_nest RemoveCell n]
             /\ m_Mass female
                = m_OsmiaFemaleMassFromProvMassSlope (statics env) * m_Mass this
                  + m_OsmiaFemaleMassFromProvMassConst (statics env)
             /\ m_Age female = 0%Z
             /\ m_OurNest female = None
             /\ m_Sex female = true
      else r = (toOsmias_Die, this) /\ trace s' = trace s
    else
      r = (toOsmias_Emerged, upd_Pupa (upd_Egg (upd_Base KillThis)) this)
      /\ trace s' = trace s ++ [Ev_nest RemoveCell n]).
Proof.
  intro Hn. unfold Osmia_InCocoon_st_Emerge, CreateObjects.
  destruct (m_Sex this) eqn:Es.
  - destruct (is_Unparasitised (m_ParasitoidStatus this)) eqn:Ep; simpl.
    + unfold Osmia_InCocoon_ctor, Osmia_Pupa_ctor, Osmia_Prepupa_ctor.
      sim_unfold. simpl. rewrite Hn. simpl.
      split; [reflexivity | ]. eexists. split.
      * rewrite <- !app_assoc. reflexivity.
      * repeat split.
    + sim_unfold. split; reflexivity.
  - sim_unfold. simpl. rewrite Hn. simpl. split; reflexivity.
Qed.

(** *** Winter-mortality draws of an overwintering adult *)

(** Solves [tr ++ e1 ++ ... = tr ++ ?new]. *)
Ltac trace_suffix :=
  first [ rewrite <- !app_assoc; reflexivity
        | reflexivity
        | symmetry; apply app_nil_r ].


Lemma winter_draws_app (a b : list Effect) :
  winter_draws (a ++ b) = (winter_draws a + winter_draws b)%nat.
Proof. unfold winter_draws. now rewrite filter_app, length_app. Qed.


Lemma Osmia_InCocoon_st_Develop_draws (env : Env) (this : Osmia_InCocoon) (s : Sim) :
  let res := Osmia_InCocoon_st_Develop env this s in
  exists new,
    trace (snd res) = trace s ++ new
    /\ (filter is_draw new = []
        \/ (new = [Ev_random 100 (rand_int s 0%nat)]
            /\ counter_drops_below_1 env this
            /\ exists r, fst res = Some r
                 /\ (fst r = toOsmias_Die \/ fst r = toOsmias_NextStage)
                 /\ m_emergencecounter (snd r) = (m_emergencecounter this - 1)%Z)).
Proof.
  unfold Osmia_InCocoon_st_Develop, counter_drops_below_1.
  destruct (IsEndPreWinter (OPM env)) eqn:E1.
  2:{ sim_unfold. simpl. exists []. rewrite app_nil_r. split; [reflexivity | now left]. }
  destruct (IsOverWinterEnd (OPM env)) eqn:E2; simpl.
  2:{ sim_unfold. simpl. exists []. rewrite app_nil_r. split; [reflexivity | now left]. }
  destruct (Z.eqb_spec (m_DayInYear env) (March env + 1)) as [E3|E3].
  { sim_unfold. simpl. exists [Ev_emergenceday (rand_int s 0%nat)].
    destruct (m_OurNest this); simpl; (split; [reflexivity | now left]). }
  destruct (Qle_bool _ (m_TempToday env)) eqn:E4.
  2:{ sim_unfold. simpl. exists []. rewrite app_nil_r. split; [reflexivity | now left]. }
  apply Qle_bool_iff in E4. simpl.
  destruct (Z.ltb_spec (m_emergencecounter this - 1) 1) as [E5|E5].
  - unfold Osmia_InCocoon_WinterMortality. sim_unfold. simpl.
    exists [Ev_random 100 (rand_int s 0%nat)].
    destruct (Qltb _ _); simpl; (split; [reflexivity | right]);
      (split; [reflexivity | ]); (split; [tauto | ]);
      eexists; (split; [reflexivity | ]); simpl; tauto.
  - exists []. rewrite app_nil_r.
    destruct (m_DayInYear env =? June env - 1)%Z; sim_unfold; simpl;
      (split; [reflexivity | now left]).
Qed.

Lemma Osmia_InCocoon_st_Emerge_draws (env : Env) (this : Osmia_InCocoon) (s : Sim) :
  let res := Osmia_InCocoon_st_Emerge env this s in
  (exists new, trace (snd res) = trace s ++ new /\ winter_draws new = 0%nat)
  /\ forall r, fst res = Some r -> fst r = toOsmias_Emerged \/ fst r = toOsmias_Die.
Proof.
  unfold Osmia_InCocoon_st_Emerge, CreateObjects,
    Osmia_InCocoon_ctor, Osmia_Pupa_ctor, Osmia_Prepupa_ctor.
  destruct (m_Sex this);
    [ destruct (is_Unparasitised (m_ParasitoidStatus this)) | ];
    simpl; sim_unfold; simpl;
    destruct (m_OurNest this); simpl; split;
    try (intros r [= <-]; simpl; tauto);
    try (intros r [=]);
    eexists; (split; [ trace_suffix | reflexivity ]).
Qed.

Lemma no_draw_no_winter_draw (new : list Effect) :
  filter is_draw new = [] -> winter_draws new = 0%nat.
Proof.
  unfold winter_draws. induction new as [|e new IH]; simpl; [reflexivity | ].
  destruct e; simpl; try discriminate; auto.
Qed.

Lemma Osmia_InCocoon_Step_draws (env : Env) (this : Osmia_InCocoon) (s : Sim) :
  let res := Osmia_InCocoon_Step env this s in
  exists new,
    trace (snd res) = trace s ++ new
    /\ ((winter_draws new = 0%nat
         /\ forall this', fst res = Some this' -> spent this = true -> spent this' = true)
        \/ (winter_draws new = 1%nat
            /\ m_CurrentOState this = toOsmias_Develop
            /\ counter_drops_below_1 env this
            /\ exists this', fst res = Some this'
                 /\ spent this' = true
                 /\ m_emergencecounter this' = (m_emergencecounter this - 1)%Z)).
Proof.
  unfold Osmia_InCocoon_Step, Step.
  destruct (m_StepDone this || (m_CurrentStateNo this =? -1)%Z).
  { exists []. rewrite app_nil_r. split; [reflexivity | left].
    split; [reflexivity | ]. unfold ret. simpl. now intros ? [= <-]. }
  destruct (m_CurrentOState this) eqn:Est;
    try (exists []; rewrite app_nil_r; split; [reflexivity | left];
         split; [reflexivity | ]; unfold stop; simpl; discriminate).
  - exists []. rewrite app_nil_r. split; [reflexivity | left].
    split; [reflexivity | ]. unfold spent. rewrite Est. discriminate.
  - destruct (Osmia_InCocoon_st_Develop_draws env this s) as (new & Htr & Hnew).
    unfold bind.
    destruct (Osmia_InCocoon_st_Develop env this s) as [[r|] s1] eqn:E; simpl in *;
      exists new; (split; [exact Htr | ]).
    + destruct Hnew as [Hnone | (-> & Hdrop & r' & [= <-] & Hst & Hcnt)].
      * left. split; [now apply no_draw_no_winter_draw | ].
        unfold spent at 1. rewrite Est. discriminate.
      * right. repeat split; try apply Hdrop.
        eexists. split; [reflexivity | ]. split; [ | exact Hcnt ].
        unfold spent. simpl. now destruct Hst as [-> | ->].
    + destruct Hnew as [Hnone | (_ & _ & r' & [=] & _)].
      left. split; [now apply no_draw_no_winter_draw | discriminate].
  - destruct (Osmia_InCocoon_st_Emerge_draws env this s) as ((new & Htr & Hnew) & Hst).
    unfold bind.
    destruct (Osmia_InCocoon_st_Emerge env this s) as [[r|] s1] eqn:E; simpl in *;
      exists new; (split; [exact Htr | left]); (split; [exact Hnew | ]).
    + intros this' [= <-] _. unfold spent. simpl.
      now destruct (Hst r eq_refl) as [-> | ->].
    + discriminate.
  - unfold Osmia_Base_st_Dying. sim_unfold. simpl.
    destruct (m_OurNest this); simpl.
    + eexists. split; [reflexivity | left]. split; [reflexivity | ].
      intros this' [= <-] _. unfold spent. simpl. now rewrite Est.
    + exists []. rewrite app_nil_r. split; [reflexivity | left].
      split; [reflexivity | discriminate].
Qed.

Lemma Osmia_InCocoon_run_draws (sched : list Sched) :
  forall (this : Osmia_InCocoon) (s : Sim),
  exists new,
    trace (snd (Osmia_InCocoon_run sched this s)) = trace s ++ new
    /\ (winter_draws new <= if spent this then 0 else 1)%nat.
Proof.
  unfold Osmia_InCocoon_run.
  induction sched as [|[|env] sched IH]; simpl; intros this s.
  - exists []. rewrite app_nil_r. split; [reflexivity | ].
    destruct (spent this); apply Nat.le_0_l.
  - destruct (IH (upd_Pupa (upd_Egg (upd_Base (Base_set_StepDone false))) this) s)
      as (new & Htr & Hnew).
    exists new. split; [exact Htr | exact Hnew].
  - destruct (Osmia_InCocoon_Step_draws env this s) as (new1 & Htr1 & Hnew1).
    unfold bind.
    destruct (Osmia_InCocoon_Step env this s) as [[this1|] s1] eqn:E; simpl in *.
    + destruct (IH this1 s1) as (new2 & Htr2 & Hnew2).
      exists (new1 ++ new2). rewrite Htr2, Htr1, app_assoc. split; [reflexivity | ].
      rewrite winter_draws_app.
      destruct Hnew1 as [(H0 & Hsp) | (H1 & Est & _ & this' & [= <-] & Hsp & _)].
      * rewrite H0. specialize (Hsp this1 eq_refl).
        destruct (spent this); [ rewrite Hsp in Hnew2 by reflexivity; simpl in *; lia | ].
        destruct (spent this1); simpl in *; lia.
      * rewrite H1. rewrite Hsp in Hnew2.
        unfold spent. rewrite Est. simpl in *. lia.
    + exists new1. split; [exact Htr1 | ].
      destruct Hnew1 as [(H0 & _) | (_ & _ & _ & this' & [=] & _)].
      rewrite H0. lia.
Qed.

(** *** The object left behind by a transition *)

Lemma Osmia_Egg_st_Hatch_result env (this : Osmia_Egg) s r s' :
  Osmia_Egg_st_Hatch env this s = (Some r, s') -> snd r = upd_Base KillThis this.
Proof.
  unfold Osmia_Egg_st_Hatch, CreateObjects. simpl. sim_unfold. simpl.
  destruct (m_OurNest this); simpl; intros [= <- _]; reflexivity.
Qed.

Lemma Osmia_Larva_st_Prepupate_result env (this : Osmia_Larva) s r s' :
  Osmia_Larva_st_Prepupate env this s = (Some r, s') -> snd r = upd_Base KillThis this.
Proof.
  unfold Osmia_Larva_st_Prepupate, CreateObjects, Osmia_Prepupa_ctor.
  simpl. sim_unfold. simpl.
  destruct (m_OurNest this); simpl; intros [= <- _]; reflexivity.
Qed.

Lemma Osmia_Prepupa_st_Pupate_result env (this : Osmia_Prepupa) s r s' :
  Osmia_Prepupa_st_Pupate env this s = (Some r, s') ->
  snd r = upd_Egg (upd_Base KillThis) this.
Proof.
  unfold Osmia_Prepupa_st_Pupate, CreateObjects, Osmia_Pupa_ctor, Osmia_Prepupa_ctor.
  simpl. sim_unfold. simpl.
  destruct (m_OurNest this); simpl; intros [= <- _]; reflexivity.
Qed.

Lemma Osmia_Pupa_st_Emerge_result env (this : Osmia_Pupa) s r s' :
  Osmia_Pupa_st_Emerge env this s = (Some r, s') ->
  snd r = upd_Egg (upd_Base KillThis) this.
Proof.
  unfold Osmia_Pupa_st_Emerge, CreateObjects, Osmia_InCocoon_ctor, Osmia_Pupa_ctor,
    Osmia_Prepupa_ctor.
  simpl. sim_unfold. simpl.
  destruct (m_OurNest this); simpl; intros [= <- _]; reflexivity.
Qed.

(** *** Accumulators along a run *)


Lemma acc_le_refl (a : Osmia_Egg) : acc_le a a.
Proof. apply Qle_refl. Qed.

Lemma acc_le_trans (a b c : Osmia_Egg) : acc_le a b -> acc_le b c -> acc_le a c.
Proof. apply Qle_trans. Qed.

Lemma accumulated_le temp thr a b : accumulated temp thr a b -> a <= b.
Proof. now intros (H & _). Qed.

Lemma Osmia_Egg_st_Develop_le env (this : Osmia_Egg) s r s' :
  Osmia_Egg_st_Develop env this s = (Some r, s') -> acc_le this (snd r).
Proof.
  intro E. destruct (m_OurNest this) as [n|] eqn:En.
  - assert (Hn : m_OurNest this <> None) by (rewrite En; discriminate).
    pose proof (returns_inv _ _ _ (Osmia_Egg_st_Develop_spec env this s Hn) _ _ E) as H.
    simpl in H. destruct H as [(_ & ->) | (_ & H)].
    + apply acc_le_refl.
    + eapply accumulated_le, H.
  - unfold Osmia_Egg_st_Develop in E. rewrite En in E. discriminate E.
Qed.

Lemma Osmia_Larva_st_Develop_le env (this : Osmia_Larva) s r s' :
  Osmia_Larva_st_Develop env this s = (Some r, s') -> acc_le this (snd r).
Proof.
  intro E. destruct (m_OurNest this) as [n|] eqn:En.
  - assert (Hn : m_OurNest this <> None) by (rewrite En; discriminate).
    pose proof (returns_inv _ _ _ (Osmia_Larva_st_Develop_spec env this s Hn) _ _ E) as H.
    simpl in H. destruct H as [(_ & ->) | (_ & H)].
    + apply acc_le_refl.
    + eapply accumulated_le, H.
  - unfold Osmia_Larva_st_Develop in E. rewrite En in E. discriminate E.
Qed.

Lemma Osmia_Pupa_st_Develop_le env (this : Osmia_Pupa) s r s' :
  Osmia_Pupa_st_Develop env this s = (Some r, s') -> acc_le this (snd r).
Proof.
  intro E.
  pose proof (returns_inv _ _ _ (Osmia_Pupa_st_Develop_spec env this s) _ _ E) as H.
  simpl in H. destruct H as [(_ & ->) | (_ & H)].
  - apply acc_le_refl.
  - eapply accumulated_le, H.
Qed.

Lemma Osmia_Egg_run_monotone sched1 sched2 (this : Osmia_Egg) s :
  match fst (Osmia_Egg_run (sched1 ++ sched2) this s) with
  | Some final =>
      exists mid, fst (Osmia_Egg_run sched1 this s) = Some mid
                  /\ acc_le this mid /\ acc_le mid final
  | None => True
  end.
Proof.
  apply run_monotone.
  - apply acc_le_refl.
  - apply acc_le_trans.
  - intros st t. unfold acc_le. simpl. apply Qle_refl.
  - intros d t. unfold acc_le. simpl. apply Qle_refl.
  - intros t. unfold acc_le. simpl. apply Qle_refl.
  - apply Osmia_Egg_st_Develop_le.
  - intros env t s0 r s' E. apply Osmia_Egg_st_Hatch_result in E. rewrite E.
    unfold acc_le. simpl. apply Qle_refl.
Qed.

Lemma Osmia_Larva_run_monotone sched1 sched2 (this : Osmia_Larva) s :
  match fst (Osmia_Larva_run (sched1 ++ sched2) this s) with
  | Some final =>
      exists mid, fst (Osmia_Larva_run sched1 this s) = Some mid
                  /\ acc_le this mid /\ acc_le mid final
  | None => True
  end.
Proof.
  apply run_monotone.
  - apply acc_le_refl.
  - apply acc_le_trans.
  - intros st t. unfold acc_le. simpl. apply Qle_refl.
  - intros d t. unfold acc_le. simpl. apply Qle_refl.
  - intros t. unfold acc_le. simpl. apply Qle_refl.
  - apply Osmia_Larva_st_Develop_le.
  - intros env t s0 r s' E. apply Osmia_Larva_st_Prepupate_result in E. rewrite E.
    unfold acc_le. simpl. apply Qle_refl.
Qed.

Lemma Osmia_Pupa_run_monotone sched1 sched2 (this : Osmia_Pupa) s :
  match fst (Osmia_Pupa_run (sched1 ++ sched2) this s) with
  | Some final =>
      exists mid, fst (Osmia_Pupa_run sched1 this s) = Some mid
                  /\ acc_le this mid /\ acc_le mid final
  | None => True
  end.
Proof.
  apply (run_monotone (fun p : Osmia_Pupa => egg_base p) (fun f => upd_Egg (upd_Base f))
           Osmia_Pupa_st_Develop Osmia_Pupa_st_Emerge
           (fun a b : Osmia_Pupa => acc_le a b)).
  - intro. apply acc_le_refl.
  - intros a b c. apply acc_le_trans.
  - intros st t. unfold acc_le. simpl. apply Qle_refl.
  - intros d t. unfold acc_le. simpl. apply Qle_refl.
  - intros t. unfold acc_le. simpl. apply Qle_refl.
  - apply Osmia_Pupa_st_Develop_le.
  - intros env t s0 r s' E. apply Osmia_Pupa_st_Emerge_result in E. rewrite E.
    unfold acc_le. simpl. apply Qle_refl.
Qed.

(** The individual target of a prepupa is constant along every run. *)
Lemma Osmia_Prepupa_run_keeps_target sched (this : Osmia_Prepupa) s this' s' :
  Osmia_Prepupa_run sched this s = (Some this', s') ->
  m_myOsmiaPrepupaDevelTotalDays this' = m_myOsmiaPrepupaDevelTotalDays this.
Proof.
  apply (run_invariant (fun p : Osmia_Prepupa => egg_base p)
           (fun f => upd_Egg (upd_Base f))
           Osmia_Prepupa_st_Develop Osmia_Prepupa_st_Pupate
           (fun a b => m_myOsmiaPrepupaDevelTotalDays b = m_myOsmiaPrepupaDevelTotalDays a)).
  - reflexivity.
  - intros a b c H1 H2. now rewrite H2.
  - reflexivity.
  - reflexivity.
  - reflexivity.
  - intros env t s0 r s1 E.
    apply (returns_inv _ _ _ (Osmia_Prepupa_st_Develop_spec env t s0) _ _ E).
  - intros env t s0 r s1 E. apply Osmia_Prepupa_st_Pupate_result in E. now rewrite E.
Qed.

(** *** Mass, sex and parasitism status within a stage *)

Lemma carried_refl (a : Osmia_Egg) : carried a a.
Proof. repeat split. Qed.

Lemma carried_trans (a b c : Osmia_Egg) : carried a b -> carried b c -> carried a c.
Proof.
  unfold carried. intros (H1 & H2 & H3) (H4 & H5 & H6).
  rewrite H4, H5, H6. now repeat split.
Qed.

Ltac split_ifs :=
  repeat match goal with
         | |- context [if ?c then _ else _] => destruct c; simpl
         end.

Lemma Osmia_Egg_st_Develop_carries env (this : Osmia_Egg) s r s' :
  Osmia_Egg_st_Develop env this s = (Some r, s') -> carried this (snd r).
Proof.
  unfold Osmia_Egg_st_Develop, Osmia_Egg_DailyMortality. sim_unfold.
  destruct (m_OurNest this); simpl; [ | discriminate ].
  split_ifs; intros [= <- _]; repeat split.
Qed.

Lemma Osmia_Larva_st_Develop_carries env (this : Osmia_Larva) s r s' :
  Osmia_Larva_st_Develop env this s = (Some r, s') -> carried this (snd r).
Proof.
  unfold Osmia_Larva_st_Develop, Osmia_Larva_DailyMortality. sim_unfold.
  destruct (m_OurNest this); simpl; [ | discriminate ].
  split_ifs; intros [= <- _]; repeat split.
Qed.

Lemma Osmia_Prepupa_st_Develop_carries env (this : Osmia_Prepupa) s r s' :
  Osmia_Prepupa_st_Develop env this s = (Some r, s') -> carried this (snd r).
Proof.
  unfold Osmia_Prepupa_st_Develop, Osmia_Prepupa_DailyMortality. sim_unfold. simpl.
  split_ifs; intros [= <- _]; repeat split.
Qed.

Lemma Osmia_Pupa_st_Develop_carries env (this : Osmia_Pupa) s r s' :
  Osmia_Pupa_st_Develop env this s = (Some r, s') -> carried this (snd r).
Proof.
  unfold Osmia_Pupa_st_Develop, Osmia_Pupa_DailyMortality. sim_unfold. simpl.
  split_ifs; intros [= <- _]; repeat split.
Qed.

Lemma Osmia_Egg_run_carries sched (this : Osmia_Egg) s :
  match fst (Osmia_Egg_run sched this s) with
  | Some this' => carried this this'
  | None => True
  end.
Proof.
  destruct (Osmia_Egg_run sched this s) as [[this'|] s'] eqn:E; simpl; [ | exact I ].
  revert E.
  apply (run_invariant egg_base upd_Base Osmia_Egg_st_Develop Osmia_Egg_st_Hatch carried);
    try solve [intros; repeat split].
  - apply carried_trans.
  - apply Osmia_Egg_st_Develop_carries.
  - intros env t s0 [st p] s1 E. apply Osmia_Egg_st_Hatch_result in E.
    simpl in E. subst p.
    repeat split.
Qed.

Lemma Osmia_Larva_run_carries sched (this : Osmia_Larva) s :
  match fst (Osmia_Larva_run sched this s) with
  | Some this' => carried this this'
  | None => True
  end.
Proof.
  destruct (Osmia_Larva_run sched this s) as [[this'|] s'] eqn:E; simpl; [ | exact I ].
  revert E.
  apply (run_invariant egg_base upd_Base Osmia_Larva_st_Develop Osmia_Larva_st_Prepupate
           carried);
    try solve [intros; repeat split].
  - apply carried_trans.
  - apply Osmia_Larva_st_Develop_carries.
  - intros env t s0 [st p] s1 E. apply Osmia_Larva_st_Prepupate_result in E.
    simpl in E. subst p.
    repeat split.
Qed.

Lemma Osmia_Prepupa_run_carries sched (this : Osmia_Prepupa) s :
  match fst (Osmia_Prepupa_run sched this s) with
  | Some this' => carried this this'
  | None => True
  end.
Proof.
  destruct (Osmia_Prepupa_run sched this s) as [[this'|] s'] eqn:E; simpl; [ | exact I ].
  revert E.
  apply (run_invariant (fun p : Osmia_Prepupa => egg_base p)
           (fun f => upd_Egg (upd_Base f))
           Osmia_Prepupa_st_Develop Osmia_Prepupa_st_Pupate
           (fun a b : Osmia_Prepupa => carried a b));
    try solve [intros; repeat split].
  - intros a b c. apply carried_trans.
  - apply Osmia_Prepupa_st_Develop_carries.
  - intros env t s0 [st p] s1 E. apply Osmia_Prepupa_st_Pupate_result in E.
    simpl in E. subst p.
    repeat split.
Qed.

Lemma Osmia_Pupa_run_carries sched (this : Osmia_Pupa) s :
  match fst (Osmia_Pupa_run sched this s) with
  | Some this' => carried this this'
  | None => True
  end.
Proof.
  destruct (Osmia_Pupa_run sched this s) as [[this'|] s'] eqn:E; simpl; [ | exact I ].
  revert E.
  apply (run_invariant (fun p : Osmia_Pupa => egg_base p)
           (fun f => upd_Egg (upd_Base f))
           Osmia_Pupa_st_Develop Osmia_Pupa_st_Emerge
           (fun a b : Osmia_Pupa => carried a b));
    try solve [intros; repeat split].
  - intros a b c. apply carried_trans.
  - apply Osmia_Pupa_st_Develop_carries.
  - intros env t s0 [st p] s1 E. apply Osmia_Pupa_st_Emerge_result in E.
    simpl in E. subst p.
    repeat split.
Qed.

(** What the code does on a day colder than the emergence threshold in the
    pre-emergence phase, the day of the late-season cutoff included: nothing
    but [m_Age++]. *)
Lemma cold_day_skips_the_cutoff_test (env : Env) (this : Osmia_InCocoon) (s : Sim) :
  IsEndPreWinter (OPM env) = true ->
  IsOverWinterEnd (OPM env) = true ->
  m_DayInYear env <> (March env + 1)%Z ->
  m_TempToday env < m_OsmiaInCocoonEmergenceTempThreshold (statics env) ->
  Osmia_InCocoon_st_Develop env this s
  = (Some (toOsmias_Develop, upd_Pupa (upd_Egg (upd_Base Base_inc_Age)) this), s).
Proof.
  intros H1 H2 H3 H4. unfold Osmia_InCocoon_st_Develop. rewrite H1, H2. simpl.
  destruct (Z.eqb_spec (m_DayInYear env) (March env + 1)) as [E|_]; [contradiction | ].
  destruct (Qle_bool _ (m_TempToday env)) eqn:E; [ | reflexivity ].
  apply Qle_bool_iff in E. exfalso. apply (Qlt_not_le _ _ H4 E).
Qed.

(** * The claims *)

(** ** Winter mortality *)

(** C1: what the code does.  [WinterMortality] draws an integer [r] among
    0..99 with [g_random_fnc(100)] and kills exactly when [r] is below
    [slope * prewinterDD + const]; the linear value is neither clamped to
    [0,1] nor used as a probability, so the number of killing draws among the
    hundred is its ceiling clamped to [0,100].  With slope = 0.05 and
    const = -4.63, an adult with prewinterDD = 150 (value 2.87) is killed by
    the three draws 0, 1 and 2 only and survives the draw 50, and an adult with
    prewinterDD = 130 (value 1.87) is killed by the two draws 0 and 1 only.
    The claim, and the documentation of the function (a probability clamped
    to [0,1]; 130 degree-days give certain death), require both to die
    whatever the draw. *)
Theorem WinterMortality_does_not_clamp :
  forall (env : Env) (this : Osmia_InCocoon) (s : Sim),
    fst (Osmia_InCocoon_WinterMortality env this s)
      = Some (winter_kills env this (rand_int s 0%nat))
    /\ adds (Osmia_InCocoon_WinterMortality env this) s
            [Ev_random 100 (rand_int s 0%nat)]
    /\ killing_draws env this 100
       = Z.to_nat (Z.max 0 (Z.min 100
           (Qceiling (m_OsmiaInCocoonWinterMortSlope (statics env) * m_DDPrewinter this
                      + m_OsmiaInCocoonWinterMortConst (statics env)))))
    /\ 0.05 * 150 + -4.63 == 2.87
    /\ filter (winter_kills (sample_Env true true 100 10) (sample_InCocoon 0 150))
              (map Z.of_nat (seq 0 100)) = [0; 1; 2]%Z
    /\ fst (Osmia_InCocoon_WinterMortality
              (sample_Env true true 100 10) (sample_InCocoon 0 150) (sample_Sim 0.5 50))
       = Some false
    /\ 0.05 * 130 + -4.63 == 1.87
    /\ filter (winter_kills (sample_Env true true 100 10) (sample_InCocoon 0 130))
              (map Z.of_nat (seq 0 100)) = [0; 1]%Z.
Proof.
  intros env this s. repeat split.
  - unfold Osmia_InCocoon_WinterMortality, winter_kills, g_random_fnc, next_int,
      emit, bind, ret. simpl.
    now destruct (Qltb _ _).
  - unfold adds, Osmia_InCocoon_WinterMortality, g_random_fnc, next_int,
      emit, bind, ret. simpl.
    now destruct (Qltb _ _).
  - unfold killing_draws, winter_kills. apply (count_below_ceiling _ 100).
Qed.

(** ** Development in an open nest *)

(** What the code does for a cell of an open nest: the mortality test is
    skipped, nothing is drawn, and the day's degree-days are accumulated. *)
Lemma open_nest_skips_mortality_only (env : Env) (this : Osmia_Egg) (s : Sim) (n : nat) :
  m_OurNest this = Some n ->
  GetIsOpen (nests env n) = true ->
  returns (Osmia_Egg_st_Develop env this) s (fun r s' =>
    trace s' = trace s /\ fst r <> toOsmias_Die
    /\ accumulated (m_TempToday env) (m_OsmiaEggDevelThreshold (statics env))
                   (m_AgeDegrees this) (m_AgeDegrees (snd r)))
  /\ returns (Osmia_Larva_st_Develop env this) s (fun r s' =>
    trace s' = trace s /\ fst r <> toOsmias_Die
    /\ accumulated (SupplyTemp env) (m_OsmiaLarvaDevelThreshold (statics env))
                   (m_AgeDegrees this) (m_AgeDegrees (snd r))).
Proof.
  intros Hn Hopen.
  pose proof (accumulate_spec (m_AgeDegrees this) (m_TempToday env)
                (m_OsmiaEggDevelThreshold (statics env))) as A.
  pose proof (accumulate_spec (m_AgeDegrees this) (SupplyTemp env)
                (m_OsmiaLarvaDevelThreshold (statics env))) as B.
  simpl in A, B.
  unfold Osmia_Egg_st_Develop, Osmia_Larva_st_Develop. sim_unfold.
  rewrite Hn. simpl. rewrite Hopen. simpl. unfold accumulated.
  split.
  - destruct (Qltb 0 (m_TempToday env - _)); simpl;
      destruct (Qltb (m_OsmiaEggDevelTotalDD _) _); simpl;
      (split; [reflexivity | split; [discriminate | exact A]]).
  - destruct (Qltb 0 (SupplyTemp env - _)); simpl;
      destruct (Qltb (m_OsmiaLarvaDevelTotalDD _) _); simpl;
      (split; [reflexivity | split; [discriminate | exact B]]).
Qed.

(** C2 (the code at the failing input): an egg and a larva in nest 1, which
    is still open, on a day of 20 degrees.  [st_Develop] leaves the state
    Develop and the degree-day accumulator goes from 0 to 20 for the egg
    (threshold 0) and to 15.5 for the larva (threshold 4.5): the cell
    develops although its nest is unsealed. *)
Theorem open_nest_Egg_and_Larva_accumulate :
  let env := sample_Env false false 150 20 in
  let s := sample_Sim 0.5 50 in
  m_OurNest (sample_Egg 1) = Some 1%nat
  /\ GetIsOpen (nests env 1%nat) = true
  /\ m_AgeDegrees (sample_Egg 1) = 0
  /\ returns (Osmia_Egg_st_Develop env (sample_Egg 1)) s (fun r s' =>
       fst r = toOsmias_Develop /\ m_AgeDegrees (snd r) == 20 /\ trace s' = [])
  /\ returns (Osmia_Larva_st_Develop env (sample_Egg 1)) s (fun r s' =>
       fst r = toOsmias_Develop /\ m_AgeDegrees (snd r) == 15.5 /\ trace s' = []).
Proof. vm_compute. repeat split. Qed.

(** ** The prepupal day counter *)

(** C3 (the code at the failing input): at 22 degrees [DoFirst] publishes the
    rate 1; a prepupa with counter 0 and target 45 that survives the mortality
    test has counter 2 after one [st_Develop], not 1.  Stepped once a day it is
    still in Develop after 23 days, with counter 46, and it is sent to the next
    stage on day 24, when a counter that grew by the rate alone would be 24. *)
Theorem Prepupa_counter_grows_by_rate_plus_one :
  let s := sample_Sim 0.5 50 in
  exists env : Env,
    DoFirst (sample_Env false false 150 22) = Some env
    /\ GetPrePupalDevelDays (OPM env) = 1
    /\ m_AgeDegrees (sample_Prepupa 45) = 0
    /\ returns (Osmia_Prepupa_st_Develop env (sample_Prepupa 45)) s (fun r _ =>
         fst r = toOsmias_Develop /\ m_AgeDegrees (snd r) == 2)
    /\ returns (Osmia_Prepupa_run (days 23 env) (sample_Prepupa 45)) s (fun p _ =>
         m_CurrentOState p = toOsmias_Develop /\ m_AgeDegrees p == 46)
    /\ returns (Osmia_Prepupa_run (days 24 env) (sample_Prepupa 45)) s (fun p _ =>
         m_CurrentOState p = toOsmias_NextStage).
Proof. eexists. vm_compute. repeat split. Qed.

(** ** The late-season cutoff *)

(** C4 (the code at the failing input): day 150 is [June - 1], the day of the
    cutoff test; the emergence counter is 10.  At 4 degrees, below the
    emergence threshold of 5, [st_Develop] returns Develop and the adult
    lives on, also through the following day; at 6 degrees the same adult is
    sent to Die. *)
Theorem cold_cutoff_day_is_survived :
  let s := sample_Sim 0.5 50 in
  let cold := sample_Env true true 150 4 in
  let warm := sample_Env true true 150 6 in
  m_DayInYear cold = (June cold - 1)%Z
  /\ returns (Osmia_InCocoon_st_Develop cold (sample_InCocoon 10 0)) s (fun r _ =>
       fst r = toOsmias_Develop /\ m_emergencecounter (snd r) = 10%Z)
  /\ returns (Osmia_InCocoon_st_Develop warm (sample_InCocoon 10 0)) s (fun r _ =>
       fst r = toOsmias_Die)
  /\ returns (Osmia_InCocoon_run
                (days 1 cold ++ days 1 (sample_Env false false 151 4))
                (sample_InCocoon 10 0)) s (fun c _ =>
       m_CurrentOState c = toOsmias_Develop /\ m_CurrentStateNo c = 0%Z).
Proof. vm_compute. repeat split. Qed.

(** ** Degree-day accumulation *)


Lemma day_delta_dies temp thr (before : Osmia_Egg) (r : TTypeOfOsmiaState * Osmia_Egg) :
  fst r = toOsmias_Die -> m_AgeDegrees (snd r) = m_AgeDegrees before ->
  day_delta true temp thr before r.
Proof.
  unfold day_delta. intros Hd He. rewrite He.
  split; [apply Qle_refl | ]. split; [now split | now right].
Qed.

Lemma day_delta_survives temp thr (before : Osmia_Egg)
    (r : TTypeOfOsmiaState * Osmia_Egg) :
  fst r <> toOsmias_Die ->
  m_AgeDegrees (snd r)
  = (if Qltb 0 (temp - thr) then m_AgeDegrees before + (temp - thr)
     else m_AgeDegrees before) ->
  day_delta false temp thr before r.
Proof.
  unfold day_delta. intros Hd He. rewrite He.
  destruct (accumulate_spec (m_AgeDegrees before) temp thr) as (H1 & H2 & H3).
  simpl in *.
  split; [exact H1 | ]. split; [now split | ].
  destruct (Qlt_le_dec thr temp) as [H|H]; [now left | right; now apply H3].
Qed.

Lemma Osmia_Egg_st_Develop_delta (env : Env) (this : Osmia_Egg) (s : Sim) (n : nat) :
  m_OurNest this = Some n ->
  returns (Osmia_Egg_st_Develop env this) s (fun r _ =>
    day_delta (Egg_dies env this (nests env n) s)
              (m_TempToday env) (m_OsmiaEggDevelThreshold (statics env)) this r).
Proof.
  intro Hn. unfold Osmia_Egg_st_Develop, Osmia_Egg_DailyMortality, Egg_dies.
  sim_unfold. rewrite Hn. simpl.
  destruct (GetIsOpen (nests env n)); simpl.
  - destruct (Qltb 0 _) eqn:E; destruct (Qltb (m_OsmiaEggDevelTotalDD _) _); simpl;
      apply day_delta_survives; simpl; rewrite ?E; solve [discriminate | reflexivity].
  - destruct (Qltb (rand_uni s 0%nat) _); simpl;
      [ now apply day_delta_dies | ].
    destruct (OSMIA_PESTICIDE_ENGINE env && cfg_OsmiaEggThresholdBasedPesticideResponse env);
      simpl.
    + destruct (Qltb (rand_uni s 1%nat) _); simpl; [ now apply day_delta_dies | ].
      destruct (Qltb 0 _) eqn:E; destruct (Qltb (m_OsmiaEggDevelTotalDD _) _); simpl;
        apply day_delta_survives; simpl; rewrite ?E; solve [discriminate | reflexivity].
    + destruct (Qltb 0 _) eqn:E; destruct (Qltb (m_OsmiaEggDevelTotalDD _) _); simpl;
        apply day_delta_survives; simpl; rewrite ?E; solve [discriminate | reflexivity].
Qed.

Lemma Osmia_Larva_st_Develop_delta (env : Env) (this : Osmia_Larva) (s : Sim) (n : nat) :
  m_OurNest this = Some n ->
  returns (Osmia_Larva_st_Develop env this) s (fun r _ =>
    day_delta (Larva_dies env (nests env n) s)
              (SupplyTemp env) (m_OsmiaLarvaDevelThreshold (statics env)) this r).
Proof.
  intro Hn. unfold Osmia_Larva_st_Develop, Osmia_Larva_DailyMortality, Larva_dies.
  sim_unfold. rewrite Hn. simpl.
  destruct (GetIsOpen (nests env n)); simpl.
  - destruct (Qltb 0 _) eqn:E; destruct (Qltb (m_OsmiaLarvaDevelTotalDD _) _); simpl;
      apply day_delta_survives; simpl; rewrite ?E; solve [discriminate | reflexivity].
  - destruct (Qltb (rand_uni s 0%nat) _); simpl;
      [ now apply day_delta_dies | ].
    destruct (Qltb 0 _) eqn:E; destruct (Qltb (m_OsmiaLarvaDevelTotalDD _) _); simpl;
      apply day_delta_survives; simpl; rewrite ?E; solve [discriminate | reflexivity].
Qed.

Lemma Osmia_Pupa_st_Develop_delta (env : Env) (this : Osmia_Pupa) (s : Sim) :
  returns (Osmia_Pupa_st_Develop env this) s (fun r _ =>
    day_delta (Pupa_dies env s)
              (SupplyTemp env) (m_OsmiaPupaDevelThreshold (statics env)) this
              (fst r, prepupa_larva (snd r))).
Proof.
  unfold Osmia_Pupa_st_Develop, Osmia_Pupa_DailyMortality, Pupa_dies.
  sim_unfold. simpl.
  destruct (Qltb (rand_uni s 0%nat) _); simpl;
    [ now apply day_delta_dies | ].
  destruct (Qltb 0 _) eqn:E; destruct (Qltb (m_OsmiaPupaDevelTotalDD _) _); simpl;
    apply day_delta_survives; simpl; rewrite ?E; solve [discriminate | reflexivity].
Qed.

(** C5: over one [st_Develop] of an Egg, a Larva or a Pupa the degree-day
    accumulator never decreases.  An individual that fails the day's
    mortality test (the draw is below the daily mortality; for the egg also
    the pesticide test) is sent to Die with its accumulator unchanged; every
    other individual is not sent to Die and gains exactly
    [max(0, temp - threshold)], so a day at or below the threshold contributes
    nothing.  Along every run of [Step] calls, whatever the temperatures, the
    accumulator at an earlier point is at most the accumulator at a later
    point. *)
Theorem degree_day_accumulator_is_monotone :
  forall (env : Env) (egg larva : Osmia_Egg) (pupa : Osmia_Pupa) (s : Sim)
         (n_egg n_larva : nat),
    m_OurNest egg = Some n_egg ->
    m_OurNest larva = Some n_larva ->
    returns (Osmia_Egg_st_Develop env egg) s (fun r _ =>
      day_delta (Egg_dies env egg (nests env n_egg) s)
                (m_TempToday env) (m_OsmiaEggDevelThreshold (statics env)) egg r)
    /\ returns (Osmia_Larva_st_Develop env larva) s (fun r _ =>
      day_delta (Larva_dies env (nests env n_larva) s)
                (SupplyTemp env) (m_OsmiaLarvaDevelThreshold (statics env)) larva r)
    /\ returns (Osmia_Pupa_st_Develop env pupa) s (fun r _ =>
      day_delta (Pupa_dies env s)
                (SupplyTemp env) (m_OsmiaPupaDevelThreshold (statics env)) pupa
                (fst r, prepupa_larva (snd r)))
    /\ (forall sched1 sched2 : list Sched,
          match fst (Osmia_Egg_run (sched1 ++ sched2) egg s) with
          | Some final =>
              exists mid, fst (Osmia_Egg_run sched1 egg s) = Some mid
                          /\ m_AgeDegrees egg <= m_AgeDegrees mid
                          /\ m_AgeDegrees mid <= m_AgeDegrees final
          | None => True
          end)
    /\ (forall sched1 sched2 : list Sched,
          match fst (Osmia_Larva_run (sched1 ++ sched2) larva s) with
          | Some final =>
              exists mid, fst (Osmia_Larva_run sched1 larva s) = Some mid
                          /\ m_AgeDegrees larva <= m_AgeDegrees mid
                          /\ m_AgeDegrees mid <= m_AgeDegrees final
          | None => True
          end)
    /\ (forall sched1 sched2 : list Sched,
          match fst (Osmia_Pupa_run (sched1 ++ sched2) pupa s) with
          | Some final =>
              exists mid, fst (Osmia_Pupa_run sched1 pupa s) = Some mid
                          /\ m_AgeDegrees pupa <= m_AgeDegrees mid
                          /\ m_AgeDegrees mid <= m_AgeDegrees final
          | None => True
          end).
Proof.
  intros env egg larva pupa s n_egg n_larva Hegg Hlarva.
  split; [ | split; [ | split; [ | split; [ | split ]]]].
  - now apply Osmia_Egg_st_Develop_delta.
  - now apply Osmia_Larva_st_Develop_delta.
  - apply Osmia_Pupa_st_Develop_delta.
  - intros. apply Osmia_Egg_run_monotone.
  - intros. apply Osmia_Larva_run_monotone.
  - intros. apply Osmia_Pupa_run_monotone.
Qed.

(** C5 for the sample egg in its sealed nest on a day of 20 degrees: with the
    draw 0.5 it survives and its accumulator goes from 0 to 20. *)
Lemma degree_day_accumulator_is_monotone_witness :
  (m_OurNest (sample_Egg 0) = Some 0%nat /\ m_OurNest (sample_Egg 1) = Some 1%nat)
  /\ returns (Osmia_Egg_st_Develop (sample_Env false false 150 20) (sample_Egg 0))
             (sample_Sim 0.5 50) (fun r _ =>
       fst r <> toOsmias_Die /\ m_AgeDegrees (snd r) == 20).
Proof.
  split; [split; reflexivity | ].
  destruct (degree_day_accumulator_is_monotone (sample_Env false false 150 20)
              (sample_Egg 0) (sample_Egg 1) (sample_Prepupa 45) (sample_Sim 0.5 50)
              0%nat 1%nat eq_refl eq_refl) as (H & _).
  unfold returns in *.
  destruct (Osmia_Egg_st_Develop _ _ _) as [[r|] s']; [ | exact H ].
  destruct H as (_ & (Hd & Hacc) & _).
  split; [exact Hd | ]. rewrite Hacc. reflexivity.
Defined.

(** ** The individual duration of the prepupal stage *)

Lemma ten_percent_bounds (b u : Q) :
  0 < b -> 0 <= u -> u < 1 ->
  0.9 * b <= b + b * 0.2 * u - b * 0.1 /\ b + b * 0.2 * u - b * 0.1 <= 1.1 * b.
Proof.
  intros Hb H0 H1.
  assert (H : 0 <= b * u) by (apply Qmult_le_0_compat; lra).
  assert (H' : b * u <= b * 1) by (apply Qmult_le_l; lra).
  split.
  - setoid_replace (b + b * 0.2 * u - b * 0.1) with (0.9 * b + 0.2 * (b * u)) by ring.
    lra.
  - setoid_replace (b + b * 0.2 * u - b * 0.1) with (0.9 * b + 0.2 * (b * u)) by ring.
    lra.
Qed.

(** C6: the constructor of a prepupa consumes one uniform draw [u] and sets
    myTargetDays to [0.9 * baseDays + 0.2 * baseDays * u], a value between
    [0.9 * baseDays] and [1.1 * baseDays]; every value [t] of that interval
    below the upper end is the target for exactly the draw
    [(t - 0.9 * baseDays) / (0.2 * baseDays)], so that a uniform draw gives a
    uniform target; neither [st_Develop] nor any run of [Step] calls changes
    the target. *)
Theorem Prepupa_target_is_drawn_once_within_ten_percent :
  forall (cfg : Cfg) (env : Env) (data : struct_Osmia) (s : Sim),
    statics env = SetParameterValues cfg ->
    0 < cfg_OsmiaPrepupaDevelTotalDays cfg ->
    0 <= rand_uni s 0%nat ->
    rand_uni s 0%nat < 1 ->
    let baseDays := cfg_OsmiaPrepupaDevelTotalDays cfg in
    let target_of := fun u : Q => 0.9 * baseDays + 0.2 * baseDays * u in
    returns (Osmia_Prepupa_ctor env data) s (fun p s' =>
      trace s' = trace s ++ [Ev_rand_uni (rand_uni s 0%nat)]
      /\ m_myOsmiaPrepupaDevelTotalDays p == target_of (rand_uni s 0%nat)
      /\ 0.9 * baseDays <= m_myOsmiaPrepupaDevelTotalDays p
      /\ m_myOsmiaPrepupaDevelTotalDays p <= 1.1 * baseDays)
    /\ (forall t : Q,
          let u := (t - 0.9 * baseDays) / (0.2 * baseDays) in
          target_of u == t
          /\ (t < 0.9 * baseDays \/ 1.1 * baseDays <= t \/ (0 <= u /\ u < 1))
          /\ forall u' : Q, target_of u' == t -> u' == u)
    /\ (forall (env' : Env) (p : Osmia_Prepupa),
          returns (Osmia_Prepupa_st_Develop env' p) s (fun r _ =>
            m_myOsmiaPrepupaDevelTotalDays (snd r) = m_myOsmiaPrepupaDevelTotalDays p))
    /\ (forall (sched : list Sched) (p : Osmia_Prepupa),
          match fst (Osmia_Prepupa_run sched p s) with
          | Some p' => m_myOsmiaPrepupaDevelTotalDays p' = m_myOsmiaPrepupaDevelTotalDays p
          | None => True
          end).
Proof.
  intros cfg env data s Hst Hbase Hu0 Hu1 baseDays target_of.
  split; [ | split; [ | split ]].
  - unfold Osmia_Prepupa_ctor. sim_unfold. simpl. rewrite Hst. simpl.
    fold baseDays. unfold target_of.
    split; [reflexivity | ]. split; [ring | ].
    apply ten_percent_bounds; assumption.
  - intros t u. unfold target_of, u.
    assert (Hb : 0 < baseDays) by exact Hbase. clearbody baseDays.
    assert (Hnz : ~ 0.2 * baseDays == 0) by (intro H; lra).
    assert (Hnz' : ~ baseDays == 0) by (intro H; lra).
    split; [ field; exact Hnz' | ]. split.
    + destruct (Qlt_le_dec t (0.9 * baseDays)) as [H1|H1]; [now left | right].
      destruct (Qlt_le_dec t (1.1 * baseDays)) as [H2|H2]; [right | now left].
      assert (H0 : 0 < 0.2 * baseDays) by lra.
      split.
      * apply Qle_shift_div_l; [exact H0 | lra].
      * apply Qlt_shift_div_r; [exact H0 | lra].
    + intros u' Hu'.
      apply (Qmult_inj_r _ _ (0.2 * baseDays) Hnz).
      rewrite <- Hu'. field. exact Hnz'.
  - intros env' p.
    pose proof (Osmia_Prepupa_st_Develop_spec env' p s) as H. unfold returns in *.
    destruct (Osmia_Prepupa_st_Develop env' p s) as [[r|] s']; [ | exact H ].
    apply H.
  - intros sched p.
    destruct (Osmia_Prepupa_run sched p s) as [[p'|] s'] eqn:E; simpl; [ | exact I ].
    eapply Osmia_Prepupa_run_keeps_target, E.
Qed.

(** C6 with the default base duration of 45 days and the draw 0.5: the
    target is 45. *)
Lemma Prepupa_target_is_drawn_once_within_ten_percent_witness :
  (statics (sample_Env false false 150 20) = SetParameterValues default_Cfg
   /\ 0 < cfg_OsmiaPrepupaDevelTotalDays default_Cfg
   /\ 0 <= rand_uni (sample_Sim 0.5 50) 0%nat
   /\ rand_uni (sample_Sim 0.5 50) 0%nat < 1)
  /\ returns (Osmia_Prepupa_ctor (sample_Env false false 150 20) (sample_data 0))
             (sample_Sim 0.5 50) (fun p s' =>
       trace s' = [Ev_rand_uni 0.5]
       /\ m_myOsmiaPrepupaDevelTotalDays p == 45
       /\ 0.9 * 45 <= m_myOsmiaPrepupaDevelTotalDays p
       /\ m_myOsmiaPrepupaDevelTotalDays p <= 1.1 * 45).
Proof.
  assert (H1 : statics (sample_Env false false 150 20) = SetParameterValues default_Cfg)
    by reflexivity.
  assert (H2 : 0 < cfg_OsmiaPrepupaDevelTotalDays default_Cfg) by reflexivity.
  assert (H3 : 0 <= rand_uni (sample_Sim 0.5 50) 0%nat) by (simpl; lra).
  assert (H4 : rand_uni (sample_Sim 0.5 50) 0%nat < 1) by reflexivity.
  split; [ repeat split; assumption | ].
  destruct (Prepupa_target_is_drawn_once_within_ten_percent
              default_Cfg (sample_Env false false 150 20) (sample_data 0)
              (sample_Sim 0.5 50) H1 H2 H3 H4) as (H & _).
  unfold returns in *.
  destruct (Osmia_Prepupa_ctor _ _ _) as [[p|] s']; [ | exact H ].
  destruct H as (Ha & Hb & Hc & Hd).
  split; [exact Ha | ]. split; [ | split; [exact Hc | exact Hd] ].
  rewrite Hb. reflexivity.
Defined.

(** ** The winter-mortality draw in the life of an overwintering adult *)

(** C7: in every run of [Step] calls on an overwintering adult, from any
    state and under any sequence of daily environments, at most one
    winter-mortality draw is made; a single [Step] makes no such draw, or it
    makes exactly one, and then the adult was developing, the pre-emergence
    phase had begun and this step decremented its emergence counter to a
    value below 1; while prewintering or deep winter lasts, [st_Develop] has
    no effect outside the object, so that no draw of any kind is made. *)
Theorem winter_mortality_is_drawn_at_most_once :
  forall (sched : list Sched) (env : Env) (this : Osmia_InCocoon) (s : Sim),
    (exists new,
       adds (Osmia_InCocoon_run sched this) s new /\ (winter_draws new <= 1)%nat)
    /\ (exists new,
          adds (Osmia_InCocoon_Step env this) s new
          /\ (winter_draws new = 0%nat
              \/ (winter_draws new = 1%nat
                  /\ m_CurrentOState this = toOsmias_Develop
                  /\ counter_drops_below_1 env this
                  /\ returns (Osmia_InCocoon_Step env this) s (fun this' _ =>
                       m_emergencecounter this' = (m_emergencecounter this - 1)%Z
                       /\ (m_emergencecounter this' < 1)%Z))))
    /\ (IsEndPreWinter (OPM env) && IsOverWinterEnd (OPM env) = true
        \/ adds (Osmia_InCocoon_st_Develop env this) s []).
Proof.
  intros sched env this s. split; [ | split ].
  - destruct (Osmia_InCocoon_run_draws sched this s) as (new & Htr & Hle).
    exists new. split; [exact Htr | ]. destruct (spent this); lia.
  - destruct (Osmia_InCocoon_Step_draws env this s) as (new & Htr & H).
    exists new. split; [exact Htr | ].
    destruct H as [(H0 & _) | (H1 & Est & Hdrop & this' & E & _ & Hcnt)];
      [now left | right].
    repeat split; try assumption; try apply Hdrop.
    unfold returns. destruct (Osmia_InCocoon_Step env this s) as [[c|] s'];
      simpl in E; [ | discriminate ].
    injection E as ->. split; [exact Hcnt | ]. rewrite Hcnt. apply Hdrop.
  - destruct (IsEndPreWinter (OPM env)) eqn:E1;
      [ destruct (IsOverWinterEnd (OPM env)) eqn:E2; [now left | ] | ];
      right; unfold adds, Osmia_InCocoon_st_Develop; rewrite E1, ?E2;
      sim_unfold; simpl; now rewrite app_nil_r.
Qed.

(** ** Emergence *)



(** ** Metamorphosis *)

(** C9: an egg is created with the mass, sex and parasitism status of its
    initialisation data; each of the four transitions Egg to Larva, Larva to
    Prepupa, Prepupa to Pupa and Pupa to overwintering adult fills the
    initialisation data with the mass, sex and parasitism status of the
    object and hands to the population manager exactly one successor, whose
    mass, sex and parasitism status are those of its predecessor; and within
    a stage no run of [Step] calls changes any of the three. *)
Theorem metamorphosis_carries_mass_sex_parasitism :
  forall (env : Env) (data : struct_Osmia) (egg larva : Osmia_Egg)
         (prepupa pupa : Osmia_Prepupa) (sched : list Sched) (s : Sim) (n : nat),
    m_OurNest egg = Some n ->
    m_OurNest larva = Some n ->
    m_OurNest prepupa = Some n ->
    m_OurNest pupa = Some n ->
    (m_Mass (Osmia_Egg_ctor env data) = mass data
     /\ m_Sex (Osmia_Egg_ctor env data) = sex data
     /\ m_ParasitoidStatus (Osmia_Egg_ctor env data) = parasitised data)
    /\ (mass (carry_forward pupa) = m_Mass pupa
        /\ sex (carry_forward pupa) = m_Sex pupa
        /\ parasitised (carry_forward pupa) = m_ParasitoidStatus pupa)
    /\ returns (Osmia_Egg_st_Hatch env egg) s (fun _ s' =>
         exists succ : Osmia_Larva,
           trace s' = trace s ++ [Ev_PushIndividual (Ind_Larva succ);
                                  Ev_nest ReplaceNestPointer n]
           /\ carried egg succ)
    /\ returns (Osmia_Larva_st_Prepupate env larva) s (fun _ s' =>
         exists succ : Osmia_Prepupa,
           trace s' = trace s ++ [Ev_rand_uni (rand_uni s 0%nat);
                                  Ev_PushIndividual (Ind_Prepupa succ);
                                  Ev_nest ReplaceNestPointer n]
           /\ carried larva succ)
    /\ returns (Osmia_Prepupa_st_Pupate env prepupa) s (fun _ s' =>
         exists succ : Osmia_Pupa,
           trace s' = trace s ++ [Ev_rand_uni (rand_uni s 0%nat);
                                  Ev_PushIndividual (Ind_Pupa succ);
                                  Ev_nest ReplaceNestPointer n]
           /\ carried prepupa succ)
    /\ returns (Osmia_Pupa_st_Emerge env pupa) s (fun _ s' =>
         exists succ : Osmia_InCocoon,
           trace s' = trace s ++ [Ev_rand_uni (rand_uni s 0%nat);
                                  Ev_PushIndividual (Ind_InCocoon succ);
                                  Ev_nest ReplaceNestPointer n]
           /\ carried pupa succ)
    /\ match fst (Osmia_Egg_run sched egg s) with
       | Some egg' => carried egg egg'
       | None => True
       end
    /\ match fst (Osmia_Larva_run sched larva s) with
       | Some larva' => carried larva larva'
       | None => True
       end
    /\ match fst (Osmia_Prepupa_run sched prepupa s) with
       | Some prepupa' => carried prepupa prepupa'
       | None => True
       end
    /\ match fst (Osmia_Pupa_run sched pupa s) with
       | Some pupa' => carried pupa pupa'
       | None => True
       end.
Proof.
  intros env data egg larva prepupa pupa sched s n He Hl Hp Hq.
  split; [repeat split | ].
  split; [apply carry_forward_carries | ].
  split; [ | split; [ | split; [ | split; [ | split; [ | split; [ | split ]]]]]].
  - pose proof (Osmia_Egg_st_Hatch_spec env egg s n He) as H. unfold returns in *.
    destruct (Osmia_Egg_st_Hatch env egg s) as [[r|] s']; [apply H | exact H].
  - pose proof (Osmia_Larva_st_Prepupate_spec env larva s n Hl) as H. unfold returns in *.
    destruct (Osmia_Larva_st_Prepupate env larva s) as [[r|] s']; [apply H | exact H].
  - pose proof (Osmia_Prepupa_st_Pupate_spec env prepupa s n Hp) as H. unfold returns in *.
    destruct (Osmia_Prepupa_st_Pupate env prepupa s) as [[r|] s']; [apply H | exact H].
  - pose proof (Osmia_Pupa_st_Emerge_spec env pupa s n Hq) as H. unfold returns in *.
    destruct (Osmia_Pupa_st_Emerge env pupa s) as [[r|] s']; [apply H | exact H].
  - apply Osmia_Egg_run_carries.
  - apply Osmia_Larva_run_carries.
  - apply Osmia_Prepupa_run_carries.
  - apply Osmia_Pupa_run_carries.
Qed.

(** C9 for the sample pupa: the overwintering adult created from it has its
    mass 120, its sex and its parasitism status. *)
Lemma metamorphosis_carries_mass_sex_parasitism_witness :
  m_OurNest (sample_Egg 0) = Some 0%nat
  /\ m_OurNest (sample_Prepupa 45) = Some 0%nat
  /\ returns (Osmia_Pupa_st_Emerge (sample_Env false false 150 20) (sample_Prepupa 45))
             (sample_Sim 0.5 50) (fun _ s' =>
       exists succ : Osmia_InCocoon,
         trace s' = [Ev_rand_uni 0.5; Ev_PushIndividual (Ind_InCocoon succ);
                     Ev_nest ReplaceNestPointer 0]
         /\ m_Mass succ = 120 /\ m_Sex succ = true
         /\ m_ParasitoidStatus succ = topara_Unparasitised).
Proof.
  split; [reflexivity | ]. split; [reflexivity | ].
  apply (metamorphosis_carries_mass_sex_parasitism
           (sample_Env false false 150 20) (sample_data 0) (sample_Egg 0) (sample_Egg 0)
           (sample_Prepupa 45) (sample_Prepupa 45) [] (sample_Sim 0.5 50) 0%nat
           eq_refl eq_refl eq_refl eq_refl).
Defined.

(** ** Accessors *)

(** C10: [SetAgeDegrees] takes an unsigned integer, so passing a non-integral
    double [v] stores the truncation of [v]: [GetAgeDegrees] afterwards returns
    [int(v)], which differs from [v] by the lost fraction (less than one). *)
Theorem SetAgeDegrees_GetAgeDegrees_truncates :
  forall (v : Q) (a : Z) (e : Osmia_Egg),
    (forall z : Z, ~ v == inject_Z z) ->
    double_to_unsigned v = Some a ->
    GetAgeDegrees (SetAgeDegrees a e) = inject_Z (Qtrunc v)
    /\ ~ GetAgeDegrees (SetAgeDegrees a e) == v
    /\ -1 < v - GetAgeDegrees (SetAgeDegrees a e)
    /\ v - GetAgeDegrees (SetAgeDegrees a e) < 1.
Proof.
  intros v a e Hfrac Hconv.
  unfold double_to_unsigned in Hconv.
  destruct ((0 <=? Qtrunc v)%Z && (Qtrunc v <? 2 ^ 32)%Z); [ | discriminate ].
  injection Hconv as <-.
  unfold GetAgeDegrees, SetAgeDegrees. simpl.
  repeat split.
  - intro H. apply (Hfrac (Qtrunc v)). now symmetry.
  - apply Qtrunc_bounds.
  - apply Qtrunc_bounds.
Qed.

(** C10 at the argument 2.5: the accumulator reads 2 afterwards. *)
Lemma SetAgeDegrees_GetAgeDegrees_truncates_witness :
  (forall z : Z, ~ 2.5 == inject_Z z)
  /\ double_to_unsigned 2.5 = Some 2%Z
  /\ GetAgeDegrees (SetAgeDegrees 2 (sample_Egg 0)) = inject_Z (Qtrunc 2.5)
  /\ ~ GetAgeDegrees (SetAgeDegrees 2 (sample_Egg 0)) == 2.5.
Proof.
  assert (H : forall z : Z, ~ 2.5 == inject_Z z).
  { intros z. unfold Qeq, inject_Z. simpl. lia. }
  split; [exact H | split; [reflexivity | ]].
  destruct (SetAgeDegrees_GetAgeDegrees_truncates 2.5 2 (sample_Egg 0) H eq_refl)
    as (H1 & H2 & _).
  split; assumption.
Defined.

(** * Further properties *)

(** ** The daily rate of prepupal development *)

Lemma nth_error_in_range {A : Type} (l : list A) (n : nat) :
  (n < length l)%nat -> exists a, nth_error l n = Some a.
Proof.
  intro H. destruct (nth_error l n) as [a|] eqn:E; [now exists a | ].
  apply nth_error_None in E. lia.
Qed.

(** X1: with the 42 entries that [Init] gives the table, [DoFirst] has a
    result for every temperature: it publishes the temperature and the
    table entry at the temperature rounded half up and clamped to 0..41, and
    leaves the seasonal flags, the table and the parameters as they are. *)
Theorem DoFirst_reads_inside_the_table :
  forall env : Env,
    length (m_PrePupalDevelRates (OPM env)) = 42%nat ->
    exists (i : Z) (rate : Q) (env' : Env),
      DoFirst env = Some env'
      /\ (0 <= i <= 41)%Z
      /\ nth_error (m_PrePupalDevelRates (OPM env)) (Z.to_nat i) = Some rate
      /\ GetPrePupalDevelDays (OPM env') = rate
      /\ m_TempToday env' = SupplyTemp env
      /\ SupplyTemp env' = SupplyTemp env
      /\ IsEndPreWinter (OPM env') = IsEndPreWinter (OPM env)
      /\ IsOverWinterEnd (OPM env') = IsOverWinterEnd (OPM env)
      /\ m_PrePupalDevelRates (OPM env') = m_PrePupalDevelRates (OPM env)
      /\ statics env' = statics env
      /\ ((SupplyTemp env < -0.5 /\ i = 0%Z)
          \/ (41.5 <= SupplyTemp env /\ i = 41%Z)
          \/ (inject_Z i - 0.5 <= SupplyTemp env /\ SupplyTemp env < inject_Z i + 0.5)).
Proof.
  intros env Hlen.
  set (f := Qfloor (SupplyTemp env + 0.5)).
  set (i := Z.max 0 (Z.min 41 f)).
  assert (Hi : (0 <= i <= 41)%Z) by (unfold i; lia).
  destruct (nth_error_in_range (m_PrePupalDevelRates (OPM env)) (Z.to_nat i))
    as [rate Hrate]; [rewrite Hlen; lia | ].
  assert (Hidx : (let t := if (f <? 0)%Z then 0%Z else f in
                  if (t >? 41)%Z then 41%Z else t) = i).
  { unfold i. simpl. destruct (Z.ltb_spec f 0); destruct (Z.gtb_spec 0 41);
      try lia; destruct (Z.gtb_spec f 41); lia. }
  exists i, rate. unfold DoFirst. fold f. simpl in Hidx. rewrite Hidx, Hrate.
  eexists. split; [reflexivity | ]. simpl.
  repeat (split; [first [assumption | reflexivity | lia] | ]).
  pose proof (Qfloor_le (SupplyTemp env + 0.5)) as Hlo.
  pose proof (Qlt_floor (SupplyTemp env + 0.5)) as Hhi.
  fold f in Hlo, Hhi.
  destruct (Z_lt_le_dec f 0) as [Hneg|Hpos].
  - left. split; [ | unfold i; lia ].
    assert (H0 : inject_Z (f + 1) <= inject_Z 0) by (rewrite <- Zle_Qle; lia).
    change (inject_Z 0) with 0 in H0. lra.
  - destruct (Z_le_gt_dec f 41) as [Hle|Hgt].
    + right. right. assert (i = f) as -> by (unfold i; lia).
      rewrite inject_Z_plus in Hhi. change (inject_Z 1) with 1 in Hhi. split; lra.
    + right. left. split; [ | unfold i; lia ].
      assert (H0 : inject_Z 42 <= inject_Z f) by (rewrite <- Zle_Qle; lia).
      change (inject_Z 42) with 42 in H0. lra.
Qed.

Lemma DoFirst_reads_inside_the_table_witness :
  length (m_PrePupalDevelRates (OPM (sample_Env false false 150 22))) = 42%nat
  /\ exists env', DoFirst (sample_Env false false 150 22) = Some env'
                  /\ GetPrePupalDevelDays (OPM env') = 1.
Proof.
  split; [reflexivity | ].
  destruct (DoFirst_reads_inside_the_table (sample_Env false false 150 22) eq_refl)
    as (i & rate & env' & H & _).
  exists env'. split; [exact H | ].
  vm_compute in H. injection H as <-. reflexivity.
Defined.

(** ** The life of one object *)

Lemma nest_calls_app (a b : list Effect) :
  nest_calls (a ++ b) = (nest_calls a + nest_calls b)%nat.
Proof. unfold nest_calls. now rewrite filter_app, length_app. Qed.

Lemma calls_nest_ret {A : Type} (a : A) (s : Sim) : calls_nest (ret a) s 0.
Proof. exists []. split; [ | reflexivity ]. unfold adds, ret. simpl. now rewrite app_nil_r. Qed.

Lemma calls_nest_stop {A : Type} (s : Sim) : calls_nest (@stop A) s 0.
Proof. exists []. split; [ | reflexivity ]. unfold adds, stop. simpl. now rewrite app_nil_r. Qed.

Section Lifecycle.
Context {T : Type}.
Variable base : T -> Osmia_Base.
Variable upd : (Osmia_Base -> Osmia_Base) -> T -> T.
Variable st_Develop st_NextStage : Env -> T -> M (TTypeOfOsmiaState * T).

Hypothesis base_upd : forall f t, base (upd f t) = f (base t).
Hypothesis Develop_calls : forall env t s, calls_nest (st_Develop env t) s 0.
Hypothesis NextStage_calls :
  forall env t s,
    calls_nest (st_NextStage env t) s 0
    \/ (calls_nest (st_NextStage env t) s 1
        /\ forall r s', st_NextStage env t s = (Some r, s') ->
                        m_CurrentStateNo (base (snd r)) = (-1)%Z).
Hypothesis NextStage_leaves :
  forall env t s r s',
    st_NextStage env t s = (Some r, s') ->
    step_done (base (snd r)) = true \/ fst r = toOsmias_Die.

Local Abbreviation step := (Step base upd st_Develop st_NextStage).

Lemma Step_done_returns (env : Env) (t : T) (s : Sim) :
  step_done (base t) = true -> step env t s = (Some t, s).
Proof. unfold Step, step_done. intros ->. reflexivity. Qed.

Lemma same_day_done_returns (envs : list Env) (t : T) (s : Sim) :
  step_done (base t) = true -> run upd step (same_day envs) t s = (Some t, s).
Proof.
  intro H. induction envs as [|env envs IH]; simpl; [reflexivity | ].
  unfold bind. now rewrite Step_done_returns.
Qed.

Lemma Step_twice_done (e1 e2 : Env) (t : T) (s : Sim) (t2 : T) (s2 : Sim) :
  run upd step [Call_Step e1; Call_Step e2] t s = (Some t2, s2) ->
  step_done (base t2) = true.
Proof.
  simpl. unfold bind.
  destruct (step e1 t s) as [[t1|] s1] eqn:E1; [ | discriminate ].
  destruct (step e2 t1 s1) as [[t2'|] s2'] eqn:E2; [ | discriminate ].
  unfold ret. intros [= <- <-].
  destruct (step_done (base t1)) eqn:D1.
  { rewrite Step_done_returns in E2 by assumption. now injection E2 as <- _. }
  assert (Hafter : forall b, step_done (Base_set_StepDone true b) = true) by reflexivity.
  assert (Hdie : m_CurrentOState (base t1) = toOsmias_Die -> step_done (base t2') = true).
  { intro Est. unfold Step in E2. unfold step_done in D1. rewrite D1, Est in E2.
    unfold Osmia_Base_st_Dying in E2. sim_unfold. simpl in E2.
    destruct (m_OurNest (base t1)); [ | discriminate ].
    simpl in E2. injection E2 as <- _. now rewrite base_upd. }
  unfold Step in E1.
  destruct (m_StepDone (base t) || (m_CurrentStateNo (base t) =? -1)%Z) eqn:D.
  { unfold ret in E1. injection E1 as <- _. unfold step_done in D1. congruence. }
  destruct (m_CurrentOState (base t)) eqn:Est; sim_unfold; try discriminate.
  - injection E1 as <- _.
    unfold Step in E2. unfold step_done in D1. rewrite D1 in E2.
    rewrite base_upd in E2. simpl in E2. unfold bind in E2.
    destruct (st_Develop e2 _ s1) as [[r|] s'] eqn:Ed; [ | discriminate ].
    injection E2 as <- _. now rewrite base_upd.
  - destruct (st_Develop e1 t s) as [[r|] s'] eqn:Ed; [ | discriminate ].
    injection E1 as <- _. rewrite base_upd in D1. discriminate D1.
  - destruct (st_NextStage e1 t s) as [[r|] s'] eqn:En; [ | discriminate ].
    injection E1 as <- _.
    destruct (NextStage_leaves _ _ _ _ _ En) as [Hd | Hd].
    + rewrite base_upd in D1. unfold step_done in *.
      destruct (base (snd r)); simpl in *. congruence.
    + apply Hdie. rewrite base_upd, Hd. reflexivity.
  - unfold Osmia_Base_st_Dying in E1. simpl in E1.
    destruct (m_OurNest (base t)); [ | discriminate ].
    simpl in E1. injection E1 as <- _. rewrite base_upd in D1. discriminate D1.
Qed.

Lemma same_day_two_steps (e1 e2 : Env) (envs : list Env) (t : T) (s : Sim) :
  run upd step (same_day (e1 :: e2 :: envs)) t s
  = run upd step (same_day [e1; e2]) t s.
Proof.
  change (same_day (e1 :: e2 :: envs)) with (same_day [e1; e2] ++ same_day envs).
  rewrite (run_app base upd st_Develop st_NextStage). unfold bind.
  destruct (run upd step (same_day [e1; e2]) t s) as [[t2|] s2] eqn:E; [ | reflexivity ].
  apply same_day_done_returns. eapply Step_twice_done. exact E.
Qed.

Lemma Step_calls (env : Env) (t : T) (s : Sim) :
  exists new,
    trace (snd (step env t s)) = trace s ++ new
    /\ (nest_calls new = 0%nat
        \/ (nest_calls new = 1%nat
            /\ m_CurrentStateNo (base t) <> (-1)%Z
            /\ forall t' s', step env t s = (Some t', s') ->
                             m_CurrentStateNo (base t') = (-1)%Z)).
Proof.
  unfold Step.
  destruct (m_StepDone (base t) || (m_CurrentStateNo (base t) =? -1)%Z) eqn:D.
  { exists []. rewrite app_nil_r. split; [reflexivity | now left]. }
  apply orb_false_iff in D. destruct D as [_ D]. apply Z.eqb_neq in D.
  destruct (m_CurrentOState (base t)); sim_unfold;
    try (exists []; rewrite app_nil_r; split; [reflexivity | now left]).
  - destruct (Develop_calls env t s) as (new & Htr & Hnew). unfold adds in Htr.
    exists new. split; [ | now left ].
    destruct (st_Develop env t s) as [[r|] s1]; exact Htr.
  - destruct (NextStage_calls env t s)
      as [(new & Htr & Hnew) | ((new & Htr & Hnew) & Hdead)];
      unfold adds in Htr; exists new;
      (split; [ destruct (st_NextStage env t s) as [[r|] s1]; exact Htr | ]).
    + now left.
    + right. split; [exact Hnew | ]. split; [exact D | ].
      intros t' s'. destruct (st_NextStage env t s) as [[r|] s1]; [ | discriminate ].
      intros [= <- _]. rewrite base_upd. simpl. now apply (Hdead r s1).
  - unfold Osmia_Base_st_Dying. simpl.
    destruct (m_OurNest (base t)) as [n|]; simpl.
    + exists [Ev_nest RemoveCell n]. split; [reflexivity | right].
      split; [reflexivity | ]. split; [exact D | ].
      intros t' s' [= <- _]. now rewrite !base_upd.
    + exists []. rewrite app_nil_r. split; [reflexivity | now left].
Qed.

Lemma run_calls (sched : list Sched) :
  forall (t : T) (s : Sim),
  exists new,
    trace (snd (run upd step sched t s)) = trace s ++ new
    /\ (nest_calls new <= if (m_CurrentStateNo (base t) =? -1)%Z then 0 else 1)%nat.
Proof.
  induction sched as [|[|env] sched IH]; simpl; intros t s.
  - exists []. rewrite app_nil_r. split; [reflexivity | apply Nat.le_0_l].
  - destruct (IH (upd (Base_set_StepDone false) t) s) as (new & Htr & Hnew).
    rewrite base_upd in Hnew. exists new. split; [exact Htr | exact Hnew].
  - destruct (Step_calls env t s) as (new1 & Htr1 & Hnew1). unfold bind.
    destruct (step env t s) as [[t1|] s1] eqn:E; simpl in *.
    + destruct (IH t1 s1) as (new2 & Htr2 & Hnew2).
      exists (new1 ++ new2). rewrite Htr2, Htr1, app_assoc. split; [reflexivity | ].
      rewrite nest_calls_app.
      destruct Hnew1 as [H0 | (H1 & Halive & Hdead)].
      * rewrite H0. simpl.
        destruct (Z.eqb_spec (m_CurrentStateNo (base t)) (-1)) as [Hd|Hd].
        -- unfold Step in E. rewrite Hd, orb_true_r in E. injection E as <- _.
           rewrite Hd in Hnew2. exact Hnew2.
        -- destruct (m_CurrentStateNo (base t1) =? -1)%Z; lia.
      * rewrite H1, (Hdead t1 s1 eq_refl) in *. simpl in Hnew2.
        destruct (Z.eqb_spec (m_CurrentStateNo (base t)) (-1)); [contradiction | lia].
    + exists new1. split; [exact Htr1 | ].
      destruct Hnew1 as [H0 | (H1 & Halive & _)].
      * rewrite H0. apply Nat.le_0_l.
      * rewrite H1. destruct (Z.eqb_spec (m_CurrentStateNo (base t)) (-1));
          [contradiction | lia].
Qed.
End Lifecycle.

(** *** The stages' calls on their nest *)

Ltac no_nest_call :=
  eexists; split; [ simpl; trace_suffix | reflexivity ].

Lemma Osmia_Egg_st_Develop_calls env (this : Osmia_Egg) s :
  calls_nest (Osmia_Egg_st_Develop env this) s 0.
Proof.
  unfold calls_nest, adds, Osmia_Egg_st_Develop, Osmia_Egg_DailyMortality. sim_unfold.
  destruct (m_OurNest this); simpl; [ | no_nest_call ].
  repeat match goal with
         | |- context [if ?c then _ else _] => destruct c; simpl
         end; no_nest_call.
Qed.

Lemma Osmia_Larva_st_Develop_calls env (this : Osmia_Larva) s :
  calls_nest (Osmia_Larva_st_Develop env this) s 0.
Proof.
  unfold calls_nest, adds, Osmia_Larva_st_Develop, Osmia_Larva_DailyMortality. sim_unfold.
  destruct (m_OurNest this); simpl; [ | no_nest_call ].
  repeat match goal with
         | |- context [if ?c then _ else _] => destruct c; simpl
         end; no_nest_call.
Qed.

Lemma Osmia_Prepupa_st_Develop_calls env (this : Osmia_Prepupa) s :
  calls_nest (Osmia_Prepupa_st_Develop env this) s 0.
Proof.
  unfold calls_nest, adds, Osmia_Prepupa_st_Develop, Osmia_Prepupa_DailyMortality. sim_unfold. simpl.
  repeat match goal with
         | |- context [if ?c then _ else _] => destruct c; simpl
         end; no_nest_call.
Qed.

Lemma Osmia_Pupa_st_Develop_calls env (this : Osmia_Pupa) s :
  calls_nest (Osmia_Pupa_st_Develop env this) s 0.
Proof.
  unfold calls_nest, adds, Osmia_Pupa_st_Develop, Osmia_Pupa_DailyMortality. sim_unfold. simpl.
  repeat match goal with
         | |- context [if ?c then _ else _] => destruct c; simpl
         end; no_nest_call.
Qed.

Lemma Osmia_InCocoon_st_Develop_calls env (this : Osmia_InCocoon) s :
  calls_nest (Osmia_InCocoon_st_Develop env this) s 0.
Proof.
  unfold calls_nest, adds, Osmia_InCocoon_st_Develop, Osmia_InCocoon_WinterMortality. sim_unfold. simpl.
  repeat match goal with
         | |- context [if ?c then _ else _] => destruct c; simpl
         | |- context [match m_OurNest ?t with _ => _ end] => destruct (m_OurNest t); simpl
         end; no_nest_call.
Qed.

Ltac transition_calls :=
  sim_unfold; simpl;
  match goal with
  | |- context [m_OurNest ?t] => destruct (m_OurNest t); simpl
  end;
  [ right; split; [ no_nest_call | intros r s' [= <- _]; reflexivity ]
  | left; no_nest_call ].

Lemma Osmia_Egg_st_Hatch_calls env (this : Osmia_Egg) s :
  calls_nest (Osmia_Egg_st_Hatch env this) s 0
  \/ (calls_nest (Osmia_Egg_st_Hatch env this) s 1
      /\ forall r s', Osmia_Egg_st_Hatch env this s = (Some r, s') ->
                      m_CurrentStateNo (snd r) = (-1)%Z).
Proof. unfold calls_nest, adds, Osmia_Egg_st_Hatch, CreateObjects. transition_calls. Qed.

Lemma Osmia_Larva_st_Prepupate_calls env (this : Osmia_Larva) s :
  calls_nest (Osmia_Larva_st_Prepupate env this) s 0
  \/ (calls_nest (Osmia_Larva_st_Prepupate env this) s 1
      /\ forall r s', Osmia_Larva_st_Prepupate env this s = (Some r, s') ->
                      m_CurrentStateNo (snd r) = (-1)%Z).
Proof.
  unfold calls_nest, adds, Osmia_Larva_st_Prepupate, CreateObjects, Osmia_Prepupa_ctor. transition_calls.
Qed.

Lemma Osmia_Prepupa_st_Pupate_calls env (this : Osmia_Prepupa) s :
  calls_nest (Osmia_Prepupa_st_Pupate env this) s 0
  \/ (calls_nest (Osmia_Prepupa_st_Pupate env this) s 1
      /\ forall r s', Osmia_Prepupa_st_Pupate env this s = (Some r, s') ->
                      m_CurrentStateNo (snd r) = (-1)%Z).
Proof.
  unfold calls_nest, adds, Osmia_Prepupa_st_Pupate, CreateObjects, Osmia_Pupa_ctor, Osmia_Prepupa_ctor.
  transition_calls.
Qed.

Lemma Osmia_Pupa_st_Emerge_calls env (this : Osmia_Pupa) s :
  calls_nest (Osmia_Pupa_st_Emerge env this) s 0
  \/ (calls_nest (Osmia_Pupa_st_Emerge env this) s 1
      /\ forall r s', Osmia_Pupa_st_Emerge env this s = (Some r, s') ->
                      m_CurrentStateNo (snd r) = (-1)%Z).
Proof.
  unfold calls_nest, adds, Osmia_Pupa_st_Emerge, CreateObjects, Osmia_InCocoon_ctor, Osmia_Pupa_ctor,
    Osmia_Prepupa_ctor.
  transition_calls.
Qed.

Lemma Osmia_InCocoon_st_Emerge_calls env (this : Osmia_InCocoon) s :
  calls_nest (Osmia_InCocoon_st_Emerge env this) s 0
  \/ (calls_nest (Osmia_InCocoon_st_Emerge env this) s 1
      /\ forall r s', Osmia_InCocoon_st_Emerge env this s = (Some r, s') ->
                      m_CurrentStateNo (snd r) = (-1)%Z).
Proof.
  unfold calls_nest, adds, Osmia_InCocoon_st_Emerge, CreateObjects, Osmia_InCocoon_ctor, Osmia_Pupa_ctor,
    Osmia_Prepupa_ctor.
  destruct (m_Sex this);
    [ destruct (is_Unparasitised (m_ParasitoidStatus this)); simpl | ];
    try transition_calls.
  left. sim_unfold. no_nest_call.
Qed.

(** The object after a transition is dead, or the adult waits in state Die. *)
Lemma Osmia_InCocoon_st_Emerge_leaves env (this : Osmia_InCocoon) s r s' :
  Osmia_InCocoon_st_Emerge env this s = (Some r, s') ->
  step_done (snd r) = true \/ fst r = toOsmias_Die.
Proof.
  unfold calls_nest, adds, Osmia_InCocoon_st_Emerge, CreateObjects, Osmia_InCocoon_ctor, Osmia_Pupa_ctor,
    Osmia_Prepupa_ctor.
  destruct (m_Sex this);
    [ destruct (is_Unparasitised (m_ParasitoidStatus this)); simpl | ];
    sim_unfold; simpl; try (intros [= <- _]; now right);
    destruct (m_OurNest this); simpl; intros [= <- _]; now left.
Qed.

(** ** Calls of [Step] within one day *)

(** X2: as long as the framework does not clear [m_StepDone], only the first
    two calls of [Step] can change anything: whatever the environments, every
    further call returns the object as it is, draws no random number and has no
    effect.  This holds for all five stages. *)
Theorem Step_acts_at_most_twice_a_day :
  forall (e1 e2 : Env) (envs : list Env) (s : Sim),
    (forall this, Osmia_Egg_run (same_day (e1 :: e2 :: envs)) this s
                  = Osmia_Egg_run (same_day [e1; e2]) this s)
    /\ (forall this, Osmia_Larva_run (same_day (e1 :: e2 :: envs)) this s
                     = Osmia_Larva_run (same_day [e1; e2]) this s)
    /\ (forall this, Osmia_Prepupa_run (same_day (e1 :: e2 :: envs)) this s
                     = Osmia_Prepupa_run (same_day [e1; e2]) this s)
    /\ (forall this, Osmia_Pupa_run (same_day (e1 :: e2 :: envs)) this s
                     = Osmia_Pupa_run (same_day [e1; e2]) this s)
    /\ (forall this, Osmia_InCocoon_run (same_day (e1 :: e2 :: envs)) this s
                     = Osmia_InCocoon_run (same_day [e1; e2]) this s).
Proof.
  intros e1 e2 envs s.
  repeat split; intro this;
    apply same_day_two_steps;
    try (intros f [[[] ?] ? ?]; reflexivity);
    try (intros f [[] ?]; reflexivity);
    try (intros f []; reflexivity);
    intros env t s0 r s' E.
  - left. now rewrite (Osmia_Egg_st_Hatch_result _ _ _ _ _ E).
  - left. now rewrite (Osmia_Larva_st_Prepupate_result _ _ _ _ _ E).
  - left. now rewrite (Osmia_Prepupa_st_Pupate_result _ _ _ _ _ E).
  - left. now rewrite (Osmia_Pupa_st_Emerge_result _ _ _ _ _ E).
  - eapply Osmia_InCocoon_st_Emerge_leaves, E.
Qed.

(** ** Calls on the nest *)

(** X3: over any sequence of days and calls of [Step], an object of any of
    the five stages makes at most one call on its nest, the replacement of the
    nest's pointer at metamorphosis or the removal of its cell at death or
    emergence, and a dead object makes none. *)
Theorem at_most_one_nest_call_in_a_life :
  forall (sched : list Sched) (s : Sim),
    (forall this : Osmia_Egg, exists new,
        adds (Osmia_Egg_run sched this) s new
        /\ (nest_calls new <= if (m_CurrentStateNo this =? -1)%Z then 0 else 1)%nat)
    /\ (forall this : Osmia_Larva, exists new,
        adds (Osmia_Larva_run sched this) s new
        /\ (nest_calls new <= if (m_CurrentStateNo this =? -1)%Z then 0 else 1)%nat)
    /\ (forall this : Osmia_Prepupa, exists new,
        adds (Osmia_Prepupa_run sched this) s new
        /\ (nest_calls new <= if (m_CurrentStateNo this =? -1)%Z then 0 else 1)%nat)
    /\ (forall this : Osmia_Pupa, exists new,
        adds (Osmia_Pupa_run sched this) s new
        /\ (nest_calls new <= if (m_CurrentStateNo this =? -1)%Z then 0 else 1)%nat)
    /\ (forall this : Osmia_InCocoon, exists new,
        adds (Osmia_InCocoon_run sched this) s new
        /\ (nest_calls new <= if (m_CurrentStateNo this =? -1)%Z then 0 else 1)%nat).
Proof.
  intros sched s. unfold adds.
  repeat split; intro this.
  - apply (run_calls egg_base upd_Base Osmia_Egg_st_Develop Osmia_Egg_st_Hatch);
      [ intros f []; reflexivity
      | apply Osmia_Egg_st_Develop_calls | apply Osmia_Egg_st_Hatch_calls ].
  - apply (run_calls egg_base upd_Base Osmia_Larva_st_Develop Osmia_Larva_st_Prepupate);
      [ intros f []; reflexivity
      | apply Osmia_Larva_st_Develop_calls | apply Osmia_Larva_st_Prepupate_calls ].
  - apply (run_calls (fun p : Osmia_Prepupa => egg_base p) (fun f => upd_Egg (upd_Base f))
             Osmia_Prepupa_st_Develop Osmia_Prepupa_st_Pupate);
      [ intros f [[] ?]; reflexivity
      | apply Osmia_Prepupa_st_Develop_calls | apply Osmia_Prepupa_st_Pupate_calls ].
  - apply (run_calls (fun p : Osmia_Pupa => egg_base p) (fun f => upd_Egg (upd_Base f))
             Osmia_Pupa_st_Develop Osmia_Pupa_st_Emerge);
      [ intros f [[] ?]; reflexivity
      | apply Osmia_Pupa_st_Develop_calls | apply Osmia_Pupa_st_Emerge_calls ].
  - apply (run_calls (fun c : Osmia_InCocoon => egg_base c)
             (fun f => upd_Pupa (upd_Egg (upd_Base f)))
             Osmia_InCocoon_st_Develop Osmia_InCocoon_st_Emerge);
      [ intros f [[[] ?] ? ?]; reflexivity
      | apply Osmia_InCocoon_st_Develop_calls | apply Osmia_InCocoon_st_Emerge_calls ].
Qed.

(** ** The duration of the egg stage at constant temperature *)

Lemma uni_draws_S (s : Sim) (k : nat) :
  uni_draws s (S k)
  = Ev_rand_uni (rand_uni s 0%nat)
      :: uni_draws {| rand_uni := fun n => rand_uni s (S n);
                      rand_int := rand_int s;
                      trace := trace s ++ [Ev_rand_uni (rand_uni s 0%nat)] |} k.
Proof.
  unfold uni_draws. simpl. f_equal. now rewrite <- seq_shift, map_map.
Qed.

Lemma inject_Z_S (k : nat) : inject_Z (Z.of_nat (S k)) == inject_Z (Z.of_nat k) + 1.
Proof. rewrite Nat2Z.inj_succ. unfold Z.succ. now rewrite inject_Z_plus. Qed.

Lemma inject_Z_nat_nonneg (k : nat) : 0 <= inject_Z (Z.of_nat k).
Proof. change 0 with (inject_Z 0). rewrite <- Zle_Qle. lia. Qed.

(** One day of an egg in a sealed nest that survives the mortality test, with
    the pesticide response switched off. *)
Lemma Osmia_Egg_day (env : Env) (n : nat) (egg : Osmia_Egg) (s : Sim) :
  GetIsOpen (nests env n) = false ->
  OSMIA_PESTICIDE_ENGINE env && cfg_OsmiaEggThresholdBasedPesticideResponse env = false ->
  0 < m_TempToday env - m_OsmiaEggDevelThreshold (statics env) ->
  Egg_develops env n egg s ->
  exists egg',
    Osmia_Egg_run (days 1 env) egg s
    = (Some egg', {| rand_uni := fun i => rand_uni s (S i);
                     rand_int := rand_int s;
                     trace := trace s ++ [Ev_rand_uni (rand_uni s 0%nat)] |})
    /\ m_OurNest egg' = Some n
    /\ m_CurrentStateNo egg' = m_CurrentStateNo egg
    /\ m_Age egg' = (m_Age egg + 1)%Z
    /\ m_AgeDegrees egg'
       = m_AgeDegrees egg + (m_TempToday env - m_OsmiaEggDevelThreshold (statics env))
    /\ m_CurrentOState egg'
       = if Qltb (m_OsmiaEggDevelTotalDD (statics env)) (m_AgeDegrees egg')
         then toOsmias_NextStage else toOsmias_Develop.
Proof.
  intros Hsealed Hpest HDD (Hn & Hst & Halive & Hdraws).
  unfold Osmia_Egg_run, days. simpl. unfold Osmia_Egg_Step, Step. simpl.
  apply Z.eqb_neq in Halive. rewrite Halive, Hst.
  unfold Osmia_Egg_st_Develop, Osmia_Egg_DailyMortality. sim_unfold. simpl.
  rewrite Hn. simpl. unfold GetIsOpen in Hsealed. unfold GetIsOpen. rewrite Hsealed. simpl.
  assert (Hd : Qltb (rand_uni s 0%nat) (m_DailyDevelopmentMortEggs (statics env)) = false)
    by (apply Qltb_ge, Hdraws).
  rewrite Hd, Hpest.
  apply Qltb_lt in HDD. simpl. rewrite ?HDD. simpl. rewrite ?HDD.
  destruct (Qltb (m_OsmiaEggDevelTotalDD (statics env)) _) eqn:Et; simpl; eexists; (split; [reflexivity | ]); simpl;
    rewrite ?Et; repeat split; apply Z.eqb_neq in Halive; auto.
Qed.

Lemma Osmia_Egg_constant_days (env : Env) (n : nat) :
  GetIsOpen (nests env n) = false ->
  OSMIA_PESTICIDE_ENGINE env && cfg_OsmiaEggThresholdBasedPesticideResponse env = false ->
  0 < m_TempToday env - m_OsmiaEggDevelThreshold (statics env) ->
  forall (k : nat) (egg : Osmia_Egg) (s : Sim),
    Egg_develops env n egg s ->
    m_AgeDegrees egg
    + inject_Z (Z.of_nat k) * (m_TempToday env - m_OsmiaEggDevelThreshold (statics env))
    <= m_OsmiaEggDevelTotalDD (statics env) ->
    returns (Osmia_Egg_run (days k env) egg) s (fun egg' s' =>
      Egg_develops env n egg' s'
      /\ m_AgeDegrees egg'
         == m_AgeDegrees egg
            + inject_Z (Z.of_nat k)
              * (m_TempToday env - m_OsmiaEggDevelThreshold (statics env))
      /\ m_Age egg' = (m_Age egg + Z.of_nat k)%Z
      /\ trace s' = trace s ++ uni_draws s k
      /\ forall i, rand_uni s' i = rand_uni s (i + k)%nat).
Proof.
  intros Hsealed Hpest HDD.
  set (DD := m_TempToday env - m_OsmiaEggDevelThreshold (statics env)) in *.
  induction k as [|k IH]; intros egg s Hinv Hle.
  - unfold returns, Osmia_Egg_run, days. simpl. unfold ret.
    split; [exact Hinv | ]. split; [simpl; ring | ].
    split; [lia | ]. unfold uni_draws. simpl. rewrite app_nil_r.
    split; [reflexivity | ]. intro i. now rewrite Nat.add_0_r.
  - destruct (Osmia_Egg_day env n egg s Hsealed Hpest HDD Hinv)
      as (egg1 & E1 & Hn1 & Hno1 & Hage1 & Hacc1 & Hst1).
    fold DD in Hacc1.
    pose proof (inject_Z_S k) as HS. pose proof (inject_Z_nat_nonneg k) as Hk.
    assert (Hkd : 0 <= inject_Z (Z.of_nat k) * DD)
      by (apply Qmult_le_0_compat; [exact Hk | now apply Qlt_le_weak]).
    assert (Hle1 : m_AgeDegrees egg1 + inject_Z (Z.of_nat k) * DD
                   <= m_OsmiaEggDevelTotalDD (statics env)).
    { rewrite Hacc1. rewrite HS in Hle. lra. }
    assert (Hinv1 : Egg_develops env n egg1
                      {| rand_uni := fun i => rand_uni s (S i);
                         rand_int := rand_int s;
                         trace := trace s ++ [Ev_rand_uni (rand_uni s 0%nat)] |}).
    { destruct Hinv as (_ & _ & Halive & Hdraws).
      split; [exact Hn1 | ]. split.
      - rewrite Hst1.
        assert (Ht : Qltb (m_OsmiaEggDevelTotalDD (statics env)) (m_AgeDegrees egg1) = false)
          by (apply Qltb_ge; lra).
        now rewrite Ht.
      - split; [now rewrite Hno1 | ]. intro i. apply Hdraws. }
    specialize (IH egg1 _ Hinv1 Hle1).
    unfold returns, Osmia_Egg_run in *.
    change (days (S k) env) with (days 1 env ++ days k env).
    rewrite (run_app egg_base upd_Base Osmia_Egg_st_Develop Osmia_Egg_st_Hatch).
    unfold bind. fold Osmia_Egg_Step. rewrite E1.
    destruct (run upd_Base Osmia_Egg_Step (days k env) egg1 _) as [[egg'|] s'];
      [ | contradiction ].
    destruct IH as (Hinv' & Hacc' & Hage' & Htr' & Hgen').
    split; [exact Hinv' | ]. split; [ rewrite Hacc', Hacc1, HS; ring | ].
    split; [ lia | ]. split.
    + rewrite Htr'. simpl. rewrite uni_draws_S, <- app_assoc. reflexivity.
    + intro i. rewrite Hgen'. simpl. f_equal. lia.
Qed.

(** X4: an egg in a sealed nest that passes every daily mortality test, at a
    constant temperature above the threshold and without the pesticide
    response, stays in state Develop as long as its degree-days do not exceed
    the required total; on the first day on which they exceed it the egg
    turns to the next stage, and on the day after that the larva is created,
    with the egg's age in days and with no degree-days of its own. *)
Theorem Egg_hatches_the_day_after_the_total_is_exceeded :
  forall (env : Env) (n : nat) (egg : Osmia_Egg) (s : Sim) (k : nat),
    let DD := m_TempToday env - m_OsmiaEggDevelThreshold (statics env) in
    GetIsOpen (nests env n) = false ->
    OSMIA_PESTICIDE_ENGINE env && cfg_OsmiaEggThresholdBasedPesticideResponse env = false ->
    0 < DD ->
    Egg_develops env n egg s ->
    m_AgeDegrees egg + inject_Z (Z.of_nat k) * DD <= m_OsmiaEggDevelTotalDD (statics env) ->
    m_OsmiaEggDevelTotalDD (statics env) < m_AgeDegrees egg + inject_Z (Z.of_nat (S k)) * DD ->
    returns (Osmia_Egg_run (days k env) egg) s (fun egg' s' =>
      m_CurrentOState egg' = toOsmias_Develop
      /\ m_AgeDegrees egg' == m_AgeDegrees egg + inject_Z (Z.of_nat k) * DD
      /\ trace s' = trace s ++ uni_draws s k)
    /\ returns (Osmia_Egg_run (days (S k) env) egg) s (fun egg' s' =>
      m_CurrentOState egg' = toOsmias_NextStage
      /\ m_AgeDegrees egg' == m_AgeDegrees egg + inject_Z (Z.of_nat (S k)) * DD
      /\ trace s' = trace s ++ uni_draws s (S k))
    /\ returns (Osmia_Egg_run (days (S (S k)) env) egg) s (fun egg' s' =>
      m_CurrentStateNo egg' = (-1)%Z
      /\ exists larva : Osmia_Larva,
           trace s' = trace s ++ uni_draws s (S k)
                              ++ [Ev_PushIndividual (Ind_Larva larva);
                                  Ev_nest ReplaceNestPointer n]
           /\ m_Age larva = (m_Age egg + Z.of_nat (S k))%Z
           /\ m_AgeDegrees larva = 0
           /\ m_OurNest larva = Some n).
Proof.
  intros env n egg s k DD Hsealed Hpest HDD Hinv Hle Hlt.
  pose proof (Osmia_Egg_constant_days env n Hsealed Hpest HDD k egg s Hinv Hle) as Hk.
  fold DD in Hk.
  assert (Hday : forall sched,
    Osmia_Egg_run (days k env ++ sched) egg s
    = bind (Osmia_Egg_run (days k env) egg) (Osmia_Egg_run sched) s).
  { intro sched. apply (run_app egg_base upd_Base Osmia_Egg_st_Develop Osmia_Egg_st_Hatch). }
  assert (HSk : days (S k) env = days k env ++ days 1 env).
  { unfold days. rewrite <- concat_app, <- repeat_app. now rewrite Nat.add_1_r. }
  assert (HSSk : days (S (S k)) env = days k env ++ days 1 env ++ days 1 env).
  { unfold days. rewrite <- !concat_app, <- !repeat_app.
    now replace (k + (1 + 1))%nat with (S (S k)) by lia. }
  unfold returns in *. rewrite HSk, HSSk, !Hday. unfold bind.
  destruct (Osmia_Egg_run (days k env) egg s) as [[eggk|] sk]; [ | contradiction ].
  destruct Hk as (Hinvk & Hacck & Hagek & Htrk & Hgenk).
  destruct (Osmia_Egg_day env n eggk sk Hsealed Hpest HDD Hinvk)
    as (egg1 & E1 & Hn1 & Hno1 & Hage1 & Hacc1 & Hst1).
  fold DD in Hacc1. pose proof (inject_Z_S k) as HS.
  assert (Hacc1' : m_AgeDegrees egg1 == m_AgeDegrees egg + inject_Z (Z.of_nat (S k)) * DD).
  { rewrite Hacc1, Hacck, HS. ring. }
  assert (Ht : Qltb (m_OsmiaEggDevelTotalDD (statics env)) (m_AgeDegrees egg1) = true).
  { apply Qltb_lt. rewrite Hacc1'. exact Hlt. }
  rewrite Ht in Hst1.
  assert (Htr1 : trace sk ++ [Ev_rand_uni (rand_uni sk 0%nat)]
                 = trace s ++ uni_draws s (S k)).
  { rewrite Htrk, Hgenk, <- app_assoc. f_equal.
    unfold uni_draws. now rewrite seq_S, map_app. }
  set (dr := uni_draws s (S k)) in *. clearbody dr.
  split; [ | split ].
  - split; [apply Hinvk | ]. split; [exact Hacck | exact Htrk].
  - rewrite E1. split; [exact Hst1 | ]. split; [exact Hacc1' | exact Htr1].
  - unfold Osmia_Egg_run in *.
    rewrite (run_app egg_base upd_Base Osmia_Egg_st_Develop Osmia_Egg_st_Hatch).
    unfold bind. fold Osmia_Egg_Step. rewrite E1.
    unfold days. simpl. unfold Osmia_Egg_Step, Step. simpl.
    destruct Hinvk as (_ & _ & Halive & _). rewrite <- Hno1 in Halive.
    apply Z.eqb_neq in Halive. rewrite Halive, Hst1.
    unfold Osmia_Egg_st_Hatch, CreateObjects. sim_unfold. simpl. rewrite Hn1. simpl.
    split; [reflexivity | ]. eexists. split.
    + rewrite (app_assoc (trace s)), <- Htr1, <- !app_assoc. reflexivity.
    + simpl. repeat split; [ lia | exact Hn1 ].
Qed.


Lemma Egg_hatches_the_day_after_the_total_is_exceeded_witness :
  Egg_develops (sample_Env false false 150 20) 0 (sample_Egg 0) (sample_Sim 0.5 50)
  /\ returns (Osmia_Egg_run (days 4 (sample_Env false false 150 20)) (sample_Egg 0))
             (sample_Sim 0.5 50) (fun egg' s' =>
       m_CurrentOState egg' = toOsmias_Develop
       /\ m_AgeDegrees egg' == 0 + inject_Z 4 * (20 - 0)
       /\ trace s' = uni_draws (sample_Sim 0.5 50) 4)
  /\ returns (Osmia_Egg_run (days 5 (sample_Env false false 150 20)) (sample_Egg 0))
             (sample_Sim 0.5 50) (fun egg' s' =>
       m_CurrentOState egg' = toOsmias_NextStage
       /\ m_AgeDegrees egg' == 0 + inject_Z 5 * (20 - 0)
       /\ trace s' = uni_draws (sample_Sim 0.5 50) 5)
  /\ returns (Osmia_Egg_run (days 6 (sample_Env false false 150 20)) (sample_Egg 0))
             (sample_Sim 0.5 50) (fun egg' s' =>
       m_CurrentStateNo egg' = (-1)%Z
       /\ exists larva : Osmia_Larva,
            trace s' = uni_draws (sample_Sim 0.5 50) 5
                       ++ [Ev_PushIndividual (Ind_Larva larva);
                           Ev_nest ReplaceNestPointer 0]
            /\ m_Age larva = 5%Z
            /\ m_AgeDegrees larva = 0
            /\ m_OurNest larva = Some 0%nat).
Proof.
  assert (Hinv : Egg_develops (sample_Env false false 150 20) 0 (sample_Egg 0)
                   (sample_Sim 0.5 50)).
  { repeat split; discriminate. }
  split; [exact Hinv | ].
  apply (Egg_hatches_the_day_after_the_total_is_exceeded
           (sample_Env false false 150 20) 0 (sample_Egg 0) (sample_Sim 0.5 50) 4);
    [ reflexivity | reflexivity | reflexivity | exact Hinv
    | vm_compute; discriminate | reflexivity ].
Defined.

(** ** The overwintering adult *)

(** X5: [Osmia_InCocoon::st_Develop] sends an adult to Die or to the next
    stage only in the pre-emergence phase (both seasonal flags set, not the
    day after 1 March) on a day at or above the emergence threshold; while
    prewintering, in deep winter and on colder days it returns Develop, so
    the adult cannot die or emerge then. *)
Theorem InCocoon_dies_or_emerges_only_on_warm_spring_days :
  forall (env : Env) (this : Osmia_InCocoon) (s : Sim),
    match fst (Osmia_InCocoon_st_Develop env this s) with
    | Some r =>
        m_Age (snd r) = (m_Age this + 1)%Z
        /\ (fst r = toOsmias_Develop
            \/ ((fst r = toOsmias_Die \/ fst r = toOsmias_NextStage)
                /\ pre_emergence env
                /\ warm_day env = true
                /\ m_emergencecounter (snd r) = (m_emergencecounter this - 1)%Z))
    | None =>
        m_OurNest this = None
        /\ IsEndPreWinter (OPM env) = true
        /\ IsOverWinterEnd (OPM env) = true
        /\ m_DayInYear env = (March env + 1)%Z
    end.
Proof.
  intros env this s. unfold Osmia_InCocoon_st_Develop, pre_emergence, warm_day.
  destruct (IsEndPreWinter (OPM env)) eqn:E1.
  2:{ sim_unfold. simpl. destruct (Qltb _ _); simpl; split; auto. }
  destruct (IsOverWinterEnd (OPM env)) eqn:E2; simpl.
  2:{ sim_unfold. simpl. destruct (Qltb _ _); simpl; split; auto. }
  destruct (Z.eqb_spec (m_DayInYear env) (March env + 1)) as [E3|E3].
  { sim_unfold. simpl. destruct (m_OurNest this); simpl; repeat split; auto. }
  destruct (Qle_bool _ (m_TempToday env)) eqn:E4.
  2:{ sim_unfold. simpl. split; auto. }
  simpl. destruct (Z.ltb_spec (m_emergencecounter this - 1) 1) as [E5|E5].
  - unfold Osmia_InCocoon_WinterMortality. sim_unfold. simpl.
    destruct (Qltb _ _); simpl; (split; [reflexivity | right]); repeat split; auto.
  - destruct (m_DayInYear env =? June env - 1)%Z; sim_unfold; simpl;
      (split; [reflexivity | ]); [ right; repeat split; auto | left; reflexivity ].
Qed.

(** *** Prewinter and winter degree-days *)

Lemma Osmia_InCocoon_st_Develop_accumulators env (this : Osmia_InCocoon) s r s' :
  Osmia_InCocoon_st_Develop env this s = (Some r, s') ->
  m_DDPrewinter this <= m_DDPrewinter (snd r)
  /\ m_AgeDegrees this <= m_AgeDegrees (snd r)
  /\ carried this (snd r)
  /\ (IsEndPreWinter (OPM env) = false \/ m_DDPrewinter (snd r) = m_DDPrewinter this)
  /\ (IsEndPreWinter (OPM env) && negb (IsOverWinterEnd (OPM env)) = true
      \/ m_AgeDegrees (snd r) = m_AgeDegrees this).
Proof.
  unfold Osmia_InCocoon_st_Develop, Osmia_InCocoon_WinterMortality, carried.
  destruct (IsEndPreWinter (OPM env)); [ destruct (IsOverWinterEnd (OPM env)) | ]; simpl.
  - sim_unfold. simpl.
    repeat match goal with
           | |- context [if ?c then _ else _] => destruct c; simpl
           | |- context [match m_OurNest ?t with _ => _ end] =>
               destruct (m_OurNest t); simpl
           end;
      try discriminate; intros [= <- _]; simpl;
      repeat split; auto using Qle_refl.
  - sim_unfold. destruct (Qltb_spec 0 (m_TempToday env
        - m_OsmiaInCocoonOverwinteringTempThreshold (statics env))) as [H|H];
      intros [= <- _]; simpl; repeat split; auto using Qle_refl. lra.
  - sim_unfold. destruct (Qltb_spec (m_OsmiaInCocoonPrewinteringTempThreshold (statics env))
        (m_TempToday env)) as [H|H];
      intros [= <- _]; simpl; repeat split; auto using Qle_refl. lra.
Qed.

Lemma Osmia_InCocoon_st_Emerge_result env (this : Osmia_InCocoon) s r s' :
  Osmia_InCocoon_st_Emerge env this s = (Some r, s') ->
  snd r = this \/ snd r = upd_Pupa (upd_Egg (upd_Base KillThis)) this.
Proof.
  unfold Osmia_InCocoon_st_Emerge, CreateObjects, Osmia_InCocoon_ctor, Osmia_Pupa_ctor,
    Osmia_Prepupa_ctor.
  destruct (m_Sex this);
    [ destruct (is_Unparasitised (m_ParasitoidStatus this)); simpl | ];
    sim_unfold; simpl; try (intros [= <- _]; now left);
    destruct (m_OurNest this); simpl; intros [= <- _]; now right.
Qed.

(** The members of an overwintering adult that no step may lower or change. *)
Lemma InCocoon_kept_refl (a : Osmia_InCocoon) : InCocoon_kept a a.
Proof. unfold InCocoon_kept, carried. repeat split; apply Qle_refl. Qed.

Lemma InCocoon_kept_trans (a b c : Osmia_InCocoon) :
  InCocoon_kept a b -> InCocoon_kept b c -> InCocoon_kept a c.
Proof.
  unfold InCocoon_kept, carried.
  intros (H1 & H2 & H3 & H4 & H5) (K1 & K2 & K3 & K4 & K5).
  repeat split; try congruence; eapply Qle_trans; eassumption.
Qed.

Lemma Osmia_InCocoon_run_kept sched1 sched2 (this : Osmia_InCocoon) s :
  match fst (Osmia_InCocoon_run (sched1 ++ sched2) this s) with
  | Some final =>
      exists mid, fst (Osmia_InCocoon_run sched1 this s) = Some mid
                  /\ InCocoon_kept this mid /\ InCocoon_kept mid final
  | None => True
  end.
Proof.
  apply (run_monotone (fun c : Osmia_InCocoon => egg_base c)
           (fun f => upd_Pupa (upd_Egg (upd_Base f)))
           Osmia_InCocoon_st_Develop Osmia_InCocoon_st_Emerge InCocoon_kept).
  - apply InCocoon_kept_refl.
  - apply InCocoon_kept_trans.
  - intros st t. unfold InCocoon_kept, carried; simpl; repeat split; apply Qle_refl.
  - intros d t. unfold InCocoon_kept, carried; simpl; repeat split; apply Qle_refl.
  - intros t. unfold InCocoon_kept, carried; simpl; repeat split; apply Qle_refl.
  - intros env t s0 r s' E.
    destruct (Osmia_InCocoon_st_Develop_accumulators _ _ _ _ _ E) as (H1 & H2 & H3 & _).
    unfold InCocoon_kept. tauto.
  - intros env t s0 r s' E.
    destruct (Osmia_InCocoon_st_Emerge_result _ _ _ _ _ E) as [-> | ->];
      unfold InCocoon_kept, carried; simpl; repeat split; apply Qle_refl.
Qed.

(** X6: along every run of [Step] calls of an overwintering adult, whatever
    the days and temperatures, neither the prewinter degree-days
    ([m_DDPrewinter]) nor the winter degree-days ([m_AgeDegrees]) ever
    decrease, and mass, sex and parasitism status stay as they are. *)
Theorem InCocoon_degree_days_never_decrease :
  forall (sched1 sched2 : list Sched) (this : Osmia_InCocoon) (s : Sim),
    match fst (Osmia_InCocoon_run (sched1 ++ sched2) this s) with
    | Some final =>
        exists mid, fst (Osmia_InCocoon_run sched1 this s) = Some mid
          /\ m_DDPrewinter this <= m_DDPrewinter mid
          /\ m_DDPrewinter mid <= m_DDPrewinter final
          /\ m_AgeDegrees this <= m_AgeDegrees mid
          /\ m_AgeDegrees mid <= m_AgeDegrees final
          /\ carried this final
    | None => True
    end.
Proof.
  intros sched1 sched2 this s.
  pose proof (Osmia_InCocoon_run_kept sched1 sched2 this s) as H.
  destruct (fst (Osmia_InCocoon_run (sched1 ++ sched2) this s)) as [final|]; [ | exact I ].
  destruct H as (mid & Hmid & (H1 & H2 & H3) & (K1 & K2 & K3)).
  exists mid. split; [exact Hmid | ].
  repeat split; try assumption; unfold carried in *;
    destruct H3 as (? & ? & ?); destruct K3 as (? & ? & ?); congruence.
Qed.

(** *** Winter mortality and prewinter degree-days *)

(** X7: with a non-negative slope, winter mortality is monotone in the
    prewinter degree-days: a draw that kills an adult also kills every adult
    with at least as many prewinter degree-days.  No draw of 0..99 kills when
    the linear value is not positive, and every draw kills when it is above
    99. *)
Theorem WinterMortality_is_monotone_in_prewinter_degree_days :
  forall (env : Env) (c1 c2 : Osmia_InCocoon) (s : Sim),
    0 <= m_OsmiaInCocoonWinterMortSlope (statics env) ->
    m_DDPrewinter c1 <= m_DDPrewinter c2 ->
    (0 <= rand_int s 0%nat < 100)%Z ->
    (fst (Osmia_InCocoon_WinterMortality env c1 s) = Some false
     \/ fst (Osmia_InCocoon_WinterMortality env c2 s) = Some true)
    /\ (0 < winter_mortality_value env c1
        \/ fst (Osmia_InCocoon_WinterMortality env c1 s) = Some false)
    /\ (winter_mortality_value env c2 <= 99
        \/ fst (Osmia_InCocoon_WinterMortality env c2 s) = Some true).
Proof.
  intros env c1 c2 s Hslope Hle [Hr0 Hr1].
  assert (Hmono : winter_mortality_value env c1 <= winter_mortality_value env c2).
  { unfold winter_mortality_value.
    assert (H : 0 <= m_OsmiaInCocoonWinterMortSlope (statics env)
                     * (m_DDPrewinter c2 - m_DDPrewinter c1))
      by (apply Qmult_le_0_compat; [assumption | lra]).
    setoid_replace (m_OsmiaInCocoonWinterMortSlope (statics env) * m_DDPrewinter c2)
      with (m_OsmiaInCocoonWinterMortSlope (statics env) * m_DDPrewinter c1
            + m_OsmiaInCocoonWinterMortSlope (statics env)
              * (m_DDPrewinter c2 - m_DDPrewinter c1)) by ring.
    lra. }
  assert (H0 : 0 <= inject_Z (rand_int s 0%nat))
    by (change 0 with (inject_Z 0); rewrite <- Zle_Qle; exact Hr0).
  assert (H99 : inject_Z (rand_int s 0%nat) <= 99)
    by (change 99 with (inject_Z 99); rewrite <- Zle_Qle; lia).
  unfold Osmia_InCocoon_WinterMortality. sim_unfold. simpl.
  fold (winter_mortality_value env c1). fold (winter_mortality_value env c2).
  destruct (Qltb_spec (inject_Z (rand_int s 0%nat)) (winter_mortality_value env c1))
    as [K1|K1];
    destruct (Qltb_spec (inject_Z (rand_int s 0%nat)) (winter_mortality_value env c2))
      as [K2|K2]; simpl; repeat split; auto;
    try (left; lra); try (right; reflexivity).
Qed.

Lemma WinterMortality_is_monotone_in_prewinter_degree_days_witness :
  (0 <= m_OsmiaInCocoonWinterMortSlope (statics (sample_Env true true 100 10))
   /\ m_DDPrewinter (sample_InCocoon 0 100) <= m_DDPrewinter (sample_InCocoon 0 150)
   /\ (0 <= rand_int (sample_Sim 0.5 0) 0%nat < 100)%Z)
  /\ (fst (Osmia_InCocoon_WinterMortality (sample_Env true true 100 10)
             (sample_InCocoon 0 100) (sample_Sim 0.5 0)) = Some false
      \/ fst (Osmia_InCocoon_WinterMortality (sample_Env true true 100 10)
                (sample_InCocoon 0 150) (sample_Sim 0.5 0)) = Some true).
Proof.
  assert (H1 : 0 <= m_OsmiaInCocoonWinterMortSlope (statics (sample_Env true true 100 10)))
    by discriminate.
  assert (H2 : m_DDPrewinter (sample_InCocoon 0 100) <= m_DDPrewinter (sample_InCocoon 0 150))
    by discriminate.
  assert (H3 : (0 <= rand_int (sample_Sim 0.5 0) 0%nat < 100)%Z) by (simpl; lia).
  split; [ repeat split; assumption || apply H3 | ].
  apply (WinterMortality_is_monotone_in_prewinter_degree_days
           (sample_Env true true 100 10) (sample_InCocoon 0 100) (sample_InCocoon 0 150)
           (sample_Sim 0.5 0) H1 H2 H3).
Defined.

(** *** The emergence counter *)

Lemma Qtrunc_nonneg (q : Q) : 0 <= q -> Qtrunc q = Qfloor q.
Proof.
  destruct q as [n d]. unfold Qtrunc, Qfloor, Qle. simpl. intro H.
  apply Z.quot_div_nonneg; lia.
Qed.

Lemma Qtrunc_nonpos (q : Q) : q <= 0 -> Qtrunc q = Qceiling q.
Proof.
  destruct q as [n d]. unfold Qtrunc, Qceiling, Qfloor, Qopp, Qle. simpl. intro H.
  rewrite <- (Z.opp_involutive n) at 1.
  rewrite Z.quot_opp_l by lia. f_equal.
  apply Z.quot_div_nonneg; lia.
Qed.

Lemma Qtrunc_le_mono (a b : Q) : a <= b -> (Qtrunc a <= Qtrunc b)%Z.
Proof.
  intro H.
  destruct (Qlt_le_dec a 0) as [Ha|Ha]; destruct (Qlt_le_dec b 0) as [Hb|Hb].
  - rewrite !Qtrunc_nonpos by lra. now apply Qceiling_resp_le.
  - rewrite (Qtrunc_nonpos a), (Qtrunc_nonneg b) by lra.
    apply Z.le_trans with 0%Z.
    + change 0%Z with (Qceiling 0). apply Qceiling_resp_le. lra.
    + change 0%Z with (Qfloor 0). now apply Qfloor_resp_le.
  - exfalso. lra.
  - rewrite !Qtrunc_nonneg by assumption. now apply Qfloor_resp_le.
Qed.

(** X8: on the day after 1 March the emergence counter is set to the
    truncated linear value of the winter degree-days plus the drawn number of
    days and the aspect delay of the nest; with a slope that is not positive,
    of two adults of the same nest that get the same draw the one with more
    winter degree-days does not get the larger counter. *)
Theorem emergence_counter_is_antitone_in_winter_degree_days :
  forall (env : Env) (c1 c2 : Osmia_InCocoon) (s : Sim) (n : nat),
    IsEndPreWinter (OPM env) = true ->
    IsOverWinterEnd (OPM env) = true ->
    m_DayInYear env = (March env + 1)%Z ->
    m_OurNest c1 = Some n ->
    m_OurNest c2 = Some n ->
    m_OsmiaInCocoonEmergCountSlope (statics env) <= 0 ->
    m_AgeDegrees c1 <= m_AgeDegrees c2 ->
    returns (Osmia_InCocoon_st_Develop env c1) s (fun r1 s1 =>
      returns (Osmia_InCocoon_st_Develop env c2) s (fun r2 s2 =>
        fst r1 = toOsmias_Develop /\ fst r2 = toOsmias_Develop
        /\ s1 = s2
        /\ trace s1 = trace s ++ [Ev_emergenceday (rand_int s 0%nat)]
        /\ m_emergencecounter (snd r1)
           = (Qtrunc (m_OsmiaInCocoonEmergCountConst (statics env)
                      + m_OsmiaInCocoonEmergCountSlope (statics env) * m_AgeDegrees c1)
              + rand_int s 0%nat + GetAspectDelay (nests env n))%Z
        /\ (m_emergencecounter (snd r2) <= m_emergencecounter (snd r1))%Z
        /\ m_AgeDegrees (snd r1) = m_AgeDegrees c1)).
Proof.
  intros env c1 c2 s n E1 E2 E3 Hn1 Hn2 Hslope Hle.
  unfold Osmia_InCocoon_st_Develop. rewrite E1, E2. simpl.
  apply Z.eqb_eq in E3. rewrite E3.
  sim_unfold. simpl. rewrite Hn1, Hn2. simpl.
  repeat split.
  apply Z.add_le_mono_r, Z.add_le_mono_r, Qtrunc_le_mono.
  assert (H : 0 <= - m_OsmiaInCocoonEmergCountSlope (statics env)
                   * (m_AgeDegrees c2 - m_AgeDegrees c1))
    by (apply Qmult_le_0_compat; lra).
  setoid_replace (m_OsmiaInCocoonEmergCountSlope (statics env) * m_AgeDegrees c1)
    with (m_OsmiaInCocoonEmergCountSlope (statics env) * m_AgeDegrees c2
          + - m_OsmiaInCocoonEmergCountSlope (statics env)
            * (m_AgeDegrees c2 - m_AgeDegrees c1)) by ring.
  lra.
Qed.

Lemma emergence_counter_is_antitone_in_winter_degree_days_witness :
  returns (Osmia_InCocoon_st_Develop (sample_Env true true 60 10)
             (seed_SetAgeDegrees (sample_InCocoon 99999 100))) (sample_Sim 0.5 3)
    (fun r _ => m_emergencecounter (snd r) = 11%Z).
Proof.
  pose proof (emergence_counter_is_antitone_in_winter_degree_days
                (sample_Env true true 60 10)
                (seed_SetAgeDegrees (sample_InCocoon 99999 100))
                (seed_SetAgeDegrees (sample_InCocoon 99999 100))
                (sample_Sim 0.5 3) 0%nat
                eq_refl eq_refl eq_refl eq_refl eq_refl
                ltac:(discriminate) ltac:(discriminate)) as H.
  unfold returns in *.
  destruct (Osmia_InCocoon_st_Develop _ _ _) as [[r|] s']; [ | exact H ].
  destruct H as (_ & _ & _ & _ & H & _). rewrite H. reflexivity.
Defined.

(** One day of the pre-emergence phase on which no test is made. *)
Lemma Osmia_InCocoon_waiting_day (env : Env) (this : Osmia_InCocoon) (s : Sim) :
  pre_emergence env ->
  m_CurrentOState this = toOsmias_Develop ->
  m_CurrentStateNo this <> (-1)%Z ->
  warm_day env = false \/ (1 < m_emergencecounter this)%Z ->
  warm_day env = false \/ m_DayInYear env <> (June env - 1)%Z ->
  exists this',
    Osmia_InCocoon_run (daily [env]) this s = (Some this', s)
    /\ m_CurrentOState this' = toOsmias_Develop
    /\ m_CurrentStateNo this' = m_CurrentStateNo this
    /\ m_Age this' = (m_Age this + 1)%Z
    /\ m_emergencecounter this'
       = (m_emergencecounter this - if warm_day env then 1 else 0)%Z.
Proof.
  intros (E1 & E2 & E3) Hst Halive Hc Hcut.
  unfold Osmia_InCocoon_run, daily. simpl.
  unfold Osmia_InCocoon_Step, Step. simpl.
  apply Z.eqb_neq in Halive. rewrite Halive, Hst.
  unfold Osmia_InCocoon_st_Develop. rewrite E1, E2. simpl.
  apply Z.eqb_neq in E3. rewrite E3.
  unfold warm_day in *.
  destruct (Qle_bool _ (m_TempToday env)); sim_unfold; simpl.
  - destruct Hc as [Hc | Hc]; [discriminate | ].
    destruct (Z.ltb_spec (m_emergencecounter this - 1) 1) as [H|H]; [lia | ].
    destruct Hcut as [Hcut | Hcut]; [discriminate | ].
    apply Z.eqb_neq in Hcut. rewrite Hcut. simpl.
    eexists. split; [reflexivity | ]. simpl.
    apply Z.eqb_neq in Halive. repeat split.
  - eexists. split; [reflexivity | ]. simpl. repeat split. lia.
Qed.

Lemma warm_days_cons (env : Env) (envs : list Env) :
  warm_days (env :: envs)
  = ((if warm_day env then 1 else 0) + warm_days envs)%Z.
Proof.
  unfold warm_days. cbn [filter]. destruct (warm_day env); cbn [length]; lia.
Qed.

Lemma warm_days_nonneg (envs : list Env) : (0 <= warm_days envs)%Z.
Proof. unfold warm_days. lia. Qed.

(** X9: in the pre-emergence phase the emergence counter counts the days at
    or above the emergence threshold: over any sequence of such days with
    fewer warm days than the counter, none of them warm on the day before
    1 June, the adult stays in state Develop, its counter has dropped by the
    number of warm days, and it has drawn no random number and had no
    effect. *)
Theorem emergence_counter_counts_warm_days :
  forall (envs : list Env) (this : Osmia_InCocoon) (s : Sim),
    Forall pre_emergence envs ->
    Forall (fun env => warm_day env = false \/ m_DayInYear env <> (June env - 1)%Z) envs ->
    m_CurrentOState this = toOsmias_Develop ->
    m_CurrentStateNo this <> (-1)%Z ->
    (warm_days envs < m_emergencecounter this)%Z ->
    exists this',
      Osmia_InCocoon_run (daily envs) this s = (Some this', s)
      /\ m_CurrentOState this' = toOsmias_Develop
      /\ m_emergencecounter this' = (m_emergencecounter this - warm_days envs)%Z
      /\ m_Age this' = (m_Age this + Z.of_nat (length envs))%Z.
Proof.
  induction envs as [|env envs IH]; intros this s Hpre Hcut Hst Halive Hc.
  - exists this. unfold Osmia_InCocoon_run, daily, warm_days. simpl.
    split; [reflexivity | ]. split; [exact Hst | ]. split; lia.
  - inversion Hpre as [|? ? Hpre1 Hpre2]; subst.
    inversion Hcut as [|? ? Hcut1 Hcut2]; subst.
    rewrite warm_days_cons in *. pose proof (warm_days_nonneg envs) as Hw.
    destruct (Osmia_InCocoon_waiting_day env this s Hpre1 Hst Halive) as
      (this1 & E1 & Hst1 & Hno1 & Hage1 & Hc1);
      [ destruct (warm_day env); [right; lia | now left] | exact Hcut1 | ].
    destruct (IH this1 s Hpre2 Hcut2 Hst1) as (this' & E' & Hst' & Hc' & Hage');
      [ now rewrite Hno1 | rewrite Hc1; lia | ].
    exists this'. split.
    + unfold Osmia_InCocoon_run in *.
      change (daily (env :: envs)) with (daily [env] ++ daily envs).
      rewrite (run_app (fun c : Osmia_InCocoon => egg_base c)
                 (fun f => upd_Pupa (upd_Egg (upd_Base f)))
                 Osmia_InCocoon_st_Develop Osmia_InCocoon_st_Emerge).
      unfold bind. fold Osmia_InCocoon_Step. rewrite E1. exact E'.
    + split; [exact Hst' | ]. split; [ rewrite Hc', Hc1; lia | ].
      rewrite Hage', Hage1. simpl length. lia.
Qed.

Lemma emergence_counter_counts_warm_days_witness :
  exists this',
    Osmia_InCocoon_run
      (daily [sample_Env true true 100 10; sample_Env true true 101 4;
              sample_Env true true 102 12])
      (sample_InCocoon 3 100) (sample_Sim 0.5 50)
    = (Some this', sample_Sim 0.5 50)
    /\ m_emergencecounter this' = 1%Z.
Proof.
  destruct (emergence_counter_counts_warm_days
              [sample_Env true true 100 10; sample_Env true true 101 4;
               sample_Env true true 102 12]
              (sample_InCocoon 3 100) (sample_Sim 0.5 50))
    as (this' & E & _ & Hc & _).
  - repeat constructor; discriminate.
  - repeat (apply Forall_cons; [right; discriminate | ]). apply Forall_nil.
  - reflexivity.
  - discriminate.
  - vm_compute. reflexivity.
  - exists this'. split; [exact E | ]. rewrite Hc. reflexivity.
Defined.

(** ** The seasonal flags *)

(** X10: what [DoLast] does to the seasonal flags.  On the day [June] both
    flags are cleared.  On every other day the over-winter flag is set on the
    day [March] and otherwise left as it is, and the prewinter flag is left as
    it is or switched on; it is switched on only after [September] and only
    when the mean temperature of each of the last three days was below 13
    degrees.  The table of prepupal rates and today's rate are not changed. *)
Theorem DoLast_seasonal_flags :
  forall (September March_ June_ : Z) (SupplyTempPeriod : Z -> Q) (today day : Z)
         (pm : Osmia_Population_Manager),
    let pm' := DoLast September March_ June_ SupplyTempPeriod today day pm in
    m_PrePupalDevelRates pm' = m_PrePupalDevelRates pm
    /\ GetPrePupalDevelDays pm' = GetPrePupalDevelDays pm
    /\ ((today = June_ /\ IsEndPreWinter pm' = false /\ IsOverWinterEnd pm' = false)
        \/ (today <> June_
            /\ IsOverWinterEnd pm' = (IsOverWinterEnd pm || (today =? March_)%Z)
            /\ (IsEndPreWinter pm' = IsEndPreWinter pm
                \/ (IsEndPreWinter pm = false /\ IsEndPreWinter pm' = true
                    /\ (September < today)%Z
                    /\ SupplyTempPeriod day < 13
                    /\ SupplyTempPeriod (day - 1)%Z < 13
                    /\ SupplyTempPeriod (day - 2)%Z < 13)))).
Proof.
  intros September March_ June_ STP today day pm. simpl.
  unfold DoLast, IsEndPreWinter, IsOverWinterEnd, GetPrePupalDevelDays.
  destruct (Z.eqb_spec today June_) as [HJ|HJ].
  - repeat match goal with
           | |- context [if ?c then _ else _] => destruct c; simpl
           end; (split; [reflexivity | ]); (split; [reflexivity | ]); left; auto.
  - destruct (Z.gtb_spec today September) as [HS|HS];
      destruct (m_PreWinteringEndFlag pm) eqn:Epre; simpl;
      try (destruct (today =? March_)%Z; simpl; rewrite ?Epre, ?orb_true_r, ?orb_false_r;
           (split; [reflexivity | ]); (split; [reflexivity | ]); right;
           (split; [exact HJ | ]); (split; [reflexivity | ]); left; reflexivity).
    destruct (Qltb_spec (STP (day - 2)%Z) 13) as [H2|H2]; simpl;
      [ destruct (Qltb_spec (STP (day - 1)%Z) 13) as [H1|H1]; simpl;
        [ destruct (Qltb_spec (STP day) 13) as [H0|H0]; simpl | ] | ];
      repeat match goal with
             | |- context [if ?c then _ else _] => destruct c; simpl
             end;
      rewrite ?Epre, ?orb_true_r, ?orb_false_r;
      (split; [reflexivity | ]); (split; [reflexivity | ]); right;
      (split; [exact HJ | ]); (split; [reflexivity | ]);
      first [ left; reflexivity | right; repeat split; assumption || lia ].
Qed.

Lemma DoLast_on_June (September March_ June_ : Z) (STP : Z -> Q) (day : Z)
    (pm : Osmia_Population_Manager) :
  IsEndPreWinter (DoLast September March_ June_ STP June_ day pm) = false
  /\ IsOverWinterEnd (DoLast September March_ June_ STP June_ day pm) = false.
Proof. unfold DoLast. rewrite Z.eqb_refl. split; reflexivity. Qed.

(** X11: after [DoLast] on the day [June] an adult that is still in its
    cocoon is prewintering again: whatever its emergence counter and the
    temperature, [st_Develop] returns Develop without drawing a number, adds
    the day's degrees above the prewintering threshold to its prewinter
    degree-days, and leaves the emergence counter and the winter degree-days
    as they are. *)
Theorem adult_prewinters_again_after_the_June_reset :
  forall (September March_ : Z) (SupplyTempPeriod : Z -> Q) (day : Z)
         (env : Env) (this : Osmia_InCocoon) (s : Sim),
    let env' :=
      Env_set_OPM (DoLast September March_ (June env) SupplyTempPeriod (June env) day
                          (OPM env)) env in
    exists this',
      Osmia_InCocoon_st_Develop env' this s = (Some (toOsmias_Develop, this'), s)
      /\ m_emergencecounter this' = m_emergencecounter this
      /\ m_AgeDegrees this' = m_AgeDegrees this
      /\ m_DDPrewinter this <= m_DDPrewinter this'
      /\ m_DDPrewinter this'
         == m_DDPrewinter this
            + Qmax 0 (m_TempToday env
                      - m_OsmiaInCocoonPrewinteringTempThreshold (statics env)).
Proof.
  intros September March_ STP day env this s. simpl.
  destruct (DoLast_on_June September March_ (June env) STP day (OPM env)) as (Hpre & _).
  unfold Osmia_InCocoon_st_Develop. simpl. rewrite Hpre. sim_unfold.
  destruct (accumulate_spec (m_DDPrewinter this) (m_TempToday env)
              (m_OsmiaInCocoonPrewinteringTempThreshold (statics env)))
    as (A1 & A2 & _). simpl in A1, A2.
  destruct (Qltb_spec (m_OsmiaInCocoonPrewinteringTempThreshold (statics env))
              (m_TempToday env)) as [Hw|Hw].
  - assert (Hd : Qltb 0 (m_TempToday env
                         - m_OsmiaInCocoonPrewinteringTempThreshold (statics env)) = true)
      by (apply Qltb_lt; lra).
    rewrite Hd in A1, A2.
    eexists. split; [reflexivity | ]. simpl. repeat split; assumption.
  - assert (Hd : Qltb 0 (m_TempToday env
                         - m_OsmiaInCocoonPrewinteringTempThreshold (statics env)) = false)
      by (apply Qltb_ge; lra).
    rewrite Hd in A1, A2.
    eexists. split; [reflexivity | ]. simpl. repeat split; assumption.
Qed.

(** ** The pesticide test of the egg *)

(** X12: with the pesticide response switched on, an egg in a sealed nest
    that survives a day's [st_Develop] has its pesticide mortality set to 0,
    and an egg whose pesticide mortality is not positive cannot be killed by
    the pesticide test: it dies exactly when the first draw is below the daily
    mortality.  So the stored pesticide mortality can kill on one day only. *)
Theorem egg_pesticide_mortality_acts_once :
  forall (env : Env) (egg : Osmia_Egg) (s : Sim) (n : nat),
    m_OurNest egg = Some n ->
    GetIsOpen (nests env n) = false ->
    OSMIA_PESTICIDE_ENGINE env && cfg_OsmiaEggThresholdBasedPesticideResponse env = true ->
    0 <= rand_uni s 1%nat ->
    returns (Osmia_Egg_st_Develop env egg) s (fun r _ =>
      ((fst r = toOsmias_Die /\ snd r = egg)
       \/ (fst r <> toOsmias_Die /\ m_egg_pest_mortality (snd r) = 0))
      /\ (0 < m_egg_pest_mortality egg
          \/ Egg_dies env egg (nests env n) s
             = Qltb (rand_uni s 0%nat) (m_DailyDevelopmentMortEggs (statics env)))
      /\ (Egg_dies env egg (nests env n) s = true <-> fst r = toOsmias_Die)).
Proof.
  intros env egg s n Hn Hsealed Hpest Hu.
  unfold Osmia_Egg_st_Develop, Osmia_Egg_DailyMortality, Egg_dies.
  sim_unfold. rewrite Hn. simpl. rewrite Hsealed, Hpest. simpl.
  destruct (Qltb (rand_uni s 0%nat) _); simpl.
  - split; [left; split; reflexivity | ]. split; [now right | ].
    split; reflexivity.
  - destruct (Qltb_spec (rand_uni s 1%nat) (m_egg_pest_mortality egg)) as [Hk|Hk]; simpl.
    + split; [left; split; reflexivity | ]. split; [left; lra | ].
      split; reflexivity.
    + destruct (Qltb 0 _); destruct (Qltb (m_OsmiaEggDevelTotalDD _) _); simpl;
        (split; [right; split; [discriminate | reflexivity] | ]);
        (split; [now right | ]); split; discriminate.
Qed.

Lemma egg_pesticide_mortality_acts_once_witness :
  returns (Osmia_Egg_st_Develop sample_Env_pesticide
             (Egg_set_pest_mortality 0.3 (sample_Egg 0)))
          (sample_Sim 0.5 50)
          (fun r _ => fst r <> toOsmias_Die /\ m_egg_pest_mortality (snd r) = 0).
Proof.
  pose proof (egg_pesticide_mortality_acts_once sample_Env_pesticide
                (Egg_set_pest_mortality 0.3 (sample_Egg 0)) (sample_Sim 0.5 50) 0%nat
                eq_refl eq_refl eq_refl ltac:(discriminate)) as H.
  unfold returns in *.
  destruct (Osmia_Egg_st_Develop _ _ _) as [[r|] s'] eqn:E; [ | exact H ].
  destruct H as ([(Hd & _) | H] & _ & _); [ | exact H ].
  vm_compute in E. injection E as <- _. discriminate Hd.
Defined.

(** ** The object created by a transition *)

(** X13: the successor created by hatching, prepupation, pupation and the
    pupa's emergence starts in the initial state with no degree-days of its
    own, whatever the predecessor had accumulated, and with the predecessor's
    age in days, nest and location; the overwintering adult starts with the
    emergence counter 99999 and no prewinter degree-days. *)
Theorem successor_starts_without_degree_days :
  forall (env : Env) (egg larva : Osmia_Egg) (prepupa pupa : Osmia_Prepupa)
         (s : Sim) (n : nat),
    m_OurNest egg = Some n -> m_OurNest larva = Some n ->
    m_OurNest prepupa = Some n -> m_OurNest pupa = Some n ->
    returns (Osmia_Egg_st_Hatch env egg) s (fun _ s' =>
      exists new : Osmia_Larva,
        trace s' = trace s ++ [Ev_PushIndividual (Ind_Larva new);
                               Ev_nest ReplaceNestPointer n]
        /\ stage_entry egg new)
    /\ returns (Osmia_Larva_st_Prepupate env larva) s (fun _ s' =>
      exists new : Osmia_Prepupa,
        trace s' = trace s ++ [Ev_rand_uni (rand_uni s 0%nat);
                               Ev_PushIndividual (Ind_Prepupa new);
                               Ev_nest ReplaceNestPointer n]
        /\ stage_entry larva new)
    /\ returns (Osmia_Prepupa_st_Pupate env prepupa) s (fun _ s' =>
      exists new : Osmia_Pupa,
        trace s' = trace s ++ [Ev_rand_uni (rand_uni s 0%nat);
                               Ev_PushIndividual (Ind_Pupa new);
                               Ev_nest ReplaceNestPointer n]
        /\ stage_entry prepupa new)
    /\ returns (Osmia_Pupa_st_Emerge env pupa) s (fun _ s' =>
      exists new : Osmia_InCocoon,
        trace s' = trace s ++ [Ev_rand_uni (rand_uni s 0%nat);
                               Ev_PushIndividual (Ind_InCocoon new);
                               Ev_nest ReplaceNestPointer n]
        /\ stage_entry pupa new
        /\ m_emergencecounter new = 99999%Z
        /\ m_DDPrewinter new = 0).
Proof.
  intros env egg larva prepupa pupa s n H1 H2 H3 H4.
  unfold Osmia_Egg_st_Hatch, Osmia_Larva_st_Prepupate, Osmia_Prepupa_st_Pupate,
    Osmia_Pupa_st_Emerge, CreateObjects, Osmia_InCocoon_ctor, Osmia_Pupa_ctor,
    Osmia_Prepupa_ctor.
  sim_unfold. simpl. rewrite H1, H2, H3, H4. simpl.
  repeat split; eexists;
    (split; [ rewrite <- !app_assoc; reflexivity | ]);
    unfold stage_entry; simpl; repeat split; assumption.
Qed.

Lemma successor_starts_without_degree_days_witness :
  returns (Osmia_Egg_st_Hatch (sample_Env false false 150 20)
             (Egg_set_AgeDegrees 90 (sample_Egg 0))) (sample_Sim 0.5 50)
    (fun _ s' =>
       exists new : Osmia_Larva,
         trace s' = [Ev_PushIndividual (Ind_Larva new); Ev_nest ReplaceNestPointer 0]
         /\ m_AgeDegrees new = 0).
Proof.
  destruct (successor_starts_without_degree_days (sample_Env false false 150 20)
              (Egg_set_AgeDegrees 90 (sample_Egg 0)) (sample_Egg 0)
              (sample_Prepupa 45) (sample_Prepupa 45) (sample_Sim 0.5 50) 0%nat
              eq_refl eq_refl eq_refl eq_refl) as (H & _).
  unfold returns in *.
  destruct (Osmia_Egg_st_Hatch _ _ _) as [[r|] s']; [ | exact H ].
  destruct H as (new & Htr & Hentry). exists new. split; [exact Htr | apply Hentry].
Defined.

(** ** The female density grid *)

Lemma list_set_length {A : Type} (v : list A) (n : nat) (a : A) :
  length (list_set v n a) = length v.
Proof.
  revert n. induction v as [|h t IH]; intros [|n]; simpl; auto.
Qed.

Lemma nth_error_list_set_eq {A : Type} (v : list A) (n : nat) (a : A) :
  (n < length v)%nat -> nth_error (list_set v n a) n = Some a.
Proof.
  revert n. induction v as [|h t IH]; intros [|n] H; simpl in *; try lia; auto.
  apply IH. lia.
Qed.

Lemma nth_error_list_set_neq {A : Type} (v : list A) (n m : nat) (a : A) :
  n <> m -> nth_error (list_set v n a) m = nth_error v m.
Proof.
  revert n m. induction v as [|h t IH]; intros [|n] [|m] H; simpl; auto.
  contradiction.
Qed.

Lemma list_set_twice {A : Type} (v : list A) (n : nat) (a b : A) :
  list_set (list_set v n a) n b = list_set v n b.
Proof.
  revert n. induction v as [|h t IH]; intros [|n]; simpl; auto. now rewrite IH.
Qed.

Lemma list_set_same {A : Type} (v : list A) (n : nat) (a : A) :
  nth_error v n = Some a -> list_set v n a = v.
Proof.
  revert n. induction v as [|h t IH]; intros [|n] H; simpl in *; auto.
  - now injection H as ->.
  - now rewrite IH.
Qed.

Lemma vec_get_Some {A : Type} (v : list A) (i : Z) (a : A) :
  vec_get v i = Some a ->
  (0 <= i < Z.of_nat (length v))%Z /\ nth_error v (Z.to_nat i) = Some a.
Proof.
  unfold vec_get. destruct (Z.ltb_spec i 0) as [H|H]; [discriminate | ].
  intro E. split; [ | exact E ].
  assert (Z.to_nat i < length v)%nat by (apply nth_error_Some; congruence). lia.
Qed.

Lemma vec_get_in_range {A : Type} (v : list A) (i : Z) :
  (0 <= i < Z.of_nat (length v))%Z -> exists a, vec_get v i = Some a.
Proof.
  intro H. unfold vec_get. destruct (Z.ltb_spec i 0) as [H0|H0]; [lia | ].
  apply nth_error_in_range. lia.
Qed.

(** X14: adding a female at a location raises the count of the cell that the
    location indexes by one and leaves every other cell, the extent and the
    size of the grid as they are; the index returned is the one to read and
    to remove with, and removing at it gives back the grid as it was. *)
Theorem density_grid_add_then_remove :
  forall (g g' : DensityGrid) (m_x m_y index : Z),
    AddToDensityGrid_APoint g m_x m_y = Some (index, g') ->
    index = density_index g m_x m_y
    /\ m_GridExtent g' = m_GridExtent g
    /\ length (m_FemaleDensityGrid g') = length (m_FemaleDensityGrid g)
    /\ (exists d, GetDensity g index = Some d
                  /\ GetDensity g' index = Some (d + 1)%Z
                  /\ GetDensity_APoint g' m_x m_y = Some (d + 1)%Z)
    /\ (forall j, j <> index -> GetDensity g' j = GetDensity g j)
    /\ RemoveFromDensityGrid g' index = Some g.
Proof.
  intros [extent v] g' m_x m_y index.
  unfold AddToDensityGrid_APoint, AddToDensityGrid, vec_upd, GetDensity_APoint. simpl.
  set (i := density_index _ m_x m_y).
  destruct (vec_get v i) as [d|] eqn:E; [ | discriminate ].
  intros [= <- <-]. simpl.
  destruct (vec_get_Some _ _ _ E) as (Hi & Hnth).
  assert (Hget : vec_get (list_set v (Z.to_nat i) (d + 1)%Z) i = Some (d + 1)%Z).
  { unfold vec_get. destruct (Z.ltb_spec i 0); [lia | ].
    apply nth_error_list_set_eq. lia. }
  split; [reflexivity | ]. split; [reflexivity | ].
  split; [apply list_set_length | ].
  split; [ exists d; unfold GetDensity; simpl; repeat split; assumption | ].
  split.
  - intros j Hj. unfold GetDensity, vec_get. simpl.
    destruct (Z.ltb_spec j 0); [reflexivity | ].
    apply nth_error_list_set_neq. lia.
  - unfold RemoveFromDensityGrid, vec_upd. simpl. rewrite Hget.
    rewrite list_set_twice. replace (d + 1 - 1)%Z with d by lia.
    now rewrite list_set_same.
Qed.

Lemma density_grid_add_then_remove_witness :
  AddToDensityGrid_APoint (Init_DensityGrid 3000 2000) 2500 1200
  = Some (5%Z, {| m_GridExtent := 3; m_FemaleDensityGrid := [0; 0; 0; 0; 0; 1]%Z |})
  /\ RemoveFromDensityGrid
       {| m_GridExtent := 3; m_FemaleDensityGrid := [0; 0; 0; 0; 0; 1]%Z |} 5
     = Some (Init_DensityGrid 3000 2000).
Proof.
  split; [reflexivity | ].
  apply (density_grid_add_then_remove (Init_DensityGrid 3000 2000) _ 2500 1200 5 eq_refl).
Defined.

Lemma quot_1000_bounds (z : Z) :
  (0 <= z)%Z -> (1000 * Z.quot z 1000 <= z < 1000 * Z.quot z 1000 + 1000)%Z.
Proof.
  intro H. rewrite Z.quot_div_nonneg by lia.
  pose proof (Z.div_mod z 1000 ltac:(lia)).
  pose proof (Z.mod_pos_bound z 1000 ltac:(lia)). lia.
Qed.

Lemma Init_DensityGrid_get (SimW SimH i : Z) :
  (0 <= i < Z.quot SimW 1000 * Z.quot SimH 1000)%Z ->
  GetDensity (Init_DensityGrid SimW SimH) i = Some 0%Z.
Proof.
  intro H. unfold GetDensity, Init_DensityGrid, ClearDensityGrid, vec_get. simpl.
  destruct (Z.ltb_spec i 0); [lia | ].
  rewrite nth_error_map, nth_error_repeat by lia. reflexivity.
Qed.

Lemma Init_DensityGrid_outside (SimW SimH i : Z) :
  (0 <= SimW)%Z -> (0 <= SimH)%Z ->
  (Z.quot SimW 1000 * Z.quot SimH 1000 <= i)%Z ->
  AddToDensityGrid (Init_DensityGrid SimW SimH) i = None.
Proof.
  intros HW HH H. pose proof (quot_1000_bounds SimW HW). pose proof (quot_1000_bounds SimH HH).
  unfold AddToDensityGrid, vec_upd, Init_DensityGrid, ClearDensityGrid, vec_get. simpl.
  destruct (Z.ltb_spec i 0); [reflexivity | ].
  destruct (nth_error _ _) eqn:E; [ | reflexivity ].
  assert (Hlt : (Z.to_nat i < length (map (fun _ : Z => 0%Z)
            (repeat 0%Z (Z.to_nat (Z.quot SimW 1000 * Z.quot SimH 1000)))))%nat)
    by (apply nth_error_Some; congruence).
  rewrite length_map, repeat_length in Hlt. nia.
Qed.

(** X15: the grid that [Init] makes has one cell for every whole square
    kilometre of the landscape: a location within the whole kilometres reads
    0 after [Init], its index is within the vector, and two such locations
    have the same index exactly when they lie in the same square kilometre. *)
Theorem density_grid_has_a_cell_per_whole_kilometre :
  forall (SimW SimH x1 y1 x2 y2 : Z),
    (0 <= x1 < 1000 * Z.quot SimW 1000)%Z -> (0 <= y1 < 1000 * Z.quot SimH 1000)%Z ->
    (0 <= x2 < 1000 * Z.quot SimW 1000)%Z -> (0 <= y2 < 1000 * Z.quot SimH 1000)%Z ->
    let g := Init_DensityGrid SimW SimH in
    GetDensity_APoint g x1 y1 = Some 0%Z
    /\ (0 <= density_index g x1 y1 < Z.of_nat (length (m_FemaleDensityGrid g)))%Z
    /\ (density_index g x1 y1 = density_index g x2 y2
        <-> Z.quot x1 1000 = Z.quot x2 1000 /\ Z.quot y1 1000 = Z.quot y2 1000).
Proof.
  intros SimW SimH x1 y1 x2 y2 Hx1 Hy1 Hx2 Hy2 g.
  pose proof (quot_1000_bounds x1 ltac:(lia)) as Bx1.
  pose proof (quot_1000_bounds y1 ltac:(lia)) as By1.
  pose proof (quot_1000_bounds x2 ltac:(lia)) as Bx2.
  pose proof (quot_1000_bounds y2 ltac:(lia)) as By2.
  unfold GetDensity_APoint, density_index, g. simpl.
  set (ex := Z.quot SimW 1000) in *. set (ey := Z.quot SimH 1000) in *.
  set (qx1 := Z.quot x1 1000) in *. set (qy1 := Z.quot y1 1000) in *.
  set (qx2 := Z.quot x2 1000) in *. set (qy2 := Z.quot y2 1000) in *.
  assert (Hq1 : (0 <= qx1 < ex /\ 0 <= qy1 < ey)%Z) by lia.
  assert (Hq2 : (0 <= qx2 < ex /\ 0 <= qy2 < ey)%Z) by lia.
  assert (Hin : (0 <= qx1 + qy1 * ex < ex * ey)%Z) by nia.
  split; [ apply Init_DensityGrid_get; exact Hin | ].
  split; [ rewrite length_map, repeat_length; lia | ].
  split; [ | intros [-> ->]; reflexivity ].
  intro E. assert (H : qy1 = qy2) by nia. split; [rewrite H in E; lia | exact H].
Qed.

Lemma density_grid_has_a_cell_per_whole_kilometre_witness :
  GetDensity_APoint (Init_DensityGrid 3500 2000) 2500 1200 = Some 0%Z.
Proof.
  apply (density_grid_has_a_cell_per_whole_kilometre 3500 2000 2500 1200 0 0);
    simpl; lia.
Defined.

(** X16: the grid has no cell for the last, partial kilometre.  When the
    height of the landscape is not a multiple of 1000 the locations of the top
    strip index past the end of the vector, and when the width is not a
    multiple of 1000 a location of the right-hand strip has the index of the
    first cell of the next row, or an index past the end in the last row. *)
Theorem density_grid_misses_the_partial_kilometre :
  forall (SimW SimH x y : Z),
    (0 <= x < SimW)%Z -> (0 <= y < SimH)%Z ->
    let g := Init_DensityGrid SimW SimH in
    ((1000 * Z.quot SimH 1000 <= y)%Z -> AddToDensityGrid_APoint g x y = None)
    /\ ((1000 * Z.quot SimW 1000 <= x)%Z ->
        density_index g x y = density_index g 0 (y + 1000)
        /\ ((1000 * (Z.quot SimH 1000 - 1) <= y)%Z ->
            AddToDensityGrid_APoint g x y = None)).
Proof.
  intros SimW SimH x y Hx Hy g. subst g.
  pose proof (quot_1000_bounds SimW ltac:(lia)) as BW.
  pose proof (quot_1000_bounds SimH ltac:(lia)) as BH.
  pose proof (quot_1000_bounds x ltac:(lia)) as Bx.
  pose proof (quot_1000_bounds y ltac:(lia)) as By.
  pose proof (quot_1000_bounds (y + 1000) ltac:(lia)) as By'.
  assert (Hrow : Z.quot (y + 1000) 1000 = (Z.quot y 1000 + 1)%Z) by lia.
  assert (Hnone : (Z.quot SimW 1000 * Z.quot SimH 1000
                   <= density_index (Init_DensityGrid SimW SimH) x y)%Z ->
                  AddToDensityGrid_APoint (Init_DensityGrid SimW SimH) x y = None).
  { intro H. unfold AddToDensityGrid_APoint.
    rewrite Init_DensityGrid_outside; [reflexivity | lia | lia | exact H]. }
  unfold density_index, Init_DensityGrid, ClearDensityGrid in *.
  cbn [m_GridExtent] in *.
  set (ex := Z.quot SimW 1000) in *. set (ey := Z.quot SimH 1000) in *.
  set (qx := Z.quot x 1000) in *. set (qy := Z.quot y 1000) in *.
  assert (H0 : (0 <= ex /\ 0 <= ey /\ 0 <= qx /\ 0 <= qy)%Z) by lia.
  split.
  - intro H. apply Hnone. assert (ey <= qy)%Z by lia.
    assert (ex * ey <= ex * qy)%Z by (apply Z.mul_le_mono_nonneg_l; lia). lia.
  - intro H. assert (qx = ex) by lia. split.
    + rewrite Hrow. change (Z.quot 0 1000) with 0%Z. lia.
    + intro H'. apply Hnone. assert (ey - 1 <= qy)%Z by lia.
      assert (ex * (ey - 1) <= ex * qy)%Z by (apply Z.mul_le_mono_nonneg_l; lia). lia.
Qed.

Lemma density_grid_misses_the_partial_kilometre_witness :
  AddToDensityGrid_APoint (Init_DensityGrid 3000 2500) 100 2100 = None
  /\ density_index (Init_DensityGrid 3500 2000) 3200 100
     = density_index (Init_DensityGrid 3500 2000) 0 1100.
Proof.
  split.
  - destruct (density_grid_misses_the_partial_kilometre 3000 2500 100 2100
                ltac:(lia) ltac:(lia)) as (H & _).
    apply H. vm_compute. discriminate.
  - destruct (density_grid_misses_the_partial_kilometre 3500 2000 3200 100
                ltac:(lia) ltac:(lia)) as (_ & H).
    apply H. vm_compute. discriminate.
Defined.

(** ** The parasitoid grid *)

Lemma wrap32_small (z : Z) : (0 <= z < 2 ^ 32)%Z -> wrap32 z = z.
Proof. intro H. unfold wrap32. now apply Z.mod_small. Qed.

(** X17: for a location within the grid and sizes without overflow, the
    index that [AddParasitoid] computes is the cell of the location within
    the block of the type: block 0 for [topara_Bombylid], block 1 for
    [topara_Cleptoparasite]; the blocks of different types do not overlap.
    For [topara_Unparasitised] the [unsigned] subtraction wraps around and the
    index is negative, so the call has no result. *)
Theorem AddParasitoid_index_is_the_cell_in_the_block_of_the_type :
  forall (pm : OsmiaParasitoid_Population_Manager) (a_type : TTypeOfOsmiaParasitoids)
         (a_x a_y : Z),
    (0 < m_CellSize pm)%Z ->
    (0 <= a_x)%Z -> (0 <= a_y)%Z ->
    (a_x / m_CellSize pm < m_Wide pm)%Z ->
    (a_y / m_CellSize pm < m_High pm)%Z ->
    m_Size pm = (m_Wide pm * m_High pm)%Z ->
    (a_x < 2 ^ 31)%Z -> (a_y < 2 ^ 31)%Z ->
    (3 * m_Size pm < 2 ^ 31)%Z ->
    let cell := (a_x / m_CellSize pm + (a_y / m_CellSize pm) * m_Wide pm)%Z in
    (0 <= cell < m_Size pm)%Z
    /\ AddParasitoid_subpop pm a_type a_x a_y
       = Some ((parasitoid_code a_type - 1) * m_Size pm + cell)%Z
    /\ (a_type = topara_Unparasitised -> AddParasitoid pm a_type a_x a_y = None).
Proof.
  intros pm a_type a_x a_y Hcs Hx Hy Hw Hh Hsize Hx31 Hy31 Hov cell.
  assert (Hqx : (0 <= a_x / m_CellSize pm)%Z) by (apply Z.div_pos; lia).
  assert (Hqy : (0 <= a_y / m_CellSize pm)%Z) by (apply Z.div_pos; lia).
  assert (Hcell : (0 <= cell < m_Size pm)%Z).
  { unfold cell. rewrite Hsize. nia. }
  assert (Hrow : (0 <= a_y / m_CellSize pm * m_Wide pm < 2 ^ 32)%Z) by (unfold cell in *; nia).
  assert (Hsub : AddParasitoid_subpop pm a_type a_x a_y
                 = Some ((parasitoid_code a_type - 1) * m_Size pm + cell)%Z).
  { unfold AddParasitoid_subpop.
    destruct (Z.eqb_spec (m_CellSize pm) 0) as [H0|H0]; [lia | ].
    rewrite (wrap32_small a_x), (wrap32_small a_y) by lia.
    rewrite (wrap32_small (a_y / m_CellSize pm * m_Wide pm)) by exact Hrow.
    fold cell. rewrite (wrap32_small cell) by lia.
    f_equal. destruct a_type; simpl parasitoid_code.
    - change (wrap32 (0 - 1)) with (2 ^ 32 - 1)%Z.
      assert (E : wrap32 ((2 ^ 32 - 1) * m_Size pm) = (2 ^ 32 - m_Size pm)%Z).
      { unfold wrap32.
        replace ((2 ^ 32 - 1) * m_Size pm)%Z
          with ((2 ^ 32 - m_Size pm) + (m_Size pm - 1) * 2 ^ 32)%Z by ring.
        rewrite Z.mod_add by lia. apply Z.mod_small. lia. }
      rewrite E. rewrite (wrap32_small (cell + (2 ^ 32 - m_Size pm))) by lia.
      unfold to_int32. destruct (Z.ltb_spec (cell + (2 ^ 32 - m_Size pm)) (2 ^ 31)); lia.
    - change (wrap32 (1 - 1)) with 0%Z. rewrite Z.mul_0_l.
      change (wrap32 0) with 0%Z. rewrite Z.add_0_r, (wrap32_small cell) by lia.
      unfold to_int32. destruct (Z.ltb_spec cell (2 ^ 31)); lia.
    - change (wrap32 (2 - 1)) with 1%Z. rewrite Z.mul_1_l.
      rewrite (wrap32_small (m_Size pm)), (wrap32_small (cell + m_Size pm)) by lia.
      unfold to_int32. destruct (Z.ltb_spec (cell + m_Size pm) (2 ^ 31)); lia.
    - change (wrap32 (3 - 1)) with 2%Z.
      rewrite (wrap32_small (2 * m_Size pm)), (wrap32_small (cell + 2 * m_Size pm)) by lia.
      unfold to_int32. destruct (Z.ltb_spec (cell + 2 * m_Size pm) (2 ^ 31)); lia. }
  split; [exact Hcell | ]. split; [exact Hsub | ].
  intros ->. unfold AddParasitoid. rewrite Hsub. simpl parasitoid_code.
  unfold vec_upd, vec_get.
  destruct (Z.ltb_spec ((0 - 1) * m_Size pm + cell) 0); [reflexivity | lia].
Qed.

Lemma AddParasitoid_index_is_the_cell_in_the_block_of_the_type_witness :
  AddParasitoid_subpop
    {| m_SubPopulations := repeat 0 12; m_Wide := 3; m_High := 2;
       m_CellSize := 1000; m_Size := 6 |} topara_Cleptoparasite 2500 1200
  = Some 11%Z.
Proof.
  destruct (AddParasitoid_index_is_the_cell_in_the_block_of_the_type
              {| m_SubPopulations := repeat 0 12; m_Wide := 3; m_High := 2;
                 m_CellSize := 1000; m_Size := 6 |} topara_Cleptoparasite 2500 1200)
    as (_ & H & _);
    [ first [ reflexivity | vm_compute; reflexivity | vm_compute; discriminate ] ..
    | exact H ].
Defined.

(** ** Provision mass and adult mass *)

(** X18: the provision mass targets that [SetParameterValues] derives are the
    adult mass limits sent back through the conversion that
    [Osmia_InCocoon::st_Emerge] applies: with a positive slope, an
    unparasitised female whose cocoon mass lies between the female targets
    emerges as an adult whose mass lies between the configured minimum and
    maximum. *)
Theorem provision_targets_give_the_adult_mass_limits :
  forall (c : Cfg) (mc : MassCfg) (env : Env) (this : Osmia_InCocoon) (s : Sim) (n : nat),
    statics env = SetParameterValues c ->
    0 < m_OsmiaFemaleMassFromProvMassSlope (SetParameterValues c) ->
    m_Sex this = true ->
    m_ParasitoidStatus this = topara_Unparasitised ->
    m_OurNest this = Some n ->
    m_FemaleMinTargetProvisionMass (SetParameterValues_mass c mc) <= m_Mass this ->
    m_Mass this <= m_FemaleMaxTargetProvisionMass (SetParameterValues_mass c mc) ->
    returns (Osmia_InCocoon_st_Emerge env this) s (fun _ s' =>
      exists female : Osmia_InCocoon,
        trace s' = trace s ++ [Ev_rand_uni (rand_uni s 0%nat);
                               Ev_PushIndividual (Ind_Female female);
                               Ev_nest RemoveCell n]
        /\ m_FemaleMinMass (SetParameterValues_mass c mc) <= m_Mass female
        /\ m_Mass female <= m_FemaleMaxMass (SetParameterValues_mass c mc)).
Proof.
  intros c mc env this s n Hst Hslope Hsex Hpar Hn Hmin Hmax.
  pose proof (Osmia_InCocoon_st_Emerge_spec env this s n Hn) as H.
  unfold returns in *.
  destruct (Osmia_InCocoon_st_Emerge env this s) as [[r|] s']; [ | exact H ].
  rewrite Hsex, Hpar in H. simpl in H.
  destruct H as (_ & female & Htr & Hmass & _).
  exists female. split; [exact Htr | ].
  rewrite Hmass, Hst. unfold SetParameterValues_mass in *. simpl in *.
  set (k := cfg_OsmiaFemaleMassFromProvMassSlope c) in *.
  set (b := cfg_OsmiaFemaleMassFromProvMassConst c) in *.
  clearbody k b.
  assert (Hk : ~ k == 0) by (intro E; lra).
  assert (E1 : k * ((cfg_OsmiaFemaleMassMin mc - b) / k) + b == cfg_OsmiaFemaleMassMin mc)
    by (field; exact Hk).
  assert (E2 : k * ((cfg_OsmiaFemaleMassMax mc - b) / k) + b == cfg_OsmiaFemaleMassMax mc)
    by (field; exact Hk).
  split.
  - rewrite <- E1. apply Qplus_le_l, Qmult_le_l; assumption.
  - rewrite <- E2. apply Qplus_le_l, Qmult_le_l; assumption.
Qed.

Lemma provision_targets_give_the_adult_mass_limits_witness :
  returns (Osmia_InCocoon_st_Emerge (sample_Env true true 100 10) (sample_InCocoon 0 0))
          (sample_Sim 0.5 50) (fun _ s' =>
    exists female : Osmia_InCocoon,
      trace s' = [Ev_rand_uni 0.5; Ev_PushIndividual (Ind_Female female);
                  Ev_nest RemoveCell 0]
      /\ 30 <= m_Mass female
      /\ m_Mass female <= 40).
Proof.
  apply (provision_targets_give_the_adult_mass_limits default_Cfg
           {| cfg_OsmiaMaleMassMax := 100; cfg_OsmiaFemaleMassMin := 30;
              cfg_OsmiaFemaleMassMax := 40 |}
           (sample_Env true true 100 10) (sample_InCocoon 0 0) (sample_Sim 0.5 50) 0%nat);
    first [ reflexivity | discriminate ].
Defined.

(** ** Seeding the population *)

(** X19: one round of the seeding loop makes the mass draw and the polygon
    draw and creates one overwintering adult in a new nest: an unparasitised
    female with emergence counter 99999 and no prewinter degree-days, whose
    cocoon mass lies between the two seeding limits and whose adult mass
    after the default conversion (slope 0.25, constant 4) lies between the
    configured female minimum and maximum.  Its winter degree-days are the
    configured initial value, and 2000 after the loop that follows, whatever
    that value is. *)
Theorem seeded_adult_is_a_female_within_the_mass_limits :
  forall (env : Env) (mc : MassCfg)
         (cfg_OsmiaOverwinterDegreeDaysInitialSimu : Q) (uninit_age : Z)
         (suitable_polygons : list Z) (SupplyARandomLocPoly : Z -> Z * Z)
         (CreateNest : Z -> Z -> Z -> option nat) (s : Sim) (pindex : Z) (n : nat),
    vec_get suitable_polygons (rand_int s 0%nat) = Some pindex ->
    CreateNest (fst (SupplyARandomLocPoly pindex)) (snd (SupplyARandomLocPoly pindex))
               pindex = Some n ->
    0 <= rand_uni s 0%nat -> rand_uni s 0%nat < 1 ->
    cfg_OsmiaFemaleMassMin mc <= cfg_OsmiaFemaleMassMax mc ->
    returns (seed_one env mc cfg_OsmiaOverwinterDegreeDaysInitialSimu uninit_age
               suitable_polygons SupplyARandomLocPoly CreateNest) s (fun _ s' =>
      exists new : Osmia_InCocoon,
        trace s' = trace s ++ [Ev_rand_uni (rand_uni s 0%nat);
                               Ev_random (Z.of_nat (length suitable_polygons))
                                         (rand_int s 0%nat);
                               Ev_rand_uni (rand_uni s 1%nat);
                               Ev_PushIndividual (Ind_InCocoon new);
                               Ev_nest AddCocoon n]
        /\ m_Sex new = true
        /\ m_ParasitoidStatus new = topara_Unparasitised
        /\ m_OurNest new = Some n
        /\ m_emergencecounter new = 99999%Z
        /\ m_DDPrewinter new = 0
        /\ m_AgeDegrees new = cfg_OsmiaOverwinterDegreeDaysInitialSimu
        /\ m_AgeDegrees (seed_SetAgeDegrees new) = 2000
        /\ (cfg_OsmiaFemaleMassMin mc - 4) / 0.25 <= m_Mass new
        /\ m_Mass new <= (cfg_OsmiaFemaleMassMax mc - 4) / 0.25
        /\ cfg_OsmiaFemaleMassMin mc <= 0.25 * m_Mass new + 4
        /\ 0.25 * m_Mass new + 4 <= cfg_OsmiaFemaleMassMax mc).
Proof.
  intros env mc dd0 uninit_age polys loc CreateNest s pindex n Hpoly Hnest Hu0 Hu1 Hmm.
  unfold seed_one, CreateObjects, Osmia_InCocoon_ctor, Osmia_Pupa_ctor, Osmia_Prepupa_ctor.
  sim_unfold. simpl. rewrite Hpoly. simpl. rewrite Hnest. simpl.
  eexists. split; [ rewrite <- !app_assoc; reflexivity | ]. simpl.
  repeat (split; [reflexivity | ]).
  set (u := rand_uni s 0%nat) in *. clearbody u.
  set (lo := cfg_OsmiaFemaleMassMin mc) in *. set (hi := cfg_OsmiaFemaleMassMax mc) in *.
  clearbody lo hi.
  assert (Hd : 0 <= (hi - lo) * u) by (apply Qmult_le_0_compat; lra).
  assert (Hd' : 0 <= (hi - lo) * (1 - u)) by (apply Qmult_le_0_compat; lra).
  assert (E : (lo - 4) / 0.25 + ((hi - 4) / 0.25 - (lo - 4) / 0.25) * u
              == 4 * (lo - 4) + 4 * ((hi - lo) * u)) by (field; discriminate).
  assert (Elo : (lo - 4) / 0.25 == 4 * (lo - 4)) by (field; discriminate).
  assert (Ehi : (hi - 4) / 0.25 == 4 * (hi - 4)) by (field; discriminate).
  rewrite E, Elo, Ehi. repeat split; lra.
Qed.

Lemma seeded_adult_is_a_female_within_the_mass_limits_witness :
  returns (seed_one (sample_Env true false 1 5)
             {| cfg_OsmiaMaleMassMax := 100; cfg_OsmiaFemaleMassMin := 30;
                cfg_OsmiaFemaleMassMax := 40 |}
             0 0 [7; 9]%Z (fun p => (p * 10, p * 20)%Z) (fun _ _ _ => Some 0%nat))
          (sample_Sim 0.5 1) (fun _ s' =>
    exists new : Osmia_InCocoon,
      trace s' = [Ev_rand_uni 0.5; Ev_random 2 1; Ev_rand_uni 0.5;
                  Ev_PushIndividual (Ind_InCocoon new); Ev_nest AddCocoon 0]
      /\ m_Mass new == 124
      /\ m_AgeDegrees (seed_SetAgeDegrees new) = 2000).
Proof.
  pose proof (seeded_adult_is_a_female_within_the_mass_limits
                (sample_Env true false 1 5)
                {| cfg_OsmiaMaleMassMax := 100; cfg_OsmiaFemaleMassMin := 30;
                   cfg_OsmiaFemaleMassMax := 40 |}
                0 0 [7; 9]%Z (fun p => (p * 10, p * 20)%Z) (fun _ _ _ => Some 0%nat)
                (sample_Sim 0.5 1) 9%Z 0%nat eq_refl eq_refl
                ltac:(discriminate) eq_refl ltac:(discriminate)) as H.
  unfold returns in *.
  destruct (seed_one _ _ _ _ _ _ _ _) as [[r|] s'] eqn:E; [ | exact H ].
  destruct H as (new & Htr & _ & _ & _ & _ & _ & _ & H2000 & _).
  exists new. split; [exact Htr | ]. split; [ | exact H2000 ].
  vm_compute in E. injection E as _ <-. simpl in Htr.
  injection Htr as <-. reflexivity.
Defined.
